(** * Atomic migration core of the Para wallet migration server

    A shallow embedding of [src/core/migration-engine.ts] and
    [src/core/replacement-strategy.ts] (which also holds the atomic
    validator): the project-state model, the strategy selector, the
    replacement strategies, the three batteries of the validator, the
    success score and the four phases of the engine; and of the tool
    dispatcher of [src/index.ts], on the three tools that the engine
    serves.

    Conventions.
    - JavaScript strings are [string]s (byte sequences); every pattern the
      program searches for is ASCII, so substring tests agree with the
      UTF-16 ones.
    - A [number] that holds a line number or a score is a [Z]; the one
      floating-point computation of the program ([Math.round] in the score)
      is carried out on binary64 floats.
    - A [Record<string, T>] is an association list in insertion order with
      unique keys, so that [Object.keys] is [map fst].
    - An [async] function is modelled by its result; a rejected promise is
      a [Thrown] outcome. *)

From Stdlib Require Import String Ascii List ZArith Bool Lia DecimalString Floats Sorted.
Import ListNotations.
Open Scope string_scope.
Open Scope list_scope.
Open Scope Z_scope.

Set Implicit Arguments.
Set Warnings "-register-all".

(** ** JavaScript strings and arrays *)

Module Js.

(** [s.includes(pat)] *)
Fixpoint includes (s pat : string) : bool :=
  String.prefix pat s
  || match s with
     | EmptyString => false
     | String _ s' => includes s' pat
     end.

(** [arr.includes(x)] on an array of strings *)
Definition array_includes (arr : list string) (x : string) : bool :=
  existsb (String.eqb x) arr.

(** [arr.some(p)] *)
Definition some {A} (p : A -> bool) (arr : list A) : bool := existsb p arr.

Fixpoint drop (n : nat) (s : string) : string :=
  match n, s with
  | O, _ => s
  | S n', String _ s' => drop n' s'
  | S _, EmptyString => EmptyString
  end.

(** [s.replace(pat, rep)] with a string pattern: the first occurrence
    only.  The replacement strings of this program hold no [$], so the
    replacement patterns of JavaScript never apply. *)
Fixpoint replace (s pat rep : string) : string :=
  if String.prefix pat s then (rep ++ drop (String.length pat) s)%string
  else match s with
       | EmptyString => EmptyString
       | String c s' => String c (replace s' pat rep)
       end.

(** [s.replace(/[@/]/g, '-')] *)
Fixpoint replace_at_slash (s : string) : string :=
  match s with
  | EmptyString => EmptyString
  | String c s' =>
      String (if Ascii.eqb c "@" || Ascii.eqb c "/" then "-"%char else c)
             (replace_at_slash s')
  end.

(** [s.toLowerCase()], on the ASCII letters *)
Definition lower_char (c : ascii) : ascii :=
  let n := nat_of_ascii c in
  if (Nat.leb 65 n && Nat.leb n 90)%bool then ascii_of_nat (n + 32) else c.

Fixpoint toLowerCase (s : string) : string :=
  match s with
  | EmptyString => EmptyString
  | String c s' => String (lower_char c) (toLowerCase s')
  end.

(** [`${n}`] for an integral number *)
Definition string_of_number (n : Z) : string :=
  NilZero.string_of_int (Z.to_int n).

(** The values a [Record<string, unknown>] of provider props may hold.
    Numbers are integral; arrays and functions are left out. *)
Inductive value : Type :=
| Undefined
| Null
| Bool (b : bool)
| Number (n : Z)
| Str (s : string)
| Object (fields : list (string * value)).

Definition truthy (v : value) : bool :=
  match v with
  | Undefined | Null => false
  | Bool b => b
  | Number n => negb (n =? 0)
  | Str s => negb (String.eqb s EmptyString)
  | Object _ => true
  end.

(** [a || b] *)
Definition or (a b : value) : value := if truthy a then a else b.

(** [`${v}`] *)
Definition to_string (v : value) : string :=
  match v with
  | Undefined => "undefined"
  | Null => "null"
  | Bool true => "true"
  | Bool false => "false"
  | Number n => string_of_number n
  | Str s => s
  | Object _ => "[object Object]"
  end.

(** [obj.key] on a record: [undefined] when the key is absent *)
Fixpoint get (obj : list (string * value)) (key : string) : value :=
  match obj with
  | [] => Undefined
  | (k, v) :: rest => if String.eqb k key then v else get rest key
  end.

(** [Object.keys(obj)] *)
Definition keys {A} (obj : list (string * A)) : list string := map fst obj.

(** The names of the members of [Object.prototype], which every object
    literal inherits: [obj[key]] finds them although they are not keys of
    [obj]. *)
Definition Object_prototype : list string :=
  [ "constructor"; "__defineGetter__"; "__defineSetter__"; "hasOwnProperty";
    "__lookupGetter__"; "__lookupSetter__"; "isPrototypeOf";
    "propertyIsEnumerable"; "toString"; "valueOf"; "__proto__";
    "toLocaleString" ].

(** The integers that a [number] holds exactly and prints digit by
    digit. *)
Definition isSafeInteger (n : Z) : bool := Z.abs n <=? 9007199254740991.

(** A thrown [Error]; [`${e}`] prints it as ["Error: " ++ message]. *)
Record Error : Type := mkError { message : string }.

Definition error_to_string (e : Error) : string :=
  ("Error: " ++ message e)%string.

(** The double quote, for the texts that hold one. *)
Definition dq : string := String (ascii_of_nat 34) EmptyString.

(** Binary64 arithmetic: the integral part of a finite float, and
    [Math.round] as [floor (x + 0.5)], which is what it computes away
    from the ends of the range. *)
Definition floor (x : float) : Z :=
  match Prim2SF x with
  | SpecFloat.S754_finite s m e => Z.shiftl (if s then Zneg m else Zpos m) e
  | _ => 0
  end.

Definition Math_round (x : float) : Z := floor (x + 0.5)%float.

Definition number (n : Z) : float := PrimFloat.of_uint63 (Uint63.of_Z n).

(** [arr.join(sep)] *)
Fixpoint join (sep : string) (arr : list string) : string :=
  match arr with
  | [] => EmptyString
  | [x] => x
  | x :: rest => (x ++ sep ++ join sep rest)%string
  end.

(** The digit of [n], below 16, in lower-case hexadecimal. *)
Definition hex_digit (n : nat) : ascii :=
  nth n [ "0"; "1"; "2"; "3"; "4"; "5"; "6"; "7"; "8"; "9";
          "a"; "b"; "c"; "d"; "e"; "f" ]%char "0"%char.

(** How [JSON.stringify] writes one character of a string: the quote and
    the backslash are escaped, the control characters too. *)
Definition json_escape_char (c : ascii) : string :=
  let n := nat_of_ascii c in
  if Nat.eqb n 34 then ("\" ++ dq)%string
  else if Nat.eqb n 92 then "\\"
  else if Nat.eqb n 8 then "\b"
  else if Nat.eqb n 9 then "\t"
  else if Nat.eqb n 10 then "\n"
  else if Nat.eqb n 12 then "\f"
  else if Nat.eqb n 13 then "\r"
  else if Nat.ltb n 32 then
    String "\" (String "u" (String "0" (String "0"
      (String (hex_digit (Nat.div n 16)) (String (hex_digit (Nat.modulo n 16))
         EmptyString)))))
  else String c EmptyString.

Fixpoint json_escape (s : string) : string :=
  match s with
  | EmptyString => EmptyString
  | String c rest => (json_escape_char c ++ json_escape rest)%string
  end.

Definition json_quote (s : string) : string :=
  (dq ++ json_escape s ++ dq)%string.

(** [JSON.stringify(v)], [None] standing for [undefined]: a property whose
    value is [undefined] is left out of its object.  Keys that are array
    indices, which JavaScript lists first, are outside the model. *)
Fixpoint JSON_stringify (v : value) : option string :=
  match v with
  | Undefined => None
  | Null => Some "null"
  | Bool true => Some "true"
  | Bool false => Some "false"
  | Number n => Some (string_of_number n)
  | Str s => Some (json_quote s)
  | Object fields =>
      let fix members (l : list (string * value)) : list string :=
        match l with
        | [] => []
        | (k, x) :: rest =>
            match JSON_stringify x with
            | Some t => (json_quote k ++ ":" ++ t)%string :: members rest
            | None => members rest
            end
        end in
      Some ("{" ++ join "," (members fields) ++ "}")%string
  end.

(** The members [JSON.stringify] writes between the braces of an object. *)
Definition JSON_members (fields : list (string * value)) : list string :=
  flat_map (fun kx : string * value =>
              match JSON_stringify (snd kx) with
              | Some t => [ (json_quote (fst kx) ++ ":" ++ t)%string ]
              | None => []
              end)
           fields.

(** [JSON.stringify(props)] of a record of props *)
Definition JSON_stringify_record (props : list (string * value)) : string :=
  match JSON_stringify (Object props) with
  | Some t => t
  | None => "undefined"
  end.

End Js.

(** ** Core types ([migration-engine.ts]) *)

Module ImportType.
Inductive t : Type := privy | reown | web3modal | wagmi | para | other.

Definition eqb (a b : t) : bool :=
  match a, b with
  | privy, privy | reown, reown | web3modal, web3modal
  | wagmi, wagmi | para, para | other, other => true
  | _, _ => false
  end.
End ImportType.

Module FileImport.
Record t : Type := mk {
  file : string;
  line : Z;
  import : string;
  from : string;
  type : ImportType.t
}.
End FileImport.

Module ProviderUsage.
Record t : Type := mk {
  file : string;
  line : Z;
  provider : string;
  props : list (string * Js.value);
  active : bool
}.
End ProviderUsage.

Module HookUsage.
Record t : Type := mk {
  file : string;
  line : Z;
  hook : string;
  from : string;
  usage : string
}.
End HookUsage.

Module StyleImport.
Record t : Type := mk {
  file : string;
  line : Z;
  import : string;
  isParaStyle : bool
}.
End StyleImport.

Record ProjectState : Type := mkProjectState {
  dependencies : list (string * string);
  imports : list FileImport.t;
  providers : list ProviderUsage.t;
  hooks : list HookUsage.t;
  styles : list StyleImport.t;
  entryPoints : list string
}.

Module OperationType.
Inductive t : Type := dependency | import | provider | hook | style.

Definition eqb (a b : t) : bool :=
  match a, b with
  | dependency, dependency | import, import | provider, provider
  | hook, hook | style, style => true
  | _, _ => false
  end.
End OperationType.

Record ReplacementOperation : Type := mkOperation {
  id : string;
  type : OperationType.t;
  file : option string;
  line : option Z;
  oldValue : string;
  newValue : string;
  critical : bool
}.

Module Severity.
Inductive t : Type := critical | warning | info.
End Severity.

Module ValidationIssue.
Record t : Type := mk {
  severity : Severity.t;
  code : string;
  message : string;
  file : option string;
  line : option Z;
  fix_ : option string
}.
End ValidationIssue.

Record ValidationResult : Type := mkValidation {
  valid : bool;
  issues : list ValidationIssue.t;
  warnings : list string
}.

Inductive MigrationStrategy : Type :=
| PRIVY_TO_PARA
| REOWN_TO_PARA
| WEB3MODAL_TO_PARA
| WALLETCONNECT_TO_PARA.

(** The string each member of the enum stands for. *)
Definition strategy_value (s : MigrationStrategy) : string :=
  match s with
  | PRIVY_TO_PARA => "privy-to-para"
  | REOWN_TO_PARA => "reown-to-para"
  | WEB3MODAL_TO_PARA => "web3modal-to-para"
  | WALLETCONNECT_TO_PARA => "walletconnect-to-para"
  end.

(** [HOOK_REPLACEMENT_MAP['privy-to-para']] *)
Definition HOOK_REPLACEMENT_MAP_privy : list (string * string) :=
  [ ("usePrivy", "useAccount");
    ("useWallets", "useWallet");
    ("useLogin", "useConnect");
    ("useLogout", "useDisconnect");
    ("useEmbeddedWallet", "useWallet") ].

(** [table[key] || null] on a table of non-empty strings, for the keys
    that are not in [Js.Object_prototype].  For one of those the program
    finds the inherited member, which is truthy, where this function
    answers [None]: the statements that depend on the answer assume
    [plain_usage] of the hooks they are about. *)
Fixpoint lookup_or_null (table : list (string * string)) (key : string)
  : option string :=
  match table with
  | [] => None
  | (k, v) :: rest =>
      if String.eqb k key then
        (if String.eqb v EmptyString then None else Some v)
      else lookup_or_null rest key
  end.

(** The outcome of a call that may throw. *)
Inductive outcome (A : Type) : Type :=
| Returned (a : A)
| Thrown (e : Js.Error).
Arguments Returned {A} a.
Arguments Thrown {A} e.

(** ** Replacement strategies ([replacement-strategy.ts]) *)

(** The interface [ReplacementStrategy]. *)
Record ReplacementStrategy : Type := mkStrategy {
  strategy : MigrationStrategy;
  execute : ProjectState -> list ReplacementOperation;
  validate : ProjectState -> bool;
  getEstimatedTime : Z
}.

(** A chain of [if (s.includes(pat)) return s.replace(pat, rep)]: the
    first rule whose pattern occurs in [s] rewrites it. *)
Fixpoint replace_first_match (rules : list (string * string)) (s : string)
  : option string :=
  match rules with
  | [] => None
  | (pat, rep) :: rest =>
      if Js.includes s pat then Some (Js.replace s pat rep)
      else replace_first_match rest s
  end.

Definition add_para_react : ReplacementOperation :=
  {| id := "add-para-react"; type := OperationType.dependency;
     file := None; line := None;
     oldValue := EmptyString; newValue := "@para-wallet/react";
     critical := true |}.

Definition replace_import (newImport : string -> string) (i : FileImport.t)
  : ReplacementOperation :=
  {| id := "replace-import-" ++ FileImport.file i ++ "-"
           ++ Js.string_of_number (FileImport.line i);
     type := OperationType.import;
     file := Some (FileImport.file i); line := Some (FileImport.line i);
     oldValue := FileImport.import i;
     newValue := newImport (FileImport.import i);
     critical := true |}.

Definition replace_provider (oldText newText : ProviderUsage.t -> string)
  (p : ProviderUsage.t) : ReplacementOperation :=
  {| id := "replace-provider-" ++ ProviderUsage.file p ++ "-"
           ++ Js.string_of_number (ProviderUsage.line p);
     type := OperationType.provider;
     file := Some (ProviderUsage.file p); line := Some (ProviderUsage.line p);
     oldValue := oldText p;
     newValue := newText p;
     critical := true |}.

(** The hook rewrite, emitted only when the table knows the hook. *)
Definition replace_hook (replacement : string -> option string)
  (h : HookUsage.t) : list ReplacementOperation :=
  match replacement (HookUsage.hook h) with
  | Some newHook =>
      [ {| id := "replace-hook-" ++ HookUsage.file h ++ "-"
                 ++ Js.string_of_number (HookUsage.line h);
           type := OperationType.hook;
           file := Some (HookUsage.file h); line := Some (HookUsage.line h);
           oldValue := HookUsage.usage h;
           newValue := Js.replace (HookUsage.usage h) (HookUsage.hook h) newHook;
           critical := false |} ]
  | None => []
  end.

Definition add_para_css (entryPoint : string) : ReplacementOperation :=
  {| id := "add-para-css-" ++ entryPoint;
     type := OperationType.style;
     file := Some entryPoint; line := None;
     oldValue := EmptyString;
     newValue := "import '@para-wallet/react/styles.css'";
     critical := true |}.

Module PrivyToParaStrategy.

Definition getParaImportReplacement (privyImport : string) : string :=
  match replace_first_match
          [ ("usePrivy", "useAccount");
            ("useWallets", "useWallet");
            ("useLogin", "useConnect");
            ("useLogout", "useDisconnect");
            ("PrivyProvider", "ParaProvider, ParaModal") ] privyImport with
  | Some r => r
  | None => Js.replace privyImport "@privy-io/react-auth" "@para-wallet/react"
  end.

Definition getHookReplacement (privyHook : string) : option string :=
  lookup_or_null HOOK_REPLACEMENT_MAP_privy privyHook.

Definition generatePrivyProvider (props : list (string * Js.value)) : string :=
  "<PrivyProvider
  appId={" ++ Js.to_string (Js.or (Js.get props "appId") (Js.Str "PRIVY_APP_ID")) ++ "}
  clientId={" ++ Js.to_string (Js.or (Js.get props "clientId") (Js.Str "PRIVY_CLIENT_ID")) ++ "}
  config={{...}}
>
  {children}
</PrivyProvider>".

Definition generateParaProvider (props : list (string * Js.value)) : string :=
  "<ParaProvider
  config={{
    apiKey: " ++ Js.to_string (Js.or (Js.get props "appId") (Js.Str "PARA_API_KEY")) ++ ",
    paraClientConfig: {
      env: Environment.DEVELOPMENT,
    },
    embeddedWalletConfig: {
      createOnLogin: " ++ Js.dq ++ "all-users" ++ Js.dq ++ ",
      showWalletUiOnLogin: true,
    }
  }}
>
  {children}
  {/* ⚠️ CRITICAL: ParaModal is REQUIRED - #1 missing piece in failed migrations */}
  <ParaModal />
</ParaProvider>".

Definition execute (state : ProjectState) : list ReplacementOperation :=
  [ {| id := "remove-privy-deps"; type := OperationType.dependency;
       file := None; line := None;
       oldValue := "@privy-io/react-auth"; newValue := EmptyString;
       critical := true |};
    {| id := "remove-privy-wagmi"; type := OperationType.dependency;
       file := None; line := None;
       oldValue := "@privy-io/wagmi"; newValue := EmptyString;
       critical := true |};
    add_para_react ]
  ++ map (replace_import getParaImportReplacement)
       (filter (fun i => ImportType.eqb (FileImport.type i) ImportType.privy)
               (imports state))
  ++ map (replace_provider
            (fun p => generatePrivyProvider (ProviderUsage.props p))
            (fun p => generateParaProvider (ProviderUsage.props p)))
       (filter (fun p => String.eqb (ProviderUsage.provider p) "PrivyProvider")
               (providers state))
  ++ flat_map (replace_hook getHookReplacement)
       (filter (fun h => Js.includes (HookUsage.from h) "privy") (hooks state))
  ++ map add_para_css (entryPoints state).

Definition validate (state : ProjectState) : bool :=
  let hasPrivyAuth :=
    Js.array_includes (Js.keys (dependencies state)) "@privy-io/react-auth" in
  let hasPrivyImports :=
    Js.some (fun i => ImportType.eqb (FileImport.type i) ImportType.privy)
            (imports state) in
  hasPrivyAuth || hasPrivyImports.

Definition new : ReplacementStrategy :=
  mkStrategy PRIVY_TO_PARA execute validate 180.

End PrivyToParaStrategy.

Module ReownToParaStrategy.

Definition reownDependencies : list string :=
  [ "@reown/appkit";
    "@reown/appkit-adapter-wagmi";
    "@reown/appkit-react";
    "@reown/appkit-siwe";
    "@web3modal/wagmi";
    "@web3modal/siwe";
    "@web3modal/ethereum" ].

Definition packageMappings : list (string * string) :=
  [ ("@reown/appkit", "@para-wallet/react");
    ("@reown/appkit-react", "@para-wallet/react");
    ("@reown/appkit-adapter-wagmi", "@para-wallet/react");
    ("@web3modal/wagmi", "@para-wallet/react");
    ("@web3modal/siwe", "@para-wallet/react");
    ("@web3modal/ethereum", "@para-wallet/react") ].

Definition getParaImportReplacement (reownImport : string) : string :=
  match replace_first_match
          ([ ("useAppKit", "useModal");
             ("useAppKitAccount", "useAccount");
             ("useAppKitTheme", "useModal");
             ("useAppKitState", "useAccount");
             ("useAppKitEvents", "useWallet");
             ("useWeb3Modal", "useModal");
             ("useWeb3ModalAccount", "useAccount");
             ("useWeb3ModalTheme", "useModal");
             ("createAppKit", "ParaProvider, ParaModal");
             ("createWeb3Modal", "ParaProvider, ParaModal");
             ("defaultWagmiConfig", "wagmiConfig") ]
           ++ packageMappings) reownImport with
  | Some r => r
  | None => reownImport
  end.

Definition generateReownProvider (provider : ProviderUsage.t) : string :=
  let name := ProviderUsage.provider provider in
  let props := ProviderUsage.props provider in
  if Js.includes name "AppKit" then
    "<AppKit 
  projectId=" ++ Js.dq ++ Js.to_string (Js.or (Js.get props "projectId") (Js.Str "REOWN_PROJECT_ID")) ++ Js.dq ++ "
  wagmiConfig={wagmiConfig}
  metadata={metadata}
>
  {children}
</AppKit>"
  else if Js.includes name "Web3Modal" then
    "<Web3Modal 
  projectId=" ++ Js.dq ++ Js.to_string (Js.or (Js.get props "projectId") (Js.Str "WEB3MODAL_PROJECT_ID")) ++ Js.dq ++ "
  wagmiConfig={wagmiConfig}
>
  {children}
</Web3Modal>"
  else name ++ " config={...}>{children}</" ++ name ++ ">".

Definition generateParaProvider (props : list (string * Js.value)) : string :=
  "<ParaProvider
  config={{
    apiKey: " ++ Js.to_string (Js.or (Js.get props "projectId") (Js.Str "PARA_API_KEY")) ++ ",
    paraClientConfig: {
      env: Environment.DEVELOPMENT,
    },
    embeddedWalletConfig: {
      createOnLogin: " ++ Js.dq ++ "all-users" ++ Js.dq ++ ",
      showWalletUiOnLogin: true,
    },
    wagmiConfig // Keep existing Wagmi config
  }}
>
  {children}
  {/* ⚠️ CRITICAL: ParaModal is REQUIRED - #1 missing piece in failed migrations */}
  <ParaModal />
</ParaProvider>".

Definition reownHooks : list string :=
  [ "useAppKit"; "useAppKitAccount"; "useAppKitTheme"; "useAppKitState";
    "useAppKitEvents"; "useWeb3Modal"; "useWeb3ModalAccount";
    "useWeb3ModalTheme"; "useWeb3ModalState" ].

Definition isReownHook (hookName : string) : bool :=
  Js.array_includes reownHooks hookName.

Definition getReownHookReplacement (reownHook : string) : option string :=
  lookup_or_null
    [ ("useAppKit", "useModal");
      ("useAppKitAccount", "useAccount");
      ("useAppKitTheme", "useModal");
      ("useAppKitState", "useAccount");
      ("useAppKitEvents", "useWallet");
      ("useWeb3Modal", "useModal");
      ("useWeb3ModalAccount", "useAccount");
      ("useWeb3ModalTheme", "useModal");
      ("useWeb3ModalState", "useAccount") ] reownHook.

Definition remove_dependency (dep : string) : ReplacementOperation :=
  {| id := "remove-" ++ Js.replace_at_slash dep;
     type := OperationType.dependency;
     file := None; line := None;
     oldValue := dep; newValue := EmptyString;
     critical := true |}.

Definition execute (state : ProjectState) : list ReplacementOperation :=
  map remove_dependency
      (filter (Js.array_includes (Js.keys (dependencies state)))
              reownDependencies)
  ++ [ add_para_react ]
  ++ map (replace_import getParaImportReplacement)
       (filter (fun i =>
                  ImportType.eqb (FileImport.type i) ImportType.reown
                  || Js.includes (FileImport.from i) "reown"
                  || Js.includes (FileImport.from i) "web3modal")
               (imports state))
  ++ map (replace_provider
            generateReownProvider
            (fun p => generateParaProvider (ProviderUsage.props p)))
       (filter (fun p =>
                  Js.includes (ProviderUsage.provider p) "AppKit"
                  || Js.includes (ProviderUsage.provider p) "Web3Modal"
                  || Js.includes (ProviderUsage.provider p) "createWeb3Modal")
               (providers state))
  ++ flat_map (replace_hook getReownHookReplacement)
       (filter (fun h => isReownHook (HookUsage.hook h)) (hooks state))
  ++ map add_para_css (entryPoints state).

Definition reownPatterns : list string := [ "reown"; "web3modal"; "appkit" ].

Definition validate (state : ProjectState) : bool :=
  let hasReownDeps :=
    Js.some (fun dep => Js.some (fun pattern => Js.includes dep pattern)
                                reownPatterns)
            (Js.keys (dependencies state)) in
  let hasReownImports :=
    Js.some (fun i =>
               Js.some (fun pattern =>
                          Js.includes (FileImport.from i) pattern
                          || ImportType.eqb (FileImport.type i) ImportType.reown)
                       reownPatterns)
            (imports state) in
  let hasReownProviders :=
    Js.some (fun p =>
               Js.some (fun pattern =>
                          Js.includes (Js.toLowerCase (ProviderUsage.provider p))
                                      pattern)
                       reownPatterns)
            (providers state) in
  hasReownDeps || hasReownImports || hasReownProviders.

Definition new : ReplacementStrategy :=
  mkStrategy REOWN_TO_PARA execute validate 150.

End ReownToParaStrategy.

Module Web3ModalToParaStrategy.

Definition execute (state : ProjectState) : list ReplacementOperation :=
  [ {| id := "remove-web3modal-wagmi"; type := OperationType.dependency;
       file := None; line := None;
       oldValue := "@web3modal/wagmi"; newValue := EmptyString;
       critical := true |};
    {| id := "remove-web3modal-siwe"; type := OperationType.dependency;
       file := None; line := None;
       oldValue := "@web3modal/siwe"; newValue := EmptyString;
       critical := true |};
    add_para_react ].

Definition validate (state : ProjectState) : bool :=
  Js.some (fun dep => Js.includes dep "web3modal")
          (Js.keys (dependencies state)).

Definition new : ReplacementStrategy :=
  mkStrategy WEB3MODAL_TO_PARA execute validate 120.

End Web3ModalToParaStrategy.

Module StrategyFactory.

Definition createStrategy (s : MigrationStrategy) : outcome ReplacementStrategy :=
  match s with
  | PRIVY_TO_PARA => Returned PrivyToParaStrategy.new
  | REOWN_TO_PARA => Returned ReownToParaStrategy.new
  | WEB3MODAL_TO_PARA => Returned Web3ModalToParaStrategy.new
  | _ =>
      Thrown (Js.mkError ("Unsupported migration strategy: " ++ strategy_value s))
  end.

Definition detectStrategy (state : ProjectState) : option MigrationStrategy :=
  let deps := Js.keys (dependencies state) in
  let imports := map FileImport.from (imports state) in
  if Js.array_includes deps "@privy-io/react-auth"
     || Js.some (fun i => Js.includes i "privy") imports
  then Some PRIVY_TO_PARA
  else if Js.some (fun d => Js.includes d "reown") deps
          || Js.some (fun i => Js.includes i "reown") imports
  then Some REOWN_TO_PARA
  else if Js.some (fun d => Js.includes d "web3modal") deps
          || Js.some (fun i => Js.includes i "web3modal") imports
  then Some WEB3MODAL_TO_PARA
  else None.

End StrategyFactory.

(** ** The atomic validator ([replacement-strategy.ts], second part) *)

Module AtomicValidator.

Definition fresh : ValidationResult :=
  {| valid := true; issues := []; warnings := [] |}.

Definition checkMigratableContent (state : ProjectState) : ValidationResult :=
  let oldWalletDeps :=
    filter (fun dep =>
              Js.includes dep "privy"
              || Js.includes dep "reown"
              || Js.includes dep "web3modal"
              || Js.includes dep "walletconnect")
           (Js.keys (dependencies state)) in
  if Nat.eqb (List.length oldWalletDeps) 0 then
    {| valid := false;
       issues :=
         [ {| ValidationIssue.severity := Severity.critical;
              ValidationIssue.code := "NO_MIGRATABLE_CONTENT";
              ValidationIssue.message := "No wallet providers detected for migration";
              ValidationIssue.file := None;
              ValidationIssue.line := None;
              ValidationIssue.fix_ :=
                Some "Ensure the project uses Privy, ReOwn, Web3Modal, or WalletConnect" |} ];
       warnings := [] |}
  else fresh.

Definition checkProjectStructure (state : ProjectState) : ValidationResult :=
  if Nat.eqb (List.length (entryPoints state)) 0 then
    {| valid := false;
       issues :=
         [ {| ValidationIssue.severity := Severity.critical;
              ValidationIssue.code := "NO_ENTRY_POINTS";
              ValidationIssue.message :=
                "No entry points detected (main.tsx, App.tsx, index.tsx)";
              ValidationIssue.file := None;
              ValidationIssue.line := None;
              ValidationIssue.fix_ :=
                Some "Ensure project has a valid React entry point" |} ];
       warnings := [] |}
  else fresh.

Definition checkForConflicts (state : ProjectState) : ValidationResult :=
  let hasParaDep :=
    Js.some (fun dep => Js.includes dep "para") (Js.keys (dependencies state)) in
  if hasParaDep then
    {| valid := true;
       issues := [];
       warnings :=
         [ "Para SDK already present - migration may overwrite existing configuration" ] |}
  else fresh.

(** One block [if (!check.valid) { result.valid = false;
    result.issues.push(...check.issues); }] of a battery of this class:
    the warnings of [check] are not read. *)
Definition merge_failed (result check : ValidationResult) : ValidationResult :=
  if negb (valid check) then
    {| valid := false;
       issues := issues result ++ issues check;
       warnings := warnings result |}
  else result.

Definition validatePreFlight (projectState : ProjectState) : ValidationResult :=
  let result := fresh in
  let result := merge_failed result (checkMigratableContent projectState) in
  let result := merge_failed result (checkProjectStructure projectState) in
  let result := merge_failed result (checkForConflicts projectState) in
  result.

Definition calculateMigrationSuccess (state : ProjectState) : Z :=
  let score := 0 in
  let maxScore := 100 in
  let hasParaDep :=
    Js.some (fun dep => Js.includes dep "para") (Js.keys (dependencies state)) in
  let hasOldDeps :=
    Js.some (fun dep =>
               Js.includes dep "privy"
               || Js.includes dep "reown"
               || Js.includes dep "web3modal")
            (Js.keys (dependencies state)) in
  let score := if hasParaDep then score + 15 else score in
  let score := if negb hasOldDeps then score + 15 else score in
  let hasParaImports :=
    Js.some (fun imp => Js.includes (FileImport.from imp) "para") (imports state) in
  let hasOldImports :=
    Js.some (fun imp =>
               ImportType.eqb (FileImport.type imp) ImportType.privy
               || ImportType.eqb (FileImport.type imp) ImportType.reown
               || ImportType.eqb (FileImport.type imp) ImportType.web3modal)
            (imports state) in
  let score := if hasParaImports then score + 15 else score in
  let score := if negb hasOldImports then score + 10 else score in
  let hasParaProvider :=
    Js.some (fun p => String.eqb (ProviderUsage.provider p) "ParaProvider")
            (providers state) in
  let hasParaModal :=
    Js.some (fun imp => Js.includes (FileImport.import imp) "ParaModal")
            (imports state) in
  let score := if hasParaProvider then score + 15 else score in
  let score := if hasParaModal then score + 10 else score in
  let hasParaCss := Js.some StyleImport.isParaStyle (styles state) in
  let score := if hasParaCss then score + 10 else score in
  let hasParaHooks :=
    Js.some (fun hook => Js.includes (HookUsage.from hook) "para") (hooks state) in
  let score := if hasParaHooks then score + 10 else score in
  Js.Math_round (Js.number score / Js.number maxScore * 100)%float.

(** *** Post-migration checks *)

Definition validateParaModalPresent (state : ProjectState) : ValidationResult :=
  let hasParaModalImport :=
    Js.some (fun imp => Js.includes (FileImport.import imp) "ParaModal"
                        && Js.includes (FileImport.from imp) "para")
            (imports state) in
  if negb hasParaModalImport then
    {| valid := false;
       issues :=
         [ {| ValidationIssue.severity := Severity.critical;
              ValidationIssue.code := "MISSING_PARA_MODAL";
              ValidationIssue.message :=
                "❌ CRITICAL ISSUE #1: ParaModal component missing";
              ValidationIssue.file := None;
              ValidationIssue.line := None;
              ValidationIssue.fix_ :=
                Some ("Add <ParaModal /> inside your <ParaProvider>. Import: import { ParaModal } from "
                      ++ Js.dq ++ "@para-wallet/react" ++ Js.dq)%string |} ];
       warnings := [] |}
  else fresh.

Definition validateParaCssImports (state : ProjectState) : ValidationResult :=
  let hasParaCss := Js.some StyleImport.isParaStyle (styles state) in
  if negb hasParaCss then
    {| valid := false;
       issues :=
         [ {| ValidationIssue.severity := Severity.critical;
              ValidationIssue.code := "MISSING_PARA_CSS";
              ValidationIssue.message :=
                "❌ CRITICAL ISSUE #2: Para SDK CSS not imported";
              ValidationIssue.file := None;
              ValidationIssue.line := None;
              ValidationIssue.fix_ :=
                Some ("Add import " ++ Js.dq ++ "@para-wallet/react/styles.css" ++ Js.dq
                      ++ " to your main entry point (main.tsx, layout.tsx, or _app.tsx)")%string |} ];
       warnings := [] |}
  else fresh.

(** In the source the test reads [(a && b) || c]: the provider name is
    asked for with ["development"] only. *)
Definition validateEnvironmentEnum (state : ProjectState) : ValidationResult :=
  let hasStringEnv :=
    Js.some (fun provider =>
               (String.eqb (ProviderUsage.provider provider) "ParaProvider"
                && Js.includes (Js.JSON_stringify_record (ProviderUsage.props provider))
                               (Js.dq ++ "development" ++ Js.dq)%string)
               || Js.includes (Js.JSON_stringify_record (ProviderUsage.props provider))
                              (Js.dq ++ "production" ++ Js.dq)%string)
            (providers state) in
  if hasStringEnv then
    {| valid := false;
       issues :=
         [ {| ValidationIssue.severity := Severity.critical;
              ValidationIssue.code := "STRING_ENVIRONMENT";
              ValidationIssue.message :=
                "❌ CRITICAL ISSUE #3: Using string instead of Environment enum";
              ValidationIssue.file := None;
              ValidationIssue.line := None;
              ValidationIssue.fix_ :=
                Some ("Import Environment from " ++ Js.dq ++ "@para-wallet/core" ++ Js.dq
                      ++ " and use Environment.DEVELOPMENT instead of "
                      ++ Js.dq ++ "development" ++ Js.dq)%string |} ];
       warnings := [] |}
  else fresh.

Definition validateOldDependenciesRemoved (state : ProjectState) : ValidationResult :=
  let oldDeps :=
    filter (fun dep =>
              Js.includes dep "privy" || Js.includes dep "reown"
              || Js.includes dep "web3modal")
           (Js.keys (dependencies state)) in
  if Nat.ltb 0 (List.length oldDeps) then
    {| valid := false;
       issues :=
         [ {| ValidationIssue.severity := Severity.critical;
              ValidationIssue.code := "OLD_DEPENDENCIES_PRESENT";
              ValidationIssue.message :=
                "❌ CRITICAL ISSUE #4: Old wallet dependencies still present: "
                ++ Js.join ", " oldDeps;
              ValidationIssue.file := None;
              ValidationIssue.line := None;
              ValidationIssue.fix_ :=
                Some ("Run: npm uninstall " ++ Js.join " " oldDeps)%string |} ];
       warnings := [] |}
  else fresh.

Definition validateParaDependenciesPresent (state : ProjectState) : ValidationResult :=
  let hasParaDep :=
    Js.some (fun dep => Js.includes dep "para") (Js.keys (dependencies state)) in
  if negb hasParaDep then
    {| valid := false;
       issues :=
         [ {| ValidationIssue.severity := Severity.critical;
              ValidationIssue.code := "MISSING_PARA_DEPENDENCY";
              ValidationIssue.message :=
                "❌ CRITICAL ISSUE #5: Para SDK dependency missing";
              ValidationIssue.file := None;
              ValidationIssue.line := None;
              ValidationIssue.fix_ := Some "Run: npm install @para-wallet/react" |} ];
       warnings := [] |}
  else fresh.

Definition validatePostMigration (projectState : ProjectState) : ValidationResult :=
  let result := fresh in
  let result := merge_failed result (validateParaModalPresent projectState) in
  let result := merge_failed result (validateParaCssImports projectState) in
  let result := merge_failed result (validateEnvironmentEnum projectState) in
  let result := merge_failed result (validateOldDependenciesRemoved projectState) in
  let result := merge_failed result (validateParaDependenciesPresent projectState) in
  result.

(** *** Completion checks *)

Definition old_import_issue (imp : FileImport.t) : ValidationIssue.t :=
  {| ValidationIssue.severity := Severity.critical;
     ValidationIssue.code := "OLD_IMPORT_PRESENT";
     ValidationIssue.message :=
       "Old wallet import detected: " ++ FileImport.import imp ++ " in "
       ++ FileImport.file imp ++ ":" ++ Js.string_of_number (FileImport.line imp);
     ValidationIssue.file := Some (FileImport.file imp);
     ValidationIssue.line := Some (FileImport.line imp);
     ValidationIssue.fix_ := Some "Replace with Para SDK equivalent import" |}.

Definition validateNoOldImports (state : ProjectState) : ValidationResult :=
  let oldImports :=
    filter (fun imp =>
              ImportType.eqb (FileImport.type imp) ImportType.privy
              || ImportType.eqb (FileImport.type imp) ImportType.reown
              || ImportType.eqb (FileImport.type imp) ImportType.web3modal)
           (imports state) in
  if Nat.ltb 0 (List.length oldImports) then
    {| valid := false;
       issues := map old_import_issue oldImports;
       warnings := [] |}
  else fresh.

Definition validateParaHooksUsage (state : ProjectState) : ValidationResult :=
  let paraHooks :=
    filter (fun hook => Js.includes (HookUsage.from hook) "para") (hooks state) in
  if Nat.eqb (List.length paraHooks) 0 then
    {| valid := true;
       issues := [];
       warnings := [ "No Para hooks detected - ensure Para hooks are being used" ] |}
  else fresh.

Definition validateParaProviderConfig (state : ProjectState) : ValidationResult :=
  let paraProviders :=
    filter (fun p => String.eqb (ProviderUsage.provider p) "ParaProvider")
           (providers state) in
  if Nat.eqb (List.length paraProviders) 0 then
    {| valid := false;
       issues :=
         [ {| ValidationIssue.severity := Severity.critical;
              ValidationIssue.code := "NO_PARA_PROVIDER";
              ValidationIssue.message := "No ParaProvider detected";
              ValidationIssue.file := None;
              ValidationIssue.line := None;
              ValidationIssue.fix_ :=
                Some "Replace old wallet provider with ParaProvider" |} ];
       warnings := [] |}
  else if Nat.ltb 1 (List.length paraProviders) then
    {| valid := true;
       issues := [];
       warnings := [ "Multiple ParaProviders detected - ensure only one is active" ] |}
  else fresh.

Definition validateCompletion (projectState : ProjectState) : ValidationResult :=
  let result := fresh in
  let result := merge_failed result (validateNoOldImports projectState) in
  let result := merge_failed result (validateParaHooksUsage projectState) in
  let result := merge_failed result (validateParaProviderConfig projectState) in
  result.

End AtomicValidator.

(** ** The migration engine ([migration-engine.ts]) *)

(** What [console.log] has printed so far, oldest line first. *)
Definition Console : Type := list string.

Module RollbackOperation.
(** [action] is an asynchronous closure: it may print and it may reject. *)
Record t : Type := mk {
  operationId : string;
  action : Console -> outcome unit * Console
}.
End RollbackOperation.

Module ValidationCheck.
Inductive kind : Type := pre | post.

Definition kind_eqb (a b : kind) : bool :=
  match a, b with
  | pre, pre | post, post => true
  | _, _ => false
  end.

Record t : Type := mk {
  id : string;
  type : kind;
  description : string;
  validator : unit -> outcome ValidationResult
}.
End ValidationCheck.

Module MigrationPlan.
Record t : Type := mk {
  strategy : MigrationStrategy;
  replacements : list ReplacementOperation;
  validations : list ValidationCheck.t;
  rollbackPlan : list RollbackOperation.t;
  estimatedTime : Z
}.
End MigrationPlan.

Module MigrationResult.
Record t : Type := mk {
  success : bool;
  completedOperations : list string;
  failedOperations : list string;
  validationResults : list ValidationResult;
  rollbackExecuted : bool;
  duration : Z;
  issues : list ValidationIssue.t
}.

(** The assignments and [push]es [executeAtomicMigration] performs on
    its [result] object. *)
Definition set_success (b : bool) (r : t) : t :=
  mk b (completedOperations r) (failedOperations r) (validationResults r)
     (rollbackExecuted r) (duration r) (issues r).

Definition push_completed (i : string) (r : t) : t :=
  mk (success r) (completedOperations r ++ [i]) (failedOperations r)
     (validationResults r) (rollbackExecuted r) (duration r) (issues r).

Definition push_failed (i : string) (r : t) : t :=
  mk (success r) (completedOperations r) (failedOperations r ++ [i])
     (validationResults r) (rollbackExecuted r) (duration r) (issues r).

Definition push_validation (v : ValidationResult) (r : t) : t :=
  mk (success r) (completedOperations r) (failedOperations r)
     (validationResults r ++ [v]) (rollbackExecuted r) (duration r) (issues r).

Definition set_rollbackExecuted (b : bool) (r : t) : t :=
  mk (success r) (completedOperations r) (failedOperations r)
     (validationResults r) b (duration r) (issues r).

Definition set_duration (d : Z) (r : t) : t :=
  mk (success r) (completedOperations r) (failedOperations r)
     (validationResults r) (rollbackExecuted r) d (issues r).

Definition push_issues (l : list ValidationIssue.t) (r : t) : t :=
  mk (success r) (completedOperations r) (failedOperations r)
     (validationResults r) (rollbackExecuted r) (duration r) (issues r ++ l).
End MigrationResult.

(** The five [execute...Operation] methods.  Their bodies are left to the
    implementation in the source ("would execute the specific operation
    type"), so the engine is parametrised by what each of them does with an
    operation: return, or throw. *)
Record OperationHandlers : Type := mkHandlers {
  executeDependencyOperation : ReplacementOperation -> outcome unit;
  executeImportOperation : ReplacementOperation -> outcome unit;
  executeProviderOperation : ReplacementOperation -> outcome unit;
  executeHookOperation : ReplacementOperation -> outcome unit;
  executeStyleOperation : ReplacementOperation -> outcome unit
}.

(** The bodies as the source has them: empty. *)
Definition placeholder_handlers : OperationHandlers :=
  {| executeDependencyOperation := fun _ => Returned tt;
     executeImportOperation := fun _ => Returned tt;
     executeProviderOperation := fun _ => Returned tt;
     executeHookOperation := fun _ => Returned tt;
     executeStyleOperation := fun _ => Returned tt |}.

Module MigrationEngine.

(** The private fields of an engine. *)
Record t : Type := mk {
  state : option ProjectState;
  plan : option MigrationPlan.t;
  rollbackPlan : list RollbackOperation.t
}.

(** [new MigrationEngine()] *)
Definition new : t := mk None None [].

(** What a method call reads and writes: the engine it is called on, the
    [result] object [executeAtomicMigration] allocates, the console, and
    the clock behind [Date.now()] (its successive readings, and how many
    of them have been taken). *)
Record Store : Type := mkStore {
  this : t;
  result : MigrationResult.t;
  console : Console;
  time : nat -> Z;
  reads : nat
}.

(** A method body: it ends by returning or by throwing, and what it wrote
    before a throw stays written. *)
Definition M (A : Type) : Type := Store -> outcome A * Store.

Definition ret {A} (a : A) : M A := fun s => (Returned a, s).

Definition bind {A B} (m : M A) (k : A -> M B) : M B :=
  fun s =>
    match m s with
    | (Returned a, s') => k a s'
    | (Thrown e, s') => (Thrown e, s')
    end.

Definition throw {A} (e : Js.Error) : M A := fun s => (Thrown e, s).

(** [try { m } catch (error) { handler error }] *)
Definition try_catch {A} (m : M A) (handler : Js.Error -> M A) : M A :=
  fun s =>
    match m s with
    | (Returned a, s') => (Returned a, s')
    | (Thrown e, s') => handler e s'
    end.

(** [await] of a call whose outcome is known *)
Definition await {A} (o : outcome A) : M A := fun s => (o, s).

Notation "x <- m ;; k" := (bind m (fun x => k))
  (at level 61, m at next level, right associativity).
Notation "m ;; k" := (bind m (fun _ => k))
  (at level 61, right associativity).

(** [for (const x of l) { body x }] *)
Fixpoint for_of {A} (l : list A) (body : A -> M unit) : M unit :=
  match l with
  | [] => ret tt
  | x :: rest => body x ;; for_of rest body
  end.

Definition get_this : M t := fun s => (Returned (this s), s).

Definition set_plan (p : MigrationPlan.t) : M unit :=
  fun s =>
    (Returned tt,
     mkStore (mk (state (this s)) (Some p) (rollbackPlan (this s)))
             (result s) (console s) (time s) (reads s)).

Definition set_state (st : ProjectState) : M unit :=
  fun s =>
    (Returned tt,
     mkStore (mk (Some st) (plan (this s)) (rollbackPlan (this s)))
             (result s) (console s) (time s) (reads s)).

Definition set_rollbackPlan (l : list RollbackOperation.t) : M unit :=
  fun s =>
    (Returned tt,
     mkStore (mk (state (this s)) (plan (this s)) l)
             (result s) (console s) (time s) (reads s)).

Definition get_result : M MigrationResult.t := fun s => (Returned (result s), s).

Definition update_result (f : MigrationResult.t -> MigrationResult.t) : M unit :=
  fun s =>
    (Returned tt, mkStore (this s) (f (result s)) (console s) (time s) (reads s)).

(** [Date.now()] *)
Definition Date_now : M Z :=
  fun s =>
    (Returned (time s (reads s)),
     mkStore (this s) (result s) (console s) (time s) (S (reads s))).

(** Calling an asynchronous closure that prints *)
Definition call {A} (f : Console -> outcome A * Console) : M A :=
  fun s =>
    let '(o, c) := f (console s) in
    (o, mkStore (this s) (result s) c (time s) (reads s)).

(** *** Phase 1: [scanProjectState] *)

Definition scanProjectState (_projectPath : string) : M ProjectState :=
  let state :=
    {| dependencies := []; imports := []; providers := []; hooks := [];
       styles := []; entryPoints := [] |} in
  set_state state ;;
  ret state.

(** *** Phase 2: [createReplacementPlan] *)

Definition generateDependencyReplacements (_strategy : MigrationStrategy)
  : list ReplacementOperation := [].
Definition generateImportReplacements (_strategy : MigrationStrategy)
  : list ReplacementOperation := [].
Definition generateProviderReplacements (_strategy : MigrationStrategy)
  : list ReplacementOperation := [].
Definition generateHookReplacements (_strategy : MigrationStrategy)
  : list ReplacementOperation := [].
Definition generateStyleOperations : list ReplacementOperation := [].

Definition generateReplacements (strategy : MigrationStrategy)
  : list ReplacementOperation :=
  generateDependencyReplacements strategy
  ++ generateImportReplacements strategy
  ++ generateProviderReplacements strategy
  ++ generateHookReplacements strategy
  ++ generateStyleOperations.

Definition passing : ValidationResult :=
  {| valid := true; issues := []; warnings := [] |}.

Definition validateOldDependenciesPresent (_strategy : MigrationStrategy)
  : outcome ValidationResult := Returned passing.
Definition checkParaModalPresent : outcome ValidationResult := Returned passing.
Definition checkCssImportsPresent : outcome ValidationResult := Returned passing.
Definition checkNoOldDependencies : outcome ValidationResult := Returned passing.

Definition generateValidations (strategy : MigrationStrategy)
  : list ValidationCheck.t :=
  [ ValidationCheck.mk "pre-dependencies" ValidationCheck.pre
      "Check old dependencies are present"
      (fun _ => validateOldDependenciesPresent strategy);
    ValidationCheck.mk "post-para-modal" ValidationCheck.post
      "Check ParaModal component is present"
      (fun _ => checkParaModalPresent);
    ValidationCheck.mk "post-css-imports" ValidationCheck.post
      "Check Para CSS is imported"
      (fun _ => checkCssImportsPresent);
    ValidationCheck.mk "post-no-old-deps" ValidationCheck.post
      "Check old dependencies are removed"
      (fun _ => checkNoOldDependencies) ].

(** The line an inverse action prints. *)
Definition rollback_line (operationId : string) : string :=
  "Rolling back operation " ++ operationId.

(** One inverse action per forward operation; all it does is print. *)
Definition generateRollbackPlan (operations : list ReplacementOperation)
  : list RollbackOperation.t :=
  map (fun op =>
         RollbackOperation.mk (id op)
           (fun c => (Returned tt, c ++ [rollback_line (id op)])))
      operations.

Definition estimateTime (operations : list ReplacementOperation) : Z :=
  let base := 30 in
  let perOperation := 15 in
  base + Z.of_nat (List.length operations) * perOperation.

Definition createReplacementPlan (strategy : MigrationStrategy)
  : M MigrationPlan.t :=
  this <- get_this ;;
  match state this with
  | None => throw (Js.mkError "Must scan project state first")
  | Some _ =>
      let replacements := generateReplacements strategy in
      let validations := generateValidations strategy in
      let rollbackPlan := generateRollbackPlan replacements in
      let estimatedTime := estimateTime replacements in
      let plan :=
        MigrationPlan.mk strategy replacements validations rollbackPlan
                         estimatedTime in
      set_plan plan ;;
      ret plan
  end.

(** *** Phase 3: [executeAtomicMigration] *)

(** The loop of [runValidations] over the checks of one kind: a failing
    check clears [valid] and adds its issues, every check adds its
    warnings. *)
Fixpoint run_validators (validations : list ValidationCheck.t)
  (result : ValidationResult) : outcome ValidationResult :=
  match validations with
  | [] => Returned result
  | validation :: rest =>
      match ValidationCheck.validator validation tt with
      | Thrown e => Thrown e
      | Returned validationResult =>
          let result :=
            if negb (valid validationResult) then
              {| valid := false;
                 issues := issues result ++ issues validationResult;
                 warnings := warnings result |}
            else result in
          run_validators rest
            {| valid := valid result;
               issues := issues result;
               warnings := warnings result ++ warnings validationResult |}
      end
  end.

(** [this.plan.validations.filter((v) => v.type === type)] *)
Definition checks_of (type : ValidationCheck.kind) (plan : MigrationPlan.t)
  : list ValidationCheck.t :=
  filter (fun v => ValidationCheck.kind_eqb (ValidationCheck.type v) type)
         (MigrationPlan.validations plan).

Definition runValidations (type : ValidationCheck.kind) : M ValidationResult :=
  this <- get_this ;;
  match plan this with
  | None => throw (Js.mkError "No plan available for validation")
  | Some plan =>
      let validations := checks_of type plan in
      await (run_validators validations
               {| valid := true; issues := []; warnings := [] |})
  end.

(** [for (const rollbackOp of l) { await rollbackOp.action(); }]: the
    actions run in the order of [l]; the first one that throws ends the
    loop. *)
Fixpoint run_actions (l : list RollbackOperation.t) (c : Console)
  : outcome unit * Console :=
  match l with
  | [] => (Returned tt, c)
  | rollbackOp :: rest =>
      match RollbackOperation.action rollbackOp c with
      | (Returned _, c') => run_actions rest c'
      | (Thrown e, c') => (Thrown e, c')
      end
  end.

(** [this.rollbackPlan.reverse()] reverses the engine's own list in
    place; the loop then walks the reversed list. *)
Definition executeRollback : M unit :=
  this <- get_this ;;
  let reversed := rev (rollbackPlan this) in
  set_rollbackPlan reversed ;;
  call (run_actions reversed).

Definition rollback_failed (rollbackError : Js.Error) : ValidationIssue.t :=
  {| ValidationIssue.severity := Severity.critical;
     ValidationIssue.code := "ROLLBACK_FAILED";
     ValidationIssue.message :=
       "Rollback failed: " ++ Js.error_to_string rollbackError;
     ValidationIssue.file := None;
     ValidationIssue.line := None;
     ValidationIssue.fix_ := Some "Manual intervention required" |}.

Definition initial_result : MigrationResult.t :=
  {| MigrationResult.success := false;
     MigrationResult.completedOperations := [];
     MigrationResult.failedOperations := [];
     MigrationResult.validationResults := [];
     MigrationResult.rollbackExecuted := false;
     MigrationResult.duration := 0;
     MigrationResult.issues := [] |}.

Section WithHandlers.

Variable handlers : OperationHandlers.

Definition executeOperation (operation : ReplacementOperation) : outcome unit :=
  match type operation with
  | OperationType.dependency => executeDependencyOperation handlers operation
  | OperationType.import => executeImportOperation handlers operation
  | OperationType.provider => executeProviderOperation handlers operation
  | OperationType.hook => executeHookOperation handlers operation
  | OperationType.style => executeStyleOperation handlers operation
  end.

(** The body of the loop over [this.plan.replacements]. *)
Definition apply_operation (operation : ReplacementOperation) : M unit :=
  try_catch
    (await (executeOperation operation) ;;
     update_result (MigrationResult.push_completed (id operation)))
    (fun error =>
       update_result (MigrationResult.push_failed (id operation)) ;;
       if critical operation then
         throw (Js.mkError ("Critical operation failed: " ++ id operation))
       else ret tt).

(** The outer [try] block. *)
Definition migration_try (plan : MigrationPlan.t) : M unit :=
  preValidation <- runValidations ValidationCheck.pre ;;
  update_result (MigrationResult.push_validation preValidation) ;;
  (if negb (valid preValidation) then
     update_result (MigrationResult.push_issues (issues preValidation)) ;;
     throw (Js.mkError "Pre-flight validation failed")
   else ret tt) ;;
  for_of (MigrationPlan.replacements plan) apply_operation ;;
  postValidation <- runValidations ValidationCheck.post ;;
  update_result (MigrationResult.push_validation postValidation) ;;
  (if negb (valid postValidation) then
     update_result (MigrationResult.push_issues (issues postValidation)) ;;
     throw (Js.mkError "Post-migration validation failed")
   else ret tt) ;;
  update_result (MigrationResult.set_success true).

(** The outer [catch] block: roll back whatever made the [try] block
    throw, and report a rollback that throws. *)
Definition migration_catch (error : Js.Error) : M unit :=
  try_catch
    (executeRollback ;;
     update_result (MigrationResult.set_rollbackExecuted true))
    (fun rollbackError =>
       update_result (MigrationResult.push_issues [rollback_failed rollbackError])).

Definition executeAtomicMigration : M MigrationResult.t :=
  this <- get_this ;;
  match plan this with
  | None => throw (Js.mkError "Must create replacement plan first")
  | Some plan =>
      startTime <- Date_now ;;
      update_result (fun _ => initial_result) ;;
      try_catch (migration_try plan) migration_catch ;;
      now <- Date_now ;;
      update_result (MigrationResult.set_duration (now - startTime)) ;;
      get_result
  end.

End WithHandlers.

(** *** Phase 4: [validateCompletion] *)

Definition checkEnvironmentEnumUsage : outcome ValidationResult := Returned passing.
Definition checkNoOldImports : outcome ValidationResult := Returned passing.

(** The loop of [validateCompletion] over the awaited checks. *)
Fixpoint await_checks (checks : list (outcome ValidationResult))
  (result : ValidationResult) : outcome ValidationResult :=
  match checks with
  | [] => Returned result
  | check :: rest =>
      match check with
      | Thrown e => Thrown e
      | Returned checkResult =>
          let result :=
            if negb (valid checkResult) then
              {| valid := false;
                 issues := issues result ++ issues checkResult;
                 warnings := warnings result |}
            else result in
          await_checks rest
            {| valid := valid result;
               issues := issues result;
               warnings := warnings result ++ warnings checkResult |}
      end
  end.

Definition validateCompletion : M ValidationResult :=
  let criticalChecks :=
    [ checkParaModalPresent;
      checkCssImportsPresent;
      checkEnvironmentEnumUsage;
      checkNoOldDependencies;
      checkNoOldImports ] in
  await (await_checks criticalChecks
           {| valid := true; issues := []; warnings := [] |}).

(** Whether the handlers throw on an operation. *)
Definition fails (handlers : OperationHandlers) (operation : ReplacementOperation)
  : bool :=
  match executeOperation handlers operation with
  | Returned _ => false
  | Thrown _ => true
  end.

(** The [result] object once the loop has gone through [operations]
    without leaving it: the ids of the operations that returned are added to
    [completedOperations], the ids of those that threw to
    [failedOperations], each in plan order. *)
Definition tally (handlers : OperationHandlers)
  (operations : list ReplacementOperation) (r : MigrationResult.t)
  : MigrationResult.t :=
  MigrationResult.mk
    (MigrationResult.success r)
    (MigrationResult.completedOperations r
     ++ map id (filter (fun o => negb (fails handlers o)) operations))
    (MigrationResult.failedOperations r
     ++ map id (filter (fails handlers) operations))
    (MigrationResult.validationResults r)
    (MigrationResult.rollbackExecuted r)
    (MigrationResult.duration r)
    (MigrationResult.issues r).

(** The engine after [executeRollback]: its rollback list is reversed. *)
Definition rolled_back (this : t) : t :=
  mk (state this) (plan this) (rev (rollbackPlan this)).

(** The store in which the [try] block of [executeAtomicMigration] starts
    when the method is called in [mkStore this r c time reads]. *)
Definition at_try (this : t) (c : Console) (time : nat -> Z) (reads : nat) : Store :=
  mkStore this initial_result c time (S reads).

(** What the [try] block leaves alone: the engine, the console, the clock
    and the [rollbackExecuted] flag of [result]. *)
Definition frame (s s' : Store) : Prop :=
  this s' = this s /\ console s' = console s /\ time s' = time s
  /\ reads s' = reads s
  /\ MigrationResult.rollbackExecuted (result s')
     = MigrationResult.rollbackExecuted (result s).

(** A computation that, besides, leaves [success] alone. *)
Definition quiet {A} (m : M A) : Prop :=
  forall s o s', m s = (o, s') ->
    frame s s'
    /\ MigrationResult.success (result s') = MigrationResult.success (result s).

(** A computation that leaves [success] alone whenever it throws. *)
Definition careful {A} (m : M A) : Prop :=
  forall s o s', m s = (o, s') ->
    frame s s'
    /\ (forall e, o = Thrown e ->
         MigrationResult.success (result s') = MigrationResult.success (result s)).

End MigrationEngine.

(** ** What [JSON.stringify(x, null, 2)] prints *)

Module Json.

(** A value as [JSON.stringify] sees it.  A property that holds
    [undefined] or a function is not written, so it is not listed among the
    members of its object. *)
Inductive t : Type :=
| Null
| Bool (b : bool)
| Number (n : Z)
| Str (s : string)
| Array (items : list t)
| Object (members : list (string * t)).

Definition nl : string := String (ascii_of_nat 10) EmptyString.

(** [JSON.stringify(v, null, 2)] at the indentation [indent]: an empty
    array or object is written closed, the items of another one on a line
    each, two spaces further in. *)
Fixpoint stringify (indent : string) (v : t) : string :=
  let inner := (indent ++ "  ")%string in
  match v with
  | Null => "null"
  | Bool true => "true"
  | Bool false => "false"
  | Number n => Js.string_of_number n
  | Str s => Js.json_quote s
  | Array [] => "[]"
  | Array items =>
      ("[" ++ nl ++ inner
       ++ Js.join ("," ++ nl ++ inner) (map (stringify inner) items)
       ++ nl ++ indent ++ "]")%string
  | Object [] => "{}"
  | Object members =>
      ("{" ++ nl ++ inner
       ++ Js.join ("," ++ nl ++ inner)
            (map (fun kx : string * t =>
                    let (k, x) := kx in
                    (Js.json_quote k ++ ": " ++ stringify inner x)%string)
                 members)
       ++ nl ++ indent ++ "}")%string
  end.

(** The provider props, whose properties that hold [undefined] are left
    out. *)
Fixpoint of_value (v : Js.value) : option t :=
  match v with
  | Js.Undefined => None
  | Js.Null => Some Null
  | Js.Bool b => Some (Bool b)
  | Js.Number n => Some (Number n)
  | Js.Str s => Some (Str s)
  | Js.Object fields =>
      let fix members (l : list (string * Js.value)) : list (string * t) :=
        match l with
        | [] => []
        | (k, x) :: rest =>
            match of_value x with
            | Some j => (k, j) :: members rest
            | None => members rest
            end
        end in
      Some (Object (members fields))
  end.

Definition of_props (props : list (string * Js.value)) : t :=
  match of_value (Js.Object props) with
  | Some j => j
  | None => Null
  end.

(** An optional property: absent when it was never set. *)
Definition optional {A} (key : string) (f : A -> t) (x : option A)
  : list (string * t) :=
  match x with
  | Some a => [ (key, f a) ]
  | None => []
  end.

Definition of_import_type (k : ImportType.t) : t :=
  Str match k with
      | ImportType.privy => "privy"
      | ImportType.reown => "reown"
      | ImportType.web3modal => "web3modal"
      | ImportType.wagmi => "wagmi"
      | ImportType.para => "para"
      | ImportType.other => "other"
      end.

Definition of_import (i : FileImport.t) : t :=
  Object [ ("file", Str (FileImport.file i));
           ("line", Number (FileImport.line i));
           ("import", Str (FileImport.import i));
           ("from", Str (FileImport.from i));
           ("type", of_import_type (FileImport.type i)) ].

Definition of_provider (p : ProviderUsage.t) : t :=
  Object [ ("file", Str (ProviderUsage.file p));
           ("line", Number (ProviderUsage.line p));
           ("provider", Str (ProviderUsage.provider p));
           ("props", of_props (ProviderUsage.props p));
           ("active", Bool (ProviderUsage.active p)) ].

Definition of_hook (h : HookUsage.t) : t :=
  Object [ ("file", Str (HookUsage.file h));
           ("line", Number (HookUsage.line h));
           ("hook", Str (HookUsage.hook h));
           ("from", Str (HookUsage.from h));
           ("usage", Str (HookUsage.usage h)) ].

Definition of_style (i : StyleImport.t) : t :=
  Object [ ("file", Str (StyleImport.file i));
           ("line", Number (StyleImport.line i));
           ("import", Str (StyleImport.import i));
           ("isParaStyle", Bool (StyleImport.isParaStyle i)) ].

Definition of_state (state : ProjectState) : t :=
  Object [ ("dependencies",
            Object (map (fun kv : string * string => (fst kv, Str (snd kv)))
                        (dependencies state)));
           ("imports", Array (map of_import (imports state)));
           ("providers", Array (map of_provider (providers state)));
           ("hooks", Array (map of_hook (hooks state)));
           ("styles", Array (map of_style (styles state)));
           ("entryPoints", Array (map Str (entryPoints state))) ].

Definition of_operation_type (k : OperationType.t) : t :=
  Str match k with
      | OperationType.dependency => "dependency"
      | OperationType.import => "import"
      | OperationType.provider => "provider"
      | OperationType.hook => "hook"
      | OperationType.style => "style"
      end.

Definition of_operation (op : ReplacementOperation) : t :=
  Object ([ ("id", Str (id op)); ("type", of_operation_type (type op)) ]
          ++ optional "file" Str (file op)
          ++ optional "line" Number (line op)
          ++ [ ("oldValue", Str (oldValue op));
               ("newValue", Str (newValue op));
               ("critical", Bool (critical op)) ]).

Definition of_severity (k : Severity.t) : t :=
  Str match k with
      | Severity.critical => "critical"
      | Severity.warning => "warning"
      | Severity.info => "info"
      end.

(** The properties of an issue in the order in which the object literals
    of the program list them. *)
Definition of_issue (i : ValidationIssue.t) : t :=
  Object ([ ("severity", of_severity (ValidationIssue.severity i));
            ("code", Str (ValidationIssue.code i));
            ("message", Str (ValidationIssue.message i)) ]
          ++ optional "file" Str (ValidationIssue.file i)
          ++ optional "line" Number (ValidationIssue.line i)
          ++ optional "fix" Str (ValidationIssue.fix_ i)).

Definition of_validation (r : ValidationResult) : t :=
  Object [ ("valid", Bool (valid r));
           ("issues", Array (map of_issue (issues r)));
           ("warnings", Array (map Str (warnings r))) ].

(** A check without its [validator], which is a function. *)
Definition of_check (v : ValidationCheck.t) : t :=
  Object [ ("id", Str (ValidationCheck.id v));
           ("type", Str match ValidationCheck.type v with
                        | ValidationCheck.pre => "pre"
                        | ValidationCheck.post => "post"
                        end);
           ("description", Str (ValidationCheck.description v)) ].

(** An inverse without its [action], which is a function. *)
Definition of_rollback (r : RollbackOperation.t) : t :=
  Object [ ("operationId", Str (RollbackOperation.operationId r)) ].

Definition of_plan (p : MigrationPlan.t) : t :=
  Object [ ("strategy", Str (strategy_value (MigrationPlan.strategy p)));
           ("replacements", Array (map of_operation (MigrationPlan.replacements p)));
           ("validations", Array (map of_check (MigrationPlan.validations p)));
           ("rollbackPlan", Array (map of_rollback (MigrationPlan.rollbackPlan p)));
           ("estimatedTime", Number (MigrationPlan.estimatedTime p)) ].

Definition of_result (r : MigrationResult.t) : t :=
  Object [ ("success", Bool (MigrationResult.success r));
           ("completedOperations",
            Array (map Str (MigrationResult.completedOperations r)));
           ("failedOperations",
            Array (map Str (MigrationResult.failedOperations r)));
           ("validationResults",
            Array (map of_validation (MigrationResult.validationResults r)));
           ("rollbackExecuted", Bool (MigrationResult.rollbackExecuted r));
           ("duration", Number (MigrationResult.duration r));
           ("issues", Array (map of_issue (MigrationResult.issues r))) ].

End Json.

(** ** The tool dispatcher ([index.ts], version 2) *)

Module Server.

Import MigrationEngine.

(** What a tool call answers: one text, and [isError] when it is set. *)
Record Response : Type := mkResponse {
  text : string;
  isError : option bool
}.

(** The tools that are handed to the legacy services. *)
Definition legacy_tools : list string :=
  [ "analyze_project_legacy"; "generate_migration_config";
    "generate_provider_component"; "generate_connect_button";
    "validate_migration"; "create_migration_guide"; "check_compatibility";
    "generate_layout_with_styles"; "generate_css_imports";
    "validate_para_migration"; "generate_hooks_examples";
    "quick_migration_mode" ].

(** [args.projectPath as string]: the cast checks nothing, and
    [scanProjectState] never reads its argument. *)
Definition as_string (v : Js.value) : string :=
  match v with
  | Js.Str s => s
  | _ => EmptyString
  end.

(** [args.strategy as MigrationStrategy], for the strings of the enum. *)
Definition as_strategy (v : Js.value) : option MigrationStrategy :=
  match v with
  | Js.Str s =>
      find (fun m => String.eqb (strategy_value m) s)
           [ PRIVY_TO_PARA; REOWN_TO_PARA; WEB3MODAL_TO_PARA; WALLETCONNECT_TO_PARA ]
  | _ => None
  end.

Definition analyze_project (args : list (string * Js.value)) : M Response :=
  projectState <- scanProjectState (as_string (Js.get args "projectPath")) ;;
  let detectedStrategy := StrategyFactory.detectStrategy projectState in
  ret {| text :=
           Json.stringify EmptyString
             (Json.Object
                [ ("projectState", Json.of_state projectState);
                  ("detectedStrategy",
                   match detectedStrategy with
                   | Some s => Json.Str (strategy_value s)
                   | None => Json.Null
                   end);
                  ("recommendations",
                   Json.Str
                     match detectedStrategy with
                     | Some s =>
                         "Detected " ++ strategy_value s
                         ++ " migration pattern. Use execute_atomic_migration to proceed."
                     | None => "No supported wallet provider detected for migration."
                     end) ]);
         isError := None |}.

(** The two branches of [execute_atomic_migration] once a strategy is
    known. *)
Definition migrate (args : list (string * Js.value)) (strategy : MigrationStrategy)
  : M Response :=
  if Js.truthy (Js.get args "dryRun") then
    plan <- createReplacementPlan strategy ;;
    ret {| text := "DRY RUN - Migration Plan:" ++ Json.nl
                   ++ Json.stringify EmptyString (Json.of_plan plan);
           isError := None |}
  else
    result <- executeAtomicMigration placeholder_handlers ;;
    ret {| text := Json.stringify EmptyString (Json.of_result result);
           isError := Some (negb (MigrationResult.success result)) |}.

(** [args.strategy || detectStrategy(await scanProjectState(...))]: the
    project is scanned only when no strategy is given.  A given strategy
    that is not a string of the enum is outside the model. *)
Definition execute_atomic_migration (args : list (string * Js.value))
  : option (M Response) :=
  let given := Js.get args "strategy" in
  if Js.truthy given then
    match as_strategy given with
    | Some strategy => Some (migrate args strategy)
    | None => None
    end
  else
    Some (projectState <- scanProjectState (as_string (Js.get args "projectPath")) ;;
          match StrategyFactory.detectStrategy projectState with
          | Some strategy => migrate args strategy
          | None =>
              ret {| text := "Error: No migration strategy detected or specified";
                     isError := Some true |}
          end).

Definition validate_migration_state : M Response :=
  validationResult <- validateCompletion ;;
  ret {| text := Json.stringify EmptyString (Json.of_validation validationResult);
         isError := Some (negb (valid validationResult)) |}.

(** The [catch] around the [switch]. *)
Definition reported (name : string) (m : M Response) : M Response :=
  try_catch m
    (fun error =>
       ret {| text := "Error executing " ++ name ++ ": " ++ Js.message error;
              isError := Some true |}).

(** The handler of a tool call, on the tools that the engine serves: a
    call of a legacy tool is outside the model. *)
Definition CallTool (name : string) (args : option (list (string * Js.value)))
  : option (M Response) :=
  match args with
  | None =>
      Some (ret {| text := "No arguments provided for tool: " ++ name;
                   isError := Some true |})
  | Some args =>
      if String.eqb name "analyze_project" then
        Some (reported name (analyze_project args))
      else if String.eqb name "execute_atomic_migration" then
        option_map (reported name) (execute_atomic_migration args)
      else if String.eqb name "validate_migration_state" then
        Some (reported name validate_migration_state)
      else if Js.array_includes legacy_tools name then None
      else
        Some (reported name (throw (Js.mkError ("Unknown tool: " ++ name))))
  end.

(** A call after which the server is in the store [s'], having answered
    [response]. *)
Definition answers (name : string) (args : option (list (string * Js.value)))
  (s : Store) (response : Response) (s' : Store) : Prop :=
  exists handler,
    CallTool name args = Some handler /\ handler s = (Returned response, s').

End Server.

(** ** Fingerprints, as the selector and the pre-flight battery test them *)

(** The substrings [StrategyFactory.detectStrategy] and
    [AtomicValidator.checkMigratableContent] search a dependency name or an
    import source for. *)
Definition sourceFingerprints : list string :=
  [ "privy"; "reown"; "web3modal"; "walletconnect" ].

Definition has_fingerprint (name : string) : bool :=
  existsb (Js.includes name) sourceFingerprints.



(** The dependency names and import sources of a project, where the
    fingerprints are looked for. *)
Definition names (state : ProjectState) : list string :=
  Js.keys (dependencies state) ++ map FileImport.from (imports state).

(** The place of a strategy in the order of the selector. *)
Definition priority (s : MigrationStrategy) : nat :=
  match s with
  | PRIVY_TO_PARA => 0
  | REOWN_TO_PARA => 1
  | WEB3MODAL_TO_PARA => 2
  | WALLETCONNECT_TO_PARA => 3
  end.

(** The earlier of two answers of the selector, no answer coming last. *)
Definition earlier (a b : option MigrationStrategy) : option MigrationStrategy :=
  match a, b with
  | Some x, Some y => if Nat.leb (priority x) (priority y) then Some x else Some y
  | Some x, None => Some x
  | None, _ => b
  end.

(** The project that holds what two projects hold: the dependencies of
    the first, then those of the second that the first does not name, and
    the imports, providers, hooks, styles and entry points of both. *)
Definition joined (a b : ProjectState) : ProjectState :=
  {| dependencies :=
       dependencies a
       ++ filter (fun kv => negb (Js.array_includes (Js.keys (dependencies a)) (fst kv)))
                 (dependencies b);
     imports := imports a ++ imports b;
     providers := providers a ++ providers b;
     hooks := hooks a ++ hooks b;
     styles := styles a ++ styles b;
     entryPoints := entryPoints a ++ entryPoints b |}.

(** A hook usage whose hook is no member of [Object.prototype] and whose
    line is a safe integer. *)
Definition plain_usage (h : HookUsage.t) : bool :=
  negb (Js.array_includes Js.Object_prototype (HookUsage.hook h))
  && Js.isSafeInteger (HookUsage.line h).

(** A project whose only source provider is WalletConnect. *)
Definition walletconnect_only (state : ProjectState) : bool :=
  Js.some (fun dep => Js.includes dep "walletconnect") (Js.keys (dependencies state))
  && forallb (fun dep =>
                negb (Js.includes dep "privy" || Js.includes dep "reown"
                      || Js.includes dep "web3modal"))
             (Js.keys (dependencies state))
  && forallb (fun i =>
                negb (Js.includes (FileImport.from i) "privy"
                      || Js.includes (FileImport.from i) "reown"
                      || Js.includes (FileImport.from i) "web3modal"))
             (imports state).

(** The points a criterion of the success score is worth. *)
Definition points (met : bool) (weight : Z) : Z := if met then weight else 0.

(** ** Sample inputs *)

Module Samples.

(** The project state of [test-atomic-architecture.js]: Privy still in
    place, the Para SDK already installed. *)
Definition mock_state : ProjectState :=
  {| dependencies :=
       [ ("@privy-io/react-auth", "^2.21.3"); ("@para-wallet/react", "^1.0.0") ];
     imports :=
       [ FileImport.mk "src/components/auth.tsx" 5 "usePrivy"
                       "@privy-io/react-auth" ImportType.privy ];
     providers :=
       [ ProviderUsage.mk "src/providers/app-provider.tsx" 10 "PrivyProvider"
                          [ ("appId", Js.Str "test-app-id") ] true ];
     hooks := [];
     styles := [];
     entryPoints := [ "src/main.tsx" ] |}.


(** A project on WalletConnect alone. *)
Definition walletconnect_state : ProjectState :=
  {| dependencies :=
       [ ("@walletconnect/ethereum-provider", "^2.11.0"); ("react", "^18.2.0") ];
     imports :=
       [ FileImport.mk "src/wallet.ts" 2 "EthereumProvider"
                       "@walletconnect/ethereum-provider" ImportType.other ];
     providers := [];
     hooks := [];
     styles := [];
     entryPoints := [ "src/main.tsx" ] |}.

(** A project with traces of all three detected providers. *)
Definition mixed_state : ProjectState :=
  {| dependencies :=
       [ ("@web3modal/wagmi", "^4.0.0"); ("@reown/appkit", "^1.0.0");
         ("@privy-io/react-auth", "^2.21.3") ];
     imports :=
       [ FileImport.mk "src/modal.tsx" 3 "createWeb3Modal" "@web3modal/wagmi"
                       ImportType.web3modal ];
     providers := [];
     hooks := [];
     styles := [];
     entryPoints := [ "src/main.tsx" ] |}.

(** Handlers that throw on the operations whose id is listed. *)
Definition failing_on (ids : list string) : OperationHandlers :=
  let run := fun op : ReplacementOperation =>
    if Js.array_includes ids (id op)
    then Thrown (Js.mkError "EACCES: permission denied")
    else Returned tt in
  mkHandlers run run run run run.

Definition operation (name : string) (critical : bool) : ReplacementOperation :=
  {| id := name; type := OperationType.dependency; file := None; line := None;
     oldValue := EmptyString; newValue := EmptyString; critical := critical |}.

Definition plan_of (operations : list ReplacementOperation)
  (checks : list ValidationCheck.t) : MigrationPlan.t :=
  MigrationPlan.mk PRIVY_TO_PARA operations checks
    (MigrationEngine.generateRollbackPlan operations)
    (MigrationEngine.estimateTime operations).

(** An engine whose own rollback list holds the inverse of every
    operation of its plan. *)
Definition engine_of (operations : list ReplacementOperation)
  (checks : list ValidationCheck.t) : MigrationEngine.t :=
  MigrationEngine.mk None (Some (plan_of operations checks))
    (MigrationEngine.generateRollbackPlan operations).

Definition clock (n : nat) : Z := 1000 + 7 * Z.of_nat n.

Definition store_of (engine : MigrationEngine.t) : MigrationEngine.Store :=
  MigrationEngine.mkStore engine MigrationEngine.initial_result [] clock 0.

Definition three_critical : list ReplacementOperation :=
  [ operation "op-a" true; operation "op-b" true; operation "op-c" true ].

Definition hook_then_critical : list ReplacementOperation :=
  [ operation "op-a" false; operation "op-b" true ].

Definition with_optional_step : list ReplacementOperation :=
  [ operation "op-a" true; operation "op-b" false; operation "op-c" true ].

(** An inverse action that cannot undo its operation. *)
Definition stuck_inverse (name : string) : RollbackOperation.t :=
  RollbackOperation.mk name
    (fun c => (Thrown (Js.mkError "ENOENT: backup not found"), c)).

Definition printing_inverse (name : string) : RollbackOperation.t :=
  RollbackOperation.mk name
    (fun c => (Returned tt, c ++ [MigrationEngine.rollback_line name])).

(** An engine whose inverse of [op-b] is stuck. *)
Definition engine_with_stuck_inverse : MigrationEngine.t :=
  MigrationEngine.mk None (Some (plan_of three_critical []))
    [ printing_inverse "op-a"; stuck_inverse "op-b"; printing_inverse "op-c" ].

Definition no_content : ValidationIssue.t :=
  {| ValidationIssue.severity := Severity.critical;
     ValidationIssue.code := "NO_MIGRATABLE_CONTENT";
     ValidationIssue.message := "No wallet providers detected for migration";
     ValidationIssue.file := None;
     ValidationIssue.line := None;
     ValidationIssue.fix_ := None |}.

(** A pre-flight check that fails. *)
Definition failing_preflight : ValidationCheck.t :=
  ValidationCheck.mk "pre-dependencies" ValidationCheck.pre
    "Check old dependencies are present"
    (fun _ => Returned {| valid := false; issues := [ no_content ]; warnings := [] |}).

(** A check that passes with a warning, as [checkForConflicts] does. *)
Definition warning_check : ValidationCheck.t :=
  ValidationCheck.mk "pre-conflicts" ValidationCheck.pre
    "Check for an existing Para SDK"
    (fun _ => Returned (AtomicValidator.checkForConflicts mock_state)).

End Samples.

(** ** Phases of a plan *)

(** The rank of the phase in which [execute] emits the operations of a
    type: dependencies, imports, providers, hooks, styles. *)
Definition phase (t : OperationType.t) : nat :=
  match t with
  | OperationType.dependency => 0
  | OperationType.import => 1
  | OperationType.provider => 2
  | OperationType.hook => 3
  | OperationType.style => 4
  end.

(** The operations of a type in a plan. *)
Definition of_type (t : OperationType.t) (plan : list ReplacementOperation)
  : list ReplacementOperation :=
  filter (fun op => OperationType.eqb (type op) t) plan.

(** A plan sorted by phase, none of its operations before phase [rank]. *)
Definition ordered_from (rank : nat) (plan : list ReplacementOperation) : Prop :=
  StronglySorted le (map (fun op => phase (type op)) plan)
  /\ Forall (fun op => rank <= phase (type op))%nat plan.

(** ** More sample inputs *)

Module Cases.

(** A project half migrated: Privy and ReOwn packages still installed, a
    Privy import left, and a Privy provider configured with a string
    environment. *)
Definition half_migrated : ProjectState :=
  {| dependencies :=
       [ ("@privy-io/react-auth", "^2.21.3"); ("react", "^18.2.0");
         ("@reown/appkit", "^1.0.0") ];
     imports :=
       [ FileImport.mk "src/components/auth.tsx" 5 "usePrivy"
                       "@privy-io/react-auth" ImportType.privy ];
     providers :=
       [ ProviderUsage.mk "src/providers/app-provider.tsx" 10 "PrivyProvider"
           [ ("appId", Js.Str "test-app-id"); ("environment", Js.Str "production") ]
           true ];
     hooks := [];
     styles := [];
     entryPoints := [ "src/main.tsx" ] |}.

(** The state after migration of [test-reown-migration.js]. *)
Definition migrated : ProjectState :=
  {| dependencies := [ ("@para-wallet/react", "^1.0.0"); ("wagmi", "^2.0.0") ];
     imports :=
       [ FileImport.mk "src/providers/web3-provider.tsx" 5 "ParaProvider, ParaModal"
                       "@para-wallet/react" ImportType.para ];
     providers :=
       [ ProviderUsage.mk "src/providers/web3-provider.tsx" 15 "ParaProvider"
                          [ ("apiKey", Js.Str "para-api-key") ] true ];
     hooks :=
       [ HookUsage.mk "src/components/connect-button.tsx" 12 "useModal"
                      "@para-wallet/react" "const { open } = useModal()" ];
     styles :=
       [ StyleImport.mk "src/main.tsx" 3 "@para-wallet/react/styles.css" true ];
     entryPoints := [ "src/main.tsx" ] |}.

(** A ReOwn project, after [test-reown-migration.js]. *)
Definition reown_project : ProjectState :=
  {| dependencies :=
       [ ("@reown/appkit", "^1.0.0"); ("@reown/appkit-adapter-wagmi", "^1.0.0");
         ("wagmi", "^2.0.0") ];
     imports :=
       [ FileImport.mk "src/components/connect-button.tsx" 3
                       "useAppKit, useAppKitAccount" "@reown/appkit/react"
                       ImportType.reown ];
     providers :=
       [ ProviderUsage.mk "src/providers/web3-provider.tsx" 15 "AppKit"
                          [ ("projectId", Js.Str "test-project-id") ] true ];
     hooks :=
       [ HookUsage.mk "src/components/connect-button.tsx" 12 "useAppKit"
                      "@reown/appkit/react" "const { open } = useAppKit()";
         HookUsage.mk "src/components/connect-button.tsx" 13 "useAppKitAccount"
                      "@reown/appkit/react"
                      "const { address, isConnected } = useAppKitAccount()" ];
     styles := [];
     entryPoints := [ "src/main.tsx"; "src/App.tsx" ] |}.

(** A Privy project that uses two hooks, one of them outside the
    replacement table. *)
Definition privy_project : ProjectState :=
  {| dependencies :=
       [ ("@privy-io/react-auth", "^2.21.3"); ("@privy-io/wagmi", "^1.0.6");
         ("react", "^18.2.0") ];
     imports :=
       [ FileImport.mk "src/components/auth.tsx" 5 "usePrivy, useWallets"
                       "@privy-io/react-auth" ImportType.privy ];
     providers :=
       [ ProviderUsage.mk "src/providers/app-provider.tsx" 10 "PrivyProvider"
                          [ ("appId", Js.Str "test-app-id") ] true ];
     hooks :=
       [ HookUsage.mk "src/components/auth.tsx" 12 "usePrivy"
                      "@privy-io/react-auth"
                      "const { authenticated, user } = usePrivy()";
         HookUsage.mk "src/components/fund.tsx" 8 "useFundWallet"
                      "@privy-io/react-auth"
                      "const { fundWallet } = useFundWallet()" ];
     styles := [];
     entryPoints := [ "src/main.tsx" ] |}.

(** A project that depends on the Privy connector for wagmi and on ReOwn
    AppKit. *)
Definition privy_wagmi_and_reown : ProjectState :=
  {| dependencies :=
       [ ("@privy-io/wagmi", "^1.0.6"); ("@reown/appkit", "^1.0.0") ];
     imports := [];
     providers := [];
     hooks := [];
     styles := [];
     entryPoints := [ "src/main.tsx" ] |}.

(** A project that depends on an AppKit package outside the [@reown]
    scope and on Web3Modal. *)
Definition appkit_and_web3modal : ProjectState :=
  {| dependencies :=
       [ ("@web3modal/wagmi", "^4.0.0"); ("appkit-ui", "^0.3.0") ];
     imports := [];
     providers := [];
     hooks := [];
     styles := [];
     entryPoints := [ "src/main.tsx" ] |}.

(** A project on WalletConnect alone in which no entry point was
    found. *)
Definition walletconnect_library : ProjectState :=
  {| dependencies := [ ("@walletconnect/ethereum-provider", "^2.11.0") ];
     imports := [];
     providers := [];
     hooks := [];
     styles := [];
     entryPoints := [] |}.

(** A post-migration check that finds the modal missing. *)
Definition failing_postcheck : ValidationCheck.t :=
  ValidationCheck.mk "post-para-modal" ValidationCheck.post
    "Check ParaModal component is present"
    (fun _ => Returned (AtomicValidator.validateParaModalPresent half_migrated)).

(** A pre-flight check that cannot read the project. *)
Definition throwing_check : ValidationCheck.t :=
  ValidationCheck.mk "pre-dependencies" ValidationCheck.pre
    "Check old dependencies are present"
    (fun _ => Thrown (Js.mkError "ENOENT: no such file or directory, open 'package.json'")).

End Cases.

(** * Properties *)

(** ** Substring search *)

Lemma prefix_app (pat s : string) : String.prefix pat (pat ++ s) = true.
Proof.
  induction pat as [|c pat IH]; simpl.
  - destruct s; reflexivity.
  - destruct (ascii_dec c c) as [_|ne]; [exact IH | now elim ne].
Qed.

Lemma includes_cons (c : ascii) (s pat : string) :
  Js.includes (String c s) pat
  = String.prefix pat (String c s) || Js.includes s pat.
Proof. reflexivity. Qed.

Lemma includes_here (pat s : string) : Js.includes (pat ++ s) pat = true.
Proof.
  destruct (pat ++ s)%string eqn:E.
  - destruct pat; [reflexivity | discriminate].
  - rewrite includes_cons, <- E, prefix_app. reflexivity.
Qed.

Lemma includes_app_r (s0 s pat : string) :
  Js.includes s pat = true -> Js.includes (s0 ++ s) pat = true.
Proof.
  intros H. induction s0 as [|c s0 IH]; simpl String.append.
  - exact H.
  - rewrite includes_cons, IH. apply orb_true_r.
Qed.

(** ** Tests over arrays *)

Lemma existsb_none {A} (f g : A -> bool) (l : list A) :
  forallb (fun x => negb (g x)) l = true ->
  (forall x, f x = true -> g x = true) ->
  existsb f l = false.
Proof.
  intros Hall Hfg. induction l as [|x l IH]; simpl in *.
  - reflexivity.
  - apply andb_true_iff in Hall as [Hx Hl].
    destruct (f x) eqn:Fx.
    + rewrite (Hfg _ Fx) in Hx. discriminate.
    + simpl. auto.
Qed.


Lemma existsb_map_from {A B} (f : B -> bool) (g : A -> B) (l : list A) :
  existsb f (map g l) = existsb (fun x => f (g x)) l.
Proof. induction l as [|x l IH]; simpl; [reflexivity | now rewrite IH]. Qed.

Lemma has_fingerprint_unfold (name : string) :
  has_fingerprint name
  = Js.includes name "privy" || Js.includes name "reown"
    || Js.includes name "web3modal" || Js.includes name "walletconnect".
Proof.
  unfold has_fingerprint; simpl.
  rewrite orb_false_r, !orb_assoc. reflexivity.
Qed.

Lemma fingerprint_privy name : Js.includes name "privy" = true -> has_fingerprint name = true.
Proof. intros H. rewrite has_fingerprint_unfold, H. reflexivity. Qed.

Lemma fingerprint_reown name : Js.includes name "reown" = true -> has_fingerprint name = true.
Proof. intros H. rewrite has_fingerprint_unfold, H, orb_true_r. reflexivity. Qed.

Lemma fingerprint_web3modal name :
  Js.includes name "web3modal" = true -> has_fingerprint name = true.
Proof. intros H. rewrite has_fingerprint_unfold, H, !orb_true_r. reflexivity. Qed.

Lemma fingerprint_walletconnect name :
  Js.includes name "walletconnect" = true -> has_fingerprint name = true.
Proof. intros H. rewrite has_fingerprint_unfold, H, !orb_true_r. reflexivity. Qed.

Lemma fingerprint_privy_auth name :
  String.eqb "@privy-io/react-auth" name = true -> has_fingerprint name = true.
Proof. intros H. apply String.eqb_eq in H. subst name. reflexivity. Qed.

Create HintDb fingerprints.

#[local] Hint Resolve fingerprint_privy fingerprint_reown fingerprint_web3modal
  fingerprint_walletconnect fingerprint_privy_auth : fingerprints.

(** ** The strategy selector *)


(** ** The pre-flight battery *)


Lemma merge_failed_keeps_issue (result check : ValidationResult) (i : ValidationIssue.t) :
  In i (issues result) -> In i (issues (AtomicValidator.merge_failed result check)).
Proof.
  intros H. unfold AtomicValidator.merge_failed.
  destruct (valid check); simpl; [exact H | apply in_or_app; now left].
Qed.

Lemma merge_failed_warnings (result check : ValidationResult) :
  warnings (AtomicValidator.merge_failed result check) = warnings result.
Proof. unfold AtomicValidator.merge_failed. now destruct (valid check). Qed.





(** What the selector takes for a trace of Privy: the dependency
    [@privy-io/react-auth] itself, or an import source that holds
    [privy]. *)
Lemma detectStrategy_privy (state : ProjectState) :
  StrategyFactory.detectStrategy state = Some PRIVY_TO_PARA
  <-> In "@privy-io/react-auth" (Js.keys (dependencies state))
      \/ exists i, In i (imports state)
                   /\ Js.includes (FileImport.from i) "privy" = true.
Proof.
  unfold StrategyFactory.detectStrategy, Js.array_includes, Js.some. cbv zeta.
  rewrite !existsb_map_from.
  destruct (existsb (String.eqb "@privy-io/react-auth") (Js.keys (dependencies state)))
    eqn:Ed.
  - split; [intros _ | reflexivity]. left.
    apply existsb_exists in Ed as (d & Hd & E). apply String.eqb_eq in E. now subst d.
  - destruct (existsb (fun x => Js.includes (FileImport.from x) "privy") (imports state))
      eqn:Ei; simpl.
    + split; [intros _ | reflexivity]. right.
      apply existsb_exists in Ei as (i & Hi & E). eauto.
    + split.
      * repeat match goal with
               | |- context [if ?b then _ else _] => destruct b
               end; discriminate.
      * intros [Hd | (i & Hi & E)].
        -- assert (existsb (String.eqb "@privy-io/react-auth")
                           (Js.keys (dependencies state)) = true)
             by (apply existsb_exists; eexists; split; [exact Hd | apply String.eqb_refl]).
           congruence.
        -- assert (existsb (fun x => Js.includes (FileImport.from x) "privy")
                           (imports state) = true)
             by (apply existsb_exists; eauto).
           congruence.
Qed.

(** A strategy is detected only where a dependency name or an import
    source holds the name of its provider. *)
Lemma detectStrategy_sound (state : ProjectState) (s : MigrationStrategy) :
  StrategyFactory.detectStrategy state = Some s ->
  exists name,
    In name (names state)
    /\ Js.includes name match s with
                        | PRIVY_TO_PARA => "privy"
                        | REOWN_TO_PARA => "reown"
                        | WEB3MODAL_TO_PARA => "web3modal"
                        | WALLETCONNECT_TO_PARA => "walletconnect"
                        end = true.
Proof.
  unfold StrategyFactory.detectStrategy, Js.array_includes, Js.some, names. cbv zeta.
  assert (Hor : forall (f : string -> bool) (l1 l2 : list string),
             existsb f l1 || existsb f l2 = true ->
             exists name, In name (l1 ++ l2) /\ f name = true).
  { intros f l1 l2 H. rewrite <- existsb_app in H.
    apply existsb_exists in H. exact H. }
  destruct (existsb (String.eqb "@privy-io/react-auth") (Js.keys (dependencies state))
            || _) eqn:Ep.
  { intros H. inversion H. subst s.
    apply orb_true_iff in Ep as [Ep | Ep].
    - apply existsb_exists in Ep as (d & Hd & E). apply String.eqb_eq in E. subst d.
      exists "@privy-io/react-auth". split; [apply in_or_app; now left | reflexivity].
    - apply existsb_exists in Ep as (i & Hi & E).
      exists i. split; [apply in_or_app; now right | exact E]. }
  destruct (existsb (fun d => Js.includes d "reown") _ || _) eqn:Er.
  { intros H. inversion H. subst s. exact (Hor _ _ _ Er). }
  destruct (existsb (fun d => Js.includes d "web3modal") _ || _) eqn:Ew.
  { intros H. inversion H. subst s. exact (Hor _ _ _ Ew). }
  discriminate.
Qed.

(** A dependency name or import source that holds [reown] or [web3modal]
    gets the project a strategy, that of its provider or an earlier one. *)
Lemma detectStrategy_complete (state : ProjectState) (name : string)
  (s : MigrationStrategy) :
  In name (names state) ->
  (s = REOWN_TO_PARA /\ Js.includes name "reown" = true)
  \/ (s = WEB3MODAL_TO_PARA /\ Js.includes name "web3modal" = true) ->
  earlier (StrategyFactory.detectStrategy state) (Some s)
  = StrategyFactory.detectStrategy state.
Proof.
  unfold StrategyFactory.detectStrategy, Js.array_includes, Js.some, names. cbv zeta.
  intros Hin Hs.
  assert (Hex : forall pat, Js.includes name pat = true ->
                  existsb (fun d => Js.includes d pat) (Js.keys (dependencies state))
                  || existsb (fun i => Js.includes i pat)
                             (map FileImport.from (imports state)) = true).
  { intros pat Hp. rewrite <- existsb_app. apply existsb_exists. eauto. }
  destruct (existsb (String.eqb "@privy-io/react-auth") _ || _);
    [destruct Hs as [[-> _] | [-> _]]; reflexivity |].
  destruct Hs as [[-> Hp] | [-> Hp]].
  - now rewrite (Hex _ Hp).
  - rewrite (Hex _ Hp). now destruct (existsb _ _ || _).
Qed.

(** A test over the dependency names of two projects taken together. *)
Lemma existsb_joined_keys (f : string -> bool) (a b : ProjectState) :
  existsb f (Js.keys (dependencies (joined a b)))
  = existsb f (Js.keys (dependencies a)) || existsb f (Js.keys (dependencies b)).
Proof.
  unfold joined, Js.keys. cbn [dependencies]. rewrite map_app, existsb_app.
  destruct (existsb f (map fst (dependencies a))) eqn:Ea; [reflexivity |].
  cbn [orb]. induction (dependencies b) as [|kv rest IH]; [reflexivity |].
  cbn [filter].
  destruct (Js.array_includes (map fst (dependencies a)) (fst kv)) eqn:Ek; cbn [negb].
  - cbn [map existsb]. rewrite <- IH.
    apply existsb_exists in Ek as (k & Hk & E). apply String.eqb_eq in E. subst k.
    destruct (f (fst kv)) eqn:Ef; [| reflexivity].
    assert (existsb f (map fst (dependencies a)) = true)
      by (apply existsb_exists; eauto).
    congruence.
  - cbn [map existsb]. now rewrite IH.
Qed.

(** C7, as amended.  The selector knows three traces: of Privy, the
    dependency [@privy-io/react-auth] itself or an import source that holds
    [privy]; of ReOwn, a dependency name or import source that holds
    [reown]; of Web3Modal, one that holds [web3modal].  It tests them in
    this order, so that a project that holds what two projects hold
    resolves to the earlier of the strategies detected for each of them
    alone, and to none when none is detected for either. *)
Theorem detectStrategy_resolves_to_earliest (a b : ProjectState) :
  StrategyFactory.detectStrategy (joined a b)
  = earlier (StrategyFactory.detectStrategy a) (StrategyFactory.detectStrategy b)
  /\ (forall state,
        StrategyFactory.detectStrategy state = Some PRIVY_TO_PARA
        <-> In "@privy-io/react-auth" (Js.keys (dependencies state))
            \/ exists i, In i (imports state)
                         /\ Js.includes (FileImport.from i) "privy" = true)
  /\ (forall state s,
        StrategyFactory.detectStrategy state = Some s ->
        exists name,
          In name (names state)
          /\ Js.includes name match s with
                              | PRIVY_TO_PARA => "privy"
                              | REOWN_TO_PARA => "reown"
                              | WEB3MODAL_TO_PARA => "web3modal"
                              | WALLETCONNECT_TO_PARA => "walletconnect"
                              end = true)
  /\ (forall state name s,
        In name (names state) ->
        (s = REOWN_TO_PARA /\ Js.includes name "reown" = true)
        \/ (s = WEB3MODAL_TO_PARA /\ Js.includes name "web3modal" = true) ->
        earlier (StrategyFactory.detectStrategy state) (Some s)
        = StrategyFactory.detectStrategy state).
Proof.
  split; [| split; [exact detectStrategy_privy
                   | split; [exact detectStrategy_sound
                            | exact detectStrategy_complete]]].
  unfold StrategyFactory.detectStrategy, Js.array_includes, Js.some. cbv zeta.
  rewrite !existsb_joined_keys. cbn [joined imports].
  rewrite !map_app, !existsb_app.
  repeat match goal with
         | |- context [existsb ?f ?l] => destruct (existsb f l)
         end; reflexivity.
Qed.

(** C7 as stated fails.  The first project holds a fingerprint of Privy,
    in the dependency name [@privy-io/wagmi], and one of ReOwn, and is
    resolved to ReOwn; the second holds [appkit] and a fingerprint of
    Web3Modal, and is resolved to Web3Modal. *)
Lemma detectStrategy_priority_counterexample :
  (existsb (fun name => Js.includes name "privy") (names Cases.privy_wagmi_and_reown)
   = true
   /\ existsb (fun name => Js.includes name "reown") (names Cases.privy_wagmi_and_reown)
      = true
   /\ StrategyFactory.detectStrategy Cases.privy_wagmi_and_reown = Some REOWN_TO_PARA)
  /\ existsb (fun name => Js.includes name "appkit") (names Cases.appkit_and_web3modal)
     = true
  /\ existsb (fun name => Js.includes name "web3modal") (names Cases.appkit_and_web3modal)
     = true
  /\ StrategyFactory.detectStrategy Cases.appkit_and_web3modal = Some WEB3MODAL_TO_PARA.
Proof. vm_compute. repeat split. Qed.

(** On a project that joins a Web3Modal project and a Privy project, in
    this order, Privy wins. *)
Example detectStrategy_mixed :
  StrategyFactory.detectStrategy Cases.appkit_and_web3modal = Some WEB3MODAL_TO_PARA
  /\ StrategyFactory.detectStrategy Samples.mock_state = Some PRIVY_TO_PARA
  /\ StrategyFactory.detectStrategy (joined Cases.appkit_and_web3modal Samples.mock_state)
     = Some PRIVY_TO_PARA
  /\ StrategyFactory.detectStrategy Samples.mixed_state = Some PRIVY_TO_PARA.
Proof. vm_compute. repeat split. Qed.

(** C8, at the state of [test-atomic-architecture.js], which already
    depends on the Para SDK: [checkForConflicts] produces the warning, and
    the pre-flight battery returns no warning at all. *)
Theorem preflight_loses_conflict_warning :
  Js.some (fun dep => Js.includes dep "para")
          (Js.keys (dependencies Samples.mock_state)) = true
  /\ warnings (AtomicValidator.checkForConflicts Samples.mock_state)
     = [ "Para SDK already present - migration may overwrite existing configuration" ]
  /\ AtomicValidator.validatePreFlight Samples.mock_state
     = {| valid := true; issues := []; warnings := [] |}.
Proof. vm_compute. repeat split. Qed.

(** The battery never reports a warning, whatever its checks found. *)
Lemma validatePreFlight_warnings (state : ProjectState) :
  warnings (AtomicValidator.validatePreFlight state) = [].
Proof.
  unfold AtomicValidator.validatePreFlight. cbv zeta.
  rewrite !merge_failed_warnings. reflexivity.
Qed.

(** The engine's own battery loop keeps the warnings of a passing check. *)
Lemma run_validators_keeps_warning :
  MigrationEngine.run_validators [ Samples.warning_check ] MigrationEngine.passing
  = Returned
      {| valid := true; issues := [];
         warnings :=
           [ "Para SDK already present - migration may overwrite existing configuration" ] |}.
Proof. vm_compute. reflexivity. Qed.

(** ** The success score *)

Lemma round_percentage (n : Z) :
  0 <= n <= 100 ->
  Js.Math_round (Js.number n / Js.number 100 * 100)%float = n.
Proof.
  intros H.
  assert (Hall : forallb (fun k => Js.Math_round
                                     (Js.number (Z.of_nat k) / Js.number 100 * 100)%float
                                   =? Z.of_nat k)
                         (seq 0 101) = true) by (vm_compute; reflexivity).
  rewrite forallb_forall in Hall.
  specialize (Hall (Z.to_nat n)).
  rewrite Z2Nat.id in Hall by lia.
  apply Z.eqb_eq, Hall, in_seq. lia.
Qed.

(** C9. The success score is an integer between 0 and 100, the sum of the
    weights of the criteria the state meets: Para dependency 15, no old
    dependency 15, Para import 15, no old-tagged import 10, ParaProvider
    usage 15, ParaModal import 10, Para stylesheet 10, Para hook 10. *)
Theorem calculateMigrationSuccess_weights (state : ProjectState) :
  AtomicValidator.calculateMigrationSuccess state
  = points (Js.some (fun dep => Js.includes dep "para")
                    (Js.keys (dependencies state))) 15
    + points (negb (Js.some (fun dep => Js.includes dep "privy"
                                        || Js.includes dep "reown"
                                        || Js.includes dep "web3modal")
                            (Js.keys (dependencies state)))) 15
    + points (Js.some (fun imp => Js.includes (FileImport.from imp) "para")
                      (imports state)) 15
    + points (negb (Js.some (fun imp =>
                               ImportType.eqb (FileImport.type imp) ImportType.privy
                               || ImportType.eqb (FileImport.type imp) ImportType.reown
                               || ImportType.eqb (FileImport.type imp) ImportType.web3modal)
                            (imports state))) 10
    + points (Js.some (fun p => String.eqb (ProviderUsage.provider p) "ParaProvider")
                      (providers state)) 15
    + points (Js.some (fun imp => Js.includes (FileImport.import imp) "ParaModal")
                      (imports state)) 10
    + points (Js.some StyleImport.isParaStyle (styles state)) 10
    + points (Js.some (fun hook => Js.includes (HookUsage.from hook) "para")
                      (hooks state)) 10
  /\ 0 <= AtomicValidator.calculateMigrationSuccess state <= 100.
Proof.
  unfold AtomicValidator.calculateMigrationSuccess. cbv zeta.
  repeat match goal with
         | |- context [Js.some ?f ?l] => destruct (Js.some f l)
         end;
    cbn [negb points Z.add]; rewrite round_percentage by lia; lia.
Qed.

(** The score of the test's state: the Para dependency alone counts. *)
Example calculateMigrationSuccess_mock :
  AtomicValidator.calculateMigrationSuccess Samples.mock_state = 15.
Proof. vm_compute. reflexivity. Qed.

(** ** Provider rewrites *)

Lemma privy_para_provider_has_modal (props : list (string * Js.value)) :
  Js.includes (PrivyToParaStrategy.generateParaProvider props) "ParaModal" = true.
Proof.
  unfold PrivyToParaStrategy.generateParaProvider.
  repeat apply includes_app_r. vm_compute. reflexivity.
Qed.

Lemma reown_para_provider_has_modal (props : list (string * Js.value)) :
  Js.includes (ReownToParaStrategy.generateParaProvider props) "ParaModal" = true.
Proof.
  unfold ReownToParaStrategy.generateParaProvider.
  repeat apply includes_app_r. vm_compute. reflexivity.
Qed.

Lemma replace_hook_type (f : string -> option string) (h : HookUsage.t)
  (op : ReplacementOperation) :
  In op (replace_hook f h) -> type op = OperationType.hook.
Proof.
  unfold replace_hook. destruct (f (HookUsage.hook h)); simpl.
  - intros [<- | []]. reflexivity.
  - intros [].
Qed.

(** Case analysis on where an operation of a plan comes from. *)
Ltac plan_member H :=
  repeat (apply in_app_or in H as [H | H]);
  repeat match type of H with
         | In _ (map _ _) =>
             apply in_map_iff in H as (? & <- & _)
         | In _ (flat_map _ _) =>
             apply in_flat_map in H as (? & _ & H); apply replace_hook_type in H
         | In _ (_ :: _) => destruct H as [<- | H]
         | In _ [] => destruct H
         end.

(** C3. Whatever the project state, every operation of type [provider]
    that a strategy made by [StrategyFactory.createStrategy] emits has a
    [newValue] in which [ParaModal] occurs. *)
Theorem provider_rewrite_names_modal
  (name : MigrationStrategy) (s : ReplacementStrategy)
  (state : ProjectState) (op : ReplacementOperation) :
  StrategyFactory.createStrategy name = Returned s ->
  In op (execute s state) ->
  type op = OperationType.provider ->
  Js.includes (newValue op) "ParaModal" = true.
Proof.
  intros Hs Hin Hty.
  destruct name; simpl in Hs; inversion Hs; subst s; clear Hs.
  - change (In op (PrivyToParaStrategy.execute state)) in Hin.
    unfold PrivyToParaStrategy.execute in Hin.
    plan_member Hin; try discriminate Hty; try congruence.
    apply privy_para_provider_has_modal.
  - change (In op (ReownToParaStrategy.execute state)) in Hin.
    unfold ReownToParaStrategy.execute in Hin.
    plan_member Hin; try discriminate Hty; try congruence.
    apply reown_para_provider_has_modal.
  - change (In op (Web3ModalToParaStrategy.execute state)) in Hin.
    unfold Web3ModalToParaStrategy.execute in Hin.
    plan_member Hin; discriminate Hty.
Qed.

Lemma provider_rewrite_names_modal_witness :
  Js.includes
    (newValue (nth 4 (PrivyToParaStrategy.execute Samples.mock_state) add_para_react))
    "ParaModal" = true.
Proof.
  apply (@provider_rewrite_names_modal PRIVY_TO_PARA PrivyToParaStrategy.new
           Samples.mock_state).
  - reflexivity.
  - vm_compute. do 4 right. left. reflexivity.
  - vm_compute. reflexivity.
Defined.

(** ** WalletConnect *)

Lemma filter_some {A} (f g : A -> bool) (l : list A) :
  existsb f l = true ->
  (forall x, f x = true -> g x = true) ->
  Nat.eqb (List.length (filter g l)) 0 = false.
Proof.
  intros Hex Hfg. apply existsb_exists in Hex as (x & Hin & Hx).
  assert (Hg : In x (filter g l)) by (apply filter_In; auto).
  destruct (filter g l); [destruct Hg | reflexivity].
Qed.

Lemma detectStrategy_never_walletconnect (state : ProjectState) :
  StrategyFactory.detectStrategy state <> Some WALLETCONNECT_TO_PARA.
Proof.
  unfold StrategyFactory.detectStrategy. cbv zeta.
  repeat match goal with
         | |- context [if ?b then _ else _] => destruct b
         end; discriminate.
Qed.

Lemma checkMigratableContent_walletconnect (state : ProjectState) :
  Js.some (fun dep => Js.includes dep "walletconnect")
          (Js.keys (dependencies state)) = true ->
  AtomicValidator.checkMigratableContent state = AtomicValidator.fresh.
Proof.
  intros H. unfold AtomicValidator.checkMigratableContent.
  rewrite (filter_some _ _ _ H); [reflexivity |].
  intros x Hx. simpl. rewrite Hx. apply orb_true_r.
Qed.

(** For a project on WalletConnect alone the pre-flight battery is the
    entry-point check. *)
Lemma validatePreFlight_walletconnect (state : ProjectState) :
  Js.some (fun dep => Js.includes dep "walletconnect")
          (Js.keys (dependencies state)) = true ->
  AtomicValidator.validatePreFlight state = AtomicValidator.checkProjectStructure state.
Proof.
  intros Hwc. unfold AtomicValidator.validatePreFlight. cbv zeta.
  rewrite (checkMigratableContent_walletconnect state Hwc).
  unfold AtomicValidator.checkProjectStructure, AtomicValidator.checkForConflicts.
  cbv zeta.
  destruct (Nat.eqb (List.length (entryPoints state)) 0);
    destruct (Js.some (fun dep => Js.includes dep "para") _); reflexivity.
Qed.

Lemma detectStrategy_walletconnect_only (state : ProjectState) :
  walletconnect_only state = true -> StrategyFactory.detectStrategy state = None.
Proof.
  unfold walletconnect_only. intros H.
  apply andb_true_iff in H as [H Himps]. apply andb_true_iff in H as [_ Hdeps].
  unfold StrategyFactory.detectStrategy, Js.array_includes, Js.some.
  rewrite !existsb_map_from.
  set (old := fun name => Js.includes name "privy" || Js.includes name "reown"
                          || Js.includes name "web3modal") in *.
  assert (Hp : forall n, Js.includes n "privy" = true -> old n = true)
    by (intros n Hn; unfold old; now rewrite Hn).
  assert (Hr : forall n, Js.includes n "reown" = true -> old n = true)
    by (intros n Hn; unfold old; rewrite Hn; now rewrite orb_true_r).
  assert (Hw : forall n, Js.includes n "web3modal" = true -> old n = true)
    by (intros n Hn; unfold old; rewrite Hn; now rewrite orb_true_r).
  rewrite (existsb_none (String.eqb "@privy-io/react-auth") old _ Hdeps)
    by (intros x Hx; apply String.eqb_eq in Hx; subst x; reflexivity).
  rewrite (existsb_none (fun d => Js.includes d "reown") old _ Hdeps) by auto.
  rewrite (existsb_none (fun d => Js.includes d "web3modal") old _ Hdeps) by auto.
  rewrite (existsb_none (fun x => Js.includes (FileImport.from x) "privy")
             (fun x => old (FileImport.from x)) _ Himps) by auto.
  rewrite (existsb_none (fun x => Js.includes (FileImport.from x) "reown")
             (fun x => old (FileImport.from x)) _ Himps) by auto.
  rewrite (existsb_none (fun x => Js.includes (FileImport.from x) "web3modal")
             (fun x => old (FileImport.from x)) _ Himps) by auto.
  reflexivity.
Qed.

(** [createReplacementPlan] asks nothing of the strategy it is given: on
    an engine that has scanned it returns a plan that bears its name. *)
Lemma createReplacementPlan_any_strategy (strategy : MigrationStrategy)
  (s : MigrationEngine.Store) (scanned : ProjectState) :
  MigrationEngine.state (MigrationEngine.this s) = Some scanned ->
  exists plan s',
    MigrationEngine.createReplacementPlan strategy s = (Returned plan, s')
    /\ MigrationPlan.strategy plan = strategy
    /\ MigrationEngine.plan (MigrationEngine.this s') = Some plan.
Proof.
  intros Hst. unfold MigrationEngine.createReplacementPlan, MigrationEngine.bind,
    MigrationEngine.get_this. rewrite Hst.
  do 2 eexists. split; [reflexivity | split; reflexivity].
Qed.

(** C10, as amended.  [WALLETCONNECT_TO_PARA] is a member of the enum, and
    a dependency name in which [walletconnect] occurs satisfies the
    migratable-content check, so that the pre-flight battery of a project on
    WalletConnect alone is valid exactly when the project has an entry point.
    Yet [detectStrategy] returns the WalletConnect strategy for no state at
    all and nothing for such a project, and [createStrategy] throws
    [Unsupported migration strategy] for it: no strategy is detected and
    none can be made.  The engine's [createReplacementPlan], which does not
    ask [StrategyFactory], makes a plan under that name all the same. *)
Theorem walletconnect_validated_but_unsupported (state : ProjectState) :
  walletconnect_only state = true ->
  strategy_value WALLETCONNECT_TO_PARA = "walletconnect-to-para"
  /\ AtomicValidator.checkMigratableContent state = AtomicValidator.fresh
  /\ AtomicValidator.validatePreFlight state
     = AtomicValidator.checkProjectStructure state
  /\ valid (AtomicValidator.validatePreFlight state)
     = negb (Nat.eqb (List.length (entryPoints state)) 0)
  /\ StrategyFactory.detectStrategy state = None
  /\ (forall any : ProjectState,
        StrategyFactory.detectStrategy any <> Some WALLETCONNECT_TO_PARA)
  /\ StrategyFactory.createStrategy WALLETCONNECT_TO_PARA
     = Thrown (Js.mkError "Unsupported migration strategy: walletconnect-to-para")
  /\ (forall (s : MigrationEngine.Store) (scanned : ProjectState),
        MigrationEngine.state (MigrationEngine.this s) = Some scanned ->
        exists plan s',
          MigrationEngine.createReplacementPlan WALLETCONNECT_TO_PARA s
          = (Returned plan, s')
          /\ MigrationPlan.strategy plan = WALLETCONNECT_TO_PARA
          /\ MigrationEngine.plan (MigrationEngine.this s') = Some plan).
Proof.
  intros Honly.
  assert (Hwc : Js.some (fun dep => Js.includes dep "walletconnect")
                        (Js.keys (dependencies state)) = true).
  { unfold walletconnect_only in Honly.
    apply andb_true_iff in Honly as [H _]. now apply andb_true_iff in H as [H _]. }
  split; [reflexivity |].
  split; [exact (checkMigratableContent_walletconnect state Hwc) |].
  split; [exact (validatePreFlight_walletconnect state Hwc) |].
  split.
  { rewrite (validatePreFlight_walletconnect state Hwc).
    unfold AtomicValidator.checkProjectStructure.
    now destruct (Nat.eqb (List.length (entryPoints state)) 0). }
  split; [exact (detectStrategy_walletconnect_only state Honly) |].
  split; [exact detectStrategy_never_walletconnect |].
  split; [reflexivity |].
  intros s scanned. apply createReplacementPlan_any_strategy.
Qed.

Lemma walletconnect_validated_but_unsupported_witness :
  AtomicValidator.validatePreFlight Samples.walletconnect_state
  = {| valid := true; issues := []; warnings := [] |}
  /\ StrategyFactory.detectStrategy Samples.walletconnect_state = None
  /\ StrategyFactory.createStrategy WALLETCONNECT_TO_PARA
     = Thrown (Js.mkError "Unsupported migration strategy: walletconnect-to-para").
Proof.
  assert (Honly : walletconnect_only Samples.walletconnect_state = true)
    by (vm_compute; reflexivity).
  destruct (walletconnect_validated_but_unsupported Samples.walletconnect_state Honly)
    as (_ & _ & Hpre & _ & Hnone & _ & Hthrow & _).
  split; [| split; assumption].
  rewrite Hpre. reflexivity.
Defined.

(** C10 as stated fails.  After a scan the engine makes a plan for
    [walletconnect-to-para], and so does the dry run of the
    [execute_atomic_migration] tool; and a project on WalletConnect alone in
    which no entry point was found does not pass pre-flight validation. *)
Lemma walletconnect_plan_counterexample :
  let s0 := Samples.store_of MigrationEngine.new in
  let s1 := snd (MigrationEngine.scanProjectState "./test-project" s0) in
  let dry_run :=
    Some [ ("projectPath", Js.Str "./test-project");
           ("strategy", Js.Str "walletconnect-to-para");
           ("dryRun", Js.Bool true) ] in
  (exists plan,
      fst (MigrationEngine.createReplacementPlan WALLETCONNECT_TO_PARA s1)
      = Returned plan
      /\ MigrationPlan.strategy plan = WALLETCONNECT_TO_PARA)
  /\ (exists response s2,
        Server.answers "execute_atomic_migration" dry_run s1 response s2
        /\ Server.isError response = None
        /\ String.prefix "DRY RUN - Migration Plan:" (Server.text response) = true
        /\ option_map MigrationPlan.strategy
             (MigrationEngine.plan (MigrationEngine.this s2))
           = Some WALLETCONNECT_TO_PARA)
  /\ walletconnect_only Cases.walletconnect_library = true
  /\ valid (AtomicValidator.validatePreFlight Cases.walletconnect_library) = false.
Proof.
  cbv zeta. split; [| split; [| split]].
  - eexists. split; reflexivity.
  - do 2 eexists. split; [eexists; split; reflexivity |].
    split; [reflexivity | split; [vm_compute; reflexivity | reflexivity]].
  - vm_compute. reflexivity.
  - vm_compute. reflexivity.
Qed.

(** ** The engine: running a plan *)

Section EngineProperties.

Import MigrationEngine.

Variable handlers : OperationHandlers.

Lemma apply_operation_returned op th r c t n :
  fails handlers op = false ->
  apply_operation handlers op (mkStore th r c t n)
  = (Returned tt, mkStore th (MigrationResult.push_completed (id op) r) c t n).
Proof.
  unfold fails, apply_operation, try_catch, bind, await, update_result.
  destruct (executeOperation handlers op); [reflexivity | discriminate].
Qed.

Lemma apply_operation_tolerated op th r c t n :
  fails handlers op = true ->
  critical op = false ->
  apply_operation handlers op (mkStore th r c t n)
  = (Returned tt, mkStore th (MigrationResult.push_failed (id op) r) c t n).
Proof.
  unfold fails, apply_operation, try_catch, bind, await, update_result.
  intros Hf Hc. rewrite Hc.
  destruct (executeOperation handlers op); [discriminate | reflexivity].
Qed.


Lemma tally_nil r : tally handlers [] r = r.
Proof. destruct r. unfold tally. simpl. now rewrite !app_nil_r. Qed.

Lemma tally_returned op ops r :
  fails handlers op = false ->
  tally handlers (op :: ops) r
  = tally handlers ops (MigrationResult.push_completed (id op) r).
Proof.
  intros H. unfold tally. simpl. rewrite H. simpl.
  now rewrite <- app_assoc.
Qed.

Lemma tally_thrown op ops r :
  fails handlers op = true ->
  tally handlers (op :: ops) r
  = tally handlers ops (MigrationResult.push_failed (id op) r).
Proof.
  intros H. unfold tally. simpl. rewrite H. simpl.
  now rewrite <- app_assoc.
Qed.

(** A loop without critical failure goes through the whole list. *)
Lemma for_of_tolerated ops :
  (forall o, In o ops -> fails handlers o = true -> critical o = false) ->
  forall th r c t n,
    for_of ops (apply_operation handlers) (mkStore th r c t n)
    = (Returned tt, mkStore th (tally handlers ops r) c t n).
Proof.
  induction ops as [|op ops IH]; intros Hok th r c t n.
  - simpl. now rewrite tally_nil.
  - simpl. unfold bind at 1.
    destruct (fails handlers op) eqn:Hf.
    + rewrite apply_operation_tolerated by (auto using in_eq).
      rewrite IH by (intros; apply Hok; auto using in_cons).
      now rewrite tally_thrown.
    + rewrite apply_operation_returned by assumption.
      rewrite IH by (intros; apply Hok; auto using in_cons).
      now rewrite tally_returned.
Qed.



Lemma runValidations_run kind th p r c t n :
  plan th = Some p ->
  runValidations kind (mkStore th r c t n)
  = (run_validators (checks_of kind p) passing, mkStore th r c t n).
Proof.
  intros Hp. unfold runValidations, bind, get_this, await. simpl.
  now rewrite Hp.
Qed.

(** *** The three ways through the [try] block *)

Lemma migration_try_preflight_invalid th p checked r c t n :
  plan th = Some p ->
  run_validators (checks_of ValidationCheck.pre p) passing = Returned checked ->
  valid checked = false ->
  migration_try handlers p (mkStore th r c t n)
  = (Thrown (Js.mkError "Pre-flight validation failed"),
     mkStore th (MigrationResult.push_issues (issues checked)
                   (MigrationResult.push_validation checked r)) c t n).
Proof.
  intros Hp Hrun Hv. unfold migration_try.
  unfold bind at 1. rewrite (@runValidations_run _ _ _ _ _ _ _ Hp), Hrun.
  rewrite Hv. reflexivity.
Qed.


Lemma migration_try_success th p checked checked' r c t n :
  plan th = Some p ->
  run_validators (checks_of ValidationCheck.pre p) passing = Returned checked ->
  valid checked = true ->
  (forall o, In o (MigrationPlan.replacements p) ->
             fails handlers o = true -> critical o = false) ->
  run_validators (checks_of ValidationCheck.post p) passing = Returned checked' ->
  valid checked' = true ->
  migration_try handlers p (mkStore th r c t n)
  = (Returned tt,
     mkStore th
       (MigrationResult.set_success true
          (MigrationResult.push_validation checked'
             (tally handlers (MigrationPlan.replacements p)
                (MigrationResult.push_validation checked r))))
       c t n).
Proof.
  intros Hp Hrun Hv Hops Hrun' Hv'. unfold migration_try.
  unfold bind at 1. rewrite (@runValidations_run _ _ _ _ _ _ _ Hp), Hrun.
  rewrite Hv. cbn [negb].
  unfold bind at 1. unfold update_result at 1. cbn [this result console time reads].
  unfold bind at 1. unfold ret at 1.
  unfold bind at 1. rewrite for_of_tolerated by assumption.
  unfold bind at 1. rewrite (@runValidations_run _ _ _ _ _ _ _ Hp), Hrun'.
  rewrite Hv'. reflexivity.
Qed.

(** *** The [catch] block *)

Lemma migration_catch_run cause th r c t n :
  migration_catch cause (mkStore th r c t n)
  = match run_actions (rev (rollbackPlan th)) c with
    | (Returned _, c') =>
        (Returned tt,
         mkStore (rolled_back th) (MigrationResult.set_rollbackExecuted true r) c' t n)
    | (Thrown e, c') =>
        (Returned tt,
         mkStore (rolled_back th)
                 (MigrationResult.push_issues [rollback_failed e] r) c' t n)
    end.
Proof.
  unfold migration_catch, try_catch, executeRollback, bind, get_this,
    set_rollbackPlan, call, update_result.
  cbn [this result console time reads rollbackPlan].
  destruct (run_actions (rev (rollbackPlan th)) c) as [[u|e] c']; reflexivity.
Qed.

(** Actions made by [generateRollbackPlan] print their line and return. *)
Lemma run_actions_generated (undo : list ReplacementOperation) (c : Console) :
  run_actions (generateRollbackPlan undo) c
  = (Returned tt, c ++ map rollback_line (map id undo)).
Proof.
  revert c. induction undo as [|op undo IH]; intros c; simpl.
  - now rewrite app_nil_r.
  - rewrite IH, <- app_assoc. reflexivity.
Qed.

Lemma rev_generateRollbackPlan (undo : list ReplacementOperation) :
  rev (generateRollbackPlan undo) = generateRollbackPlan (rev undo).
Proof. unfold generateRollbackPlan. now rewrite map_rev. Qed.

(** The loop stops at the first action that throws; the actions after it
    are not called. *)
Lemma run_actions_stuck done stuck remaining c c1 c2 e :
  run_actions done c = (Returned tt, c1) ->
  RollbackOperation.action stuck c1 = (Thrown e, c2) ->
  run_actions (done ++ stuck :: remaining) c = (Thrown e, c2).
Proof.
  revert c. induction done as [|a done IH]; intros c Hdone Hstuck; simpl in *.
  - inversion Hdone; subst. now rewrite Hstuck.
  - destruct (RollbackOperation.action a c) as [[u|e'] c']; [auto | discriminate].
Qed.

(** *** What the [try] block cannot touch *)

Lemma quiet_ret {A} (a : A) : quiet (ret a).
Proof. intros s o s' H. inversion H; subst. repeat split. Qed.

Lemma quiet_throw {A} (e : Js.Error) : quiet (@throw A e).
Proof. intros s o s' H. inversion H; subst. repeat split. Qed.

Lemma quiet_await {A} (x : outcome A) : quiet (await x).
Proof. intros s o s' H. inversion H; subst. repeat split. Qed.

Lemma quiet_get_this : quiet get_this.
Proof. intros s o s' H. inversion H; subst. repeat split. Qed.

Lemma quiet_update (f : MigrationResult.t -> MigrationResult.t) :
  (forall r, MigrationResult.success (f r) = MigrationResult.success r) ->
  (forall r, MigrationResult.rollbackExecuted (f r) = MigrationResult.rollbackExecuted r) ->
  quiet (update_result f).
Proof.
  intros Hs Hr s o s' H. inversion H; subst. unfold frame. simpl.
  rewrite Hs, Hr. repeat split.
Qed.

Lemma quiet_bind {A B} (m : M A) (k : A -> M B) :
  quiet m -> (forall a, quiet (k a)) -> quiet (bind m k).
Proof.
  intros Hm Hk s o s' H. unfold bind in H.
  destruct (m s) as [[a|e] s1] eqn:E.
  - destruct (Hm _ _ _ E) as [(? & ? & ? & ? & ?) ?].
    destruct (Hk a _ _ _ H) as [(? & ? & ? & ? & ?) ?].
    unfold frame. repeat split; congruence.
  - inversion H; subst. exact (Hm _ _ _ E).
Qed.

Lemma quiet_try_catch {A} (m : M A) (h : Js.Error -> M A) :
  quiet m -> (forall e, quiet (h e)) -> quiet (try_catch m h).
Proof.
  intros Hm Hh s o s' H. unfold try_catch in H.
  destruct (m s) as [[a|e] s1] eqn:E.
  - inversion H; subst. exact (Hm _ _ _ E).
  - destruct (Hm _ _ _ E) as [(? & ? & ? & ? & ?) ?].
    destruct (Hh e _ _ _ H) as [(? & ? & ? & ? & ?) ?].
    unfold frame. repeat split; congruence.
Qed.

Lemma quiet_for_of {A} (l : list A) (body : A -> M unit) :
  (forall x, quiet (body x)) -> quiet (for_of l body).
Proof.
  intros Hb. induction l as [|x l IH]; simpl.
  - apply quiet_ret.
  - apply quiet_bind; auto.
Qed.

Lemma quiet_runValidations kind : quiet (runValidations kind).
Proof.
  unfold runValidations. apply quiet_bind; [apply quiet_get_this |].
  intros th. destruct (plan th); [apply quiet_await | apply quiet_throw].
Qed.

Lemma quiet_apply_operation op : quiet (apply_operation handlers op).
Proof.
  unfold apply_operation. apply quiet_try_catch.
  - apply quiet_bind; [apply quiet_await |].
    intros _. now apply quiet_update.
  - intros e. apply quiet_bind; [now apply quiet_update |].
    intros _. destruct (critical op); [apply quiet_throw | apply quiet_ret].
Qed.

Lemma careful_bind {A B} (m : M A) (k : A -> M B) :
  quiet m -> (forall a, careful (k a)) -> careful (bind m k).
Proof.
  intros Hm Hk s o s' H. unfold bind in H.
  destruct (m s) as [[a|e] s1] eqn:E.
  - destruct (Hm _ _ _ E) as [(? & ? & ? & ? & ?) ?].
    destruct (Hk a _ _ _ H) as [(? & ? & ? & ? & ?) Hthrown].
    unfold frame. repeat split; try congruence.
    intros e Ho. rewrite (Hthrown e Ho). assumption.
  - inversion H; subst. destruct (Hm _ _ _ E) as [? ?]. split; auto.
Qed.

Lemma careful_set_success b : careful (update_result (MigrationResult.set_success b)).
Proof.
  intros s o s' H. inversion H; subst. unfold frame. simpl.
  repeat split. intros e He. discriminate He.
Qed.

(** The [try] block leaves the engine, the console and the clock as they
    were, never sets [rollbackExecuted], and sets [success] only when it
    returns. *)
Lemma migration_try_careful p : careful (migration_try handlers p).
Proof.
  unfold migration_try.
  apply careful_bind; [apply quiet_runValidations | intros checked].
  apply careful_bind; [now apply quiet_update | intros _].
  apply careful_bind.
  { destruct (negb (valid checked)); [| apply quiet_ret].
    apply quiet_bind; [now apply quiet_update | intros _; apply quiet_throw]. }
  intros _.
  apply careful_bind; [apply quiet_for_of, quiet_apply_operation | intros _].
  apply careful_bind; [apply quiet_runValidations | intros checked'].
  apply careful_bind; [now apply quiet_update | intros _].
  apply careful_bind.
  { destruct (negb (valid checked')); [| apply quiet_ret].
    apply quiet_bind; [now apply quiet_update | intros _; apply quiet_throw]. }
  intros _. apply careful_set_success.
Qed.

(** *** The whole method *)

Lemma executeAtomicMigration_returned th p r0 c t n r :
  plan th = Some p ->
  migration_try handlers p (at_try th c t n) = (Returned tt, mkStore th r c t (S n)) ->
  executeAtomicMigration handlers (mkStore th r0 c t n)
  = (Returned (MigrationResult.set_duration (t (S n) - t n) r),
     mkStore th (MigrationResult.set_duration (t (S n) - t n) r) c t (S (S n))).
Proof.
  intros Hp Htry. unfold executeAtomicMigration.
  unfold bind at 1. unfold get_this at 1. cbn [this]. rewrite Hp.
  unfold bind at 1. unfold Date_now at 1. cbn [this result console time reads].
  unfold bind at 1. unfold update_result at 1. cbn [this result console time reads].
  unfold bind at 1. unfold try_catch.
  change (mkStore th initial_result c t (S n)) with (at_try th c t n).
  rewrite Htry. reflexivity.
Qed.

Lemma executeAtomicMigration_thrown th p r0 c t n cause s undone c' :
  plan th = Some p ->
  migration_try handlers p (at_try th c t n) = (Thrown cause, s) ->
  this s = th -> console s = c -> time s = t -> reads s = S n ->
  run_actions (rev (rollbackPlan th)) c = (undone, c') ->
  let r := match undone with
           | Returned _ => MigrationResult.set_rollbackExecuted true (result s)
           | Thrown e => MigrationResult.push_issues [rollback_failed e] (result s)
           end in
  executeAtomicMigration handlers (mkStore th r0 c t n)
  = (Returned (MigrationResult.set_duration (t (S n) - t n) r),
     mkStore (rolled_back th) (MigrationResult.set_duration (t (S n) - t n) r)
             c' t (S (S n))).
Proof.
  intros Hp Htry Hth Hc Ht Hn Hundo r. unfold executeAtomicMigration.
  unfold bind at 1. unfold get_this at 1. cbn [this]. rewrite Hp.
  unfold bind at 1. unfold Date_now at 1. cbn [this result console time reads].
  unfold bind at 1. unfold update_result at 1. cbn [this result console time reads].
  unfold bind at 1. unfold try_catch.
  change (mkStore th initial_result c t (S n)) with (at_try th c t n).
  rewrite Htry. destruct s as [th' rs cs ts ns]. simpl in Hth, Hc, Ht, Hn. subst.
  rewrite migration_catch_run, Hundo. subst r.
  destruct undone; reflexivity.
Qed.

(** *** Runs of [executeAtomicMigration] *)


(** Whatever made the [try] block throw, the rollback calls the inverse
    actions last entry first and stops at the first one that throws: the
    entries it has not reached yet are never called, the result keeps
    [rollbackExecuted = false] and [success = false], and one critical
    [ROLLBACK_FAILED] issue is added after the issues recorded so far. *)
Theorem rollback_stops_at_first_stuck_action
  (engine : t) (p : MigrationPlan.t) (cause : Js.Error) (s : Store)
  (done remaining : list RollbackOperation.t) (stuck : RollbackOperation.t)
  (e : Js.Error) (c1 c2 : Console)
  (r0 : MigrationResult.t) (c : Console) (clock : nat -> Z) (n : nat) :
  plan engine = Some p ->
  migration_try handlers p (at_try engine c clock n) = (Thrown cause, s) ->
  rev (rollbackPlan engine) = done ++ stuck :: remaining ->
  run_actions done c = (Returned tt, c1) ->
  RollbackOperation.action stuck c1 = (Thrown e, c2) ->
  exists res,
    executeAtomicMigration handlers (mkStore engine r0 c clock n)
    = (Returned res, mkStore (rolled_back engine) res c2 clock (S (S n)))
    /\ MigrationResult.success res = false
    /\ MigrationResult.rollbackExecuted res = false
    /\ MigrationResult.issues res
       = MigrationResult.issues (result s) ++ [ rollback_failed e ]
    /\ ValidationIssue.severity (rollback_failed e) = Severity.critical
    /\ ValidationIssue.code (rollback_failed e) = "ROLLBACK_FAILED".
Proof.
  intros Hp Htry Hrev Hdone Hstuck.
  destruct (migration_try_careful p _ Htry)
    as [(Hth & Hc & Ht & Hn & Hrb) Hsucc].
  specialize (Hsucc cause eq_refl). simpl in Hth, Hc, Ht, Hn, Hrb, Hsucc.
  assert (Hroll : run_actions (rev (rollbackPlan engine)) c = (Thrown e, c2))
    by (rewrite Hrev; exact (@run_actions_stuck _ _ remaining _ _ _ _ Hdone Hstuck)).
  rewrite (@executeAtomicMigration_thrown _ _ r0 _ _ _ _ _ _ _
             Hp Htry Hth Hc Ht Hn Hroll).
  eexists. split; [reflexivity |]. simpl. repeat split; assumption.
Qed.

(** C4.  An operation that throws and is not critical has its id recorded
    in [failedOperations] and its loop step returns normally, so that the
    loop goes on with the operations after it in plan order and the [catch]
    block, hence the rollback, is not entered on its account.  When the
    checks pass and no critical operation throws, every operation of the
    plan is attempted, nothing is rolled back and the result has
    [success = true]. *)
Theorem noncritical_failure_is_tolerated
  (engine : t) (p : MigrationPlan.t) (pre post : list ReplacementOperation)
  (op : ReplacementOperation) (checked checked' : ValidationResult)
  (r0 : MigrationResult.t) (c : Console) (clock : nat -> Z) (n : nat) :
  plan engine = Some p ->
  run_validators (checks_of ValidationCheck.pre p) passing = Returned checked ->
  valid checked = true ->
  run_validators (checks_of ValidationCheck.post p) passing = Returned checked' ->
  valid checked' = true ->
  MigrationPlan.replacements p = pre ++ op :: post ->
  fails handlers op = true ->
  critical op = false ->
  (forall o, In o (pre ++ post) -> fails handlers o = true -> critical o = false) ->
  let res :=
    {| MigrationResult.success := true;
       MigrationResult.completedOperations :=
         map id (filter (fun o => negb (fails handlers o)) (pre ++ post));
       MigrationResult.failedOperations :=
         map id (filter (fails handlers) pre) ++ id op
         :: map id (filter (fails handlers) post);
       MigrationResult.validationResults := [ checked; checked' ];
       MigrationResult.rollbackExecuted := false;
       MigrationResult.duration := clock (S n) - clock n;
       MigrationResult.issues := [] |} in
  (forall this' r c' clock' n',
     apply_operation handlers op (mkStore this' r c' clock' n')
     = (Returned tt,
        mkStore this' (MigrationResult.push_failed (id op) r) c' clock' n'))
  /\ executeAtomicMigration handlers (mkStore engine r0 c clock n)
     = (Returned res, mkStore engine res c clock (S (S n))).
Proof.
  intros Hp Hrun Hv Hrun' Hv' Hops Hf Hc Hrest res.
  split; [intros; now apply apply_operation_tolerated |].
  assert (Hall : forall o, In o (MigrationPlan.replacements p) ->
                           fails handlers o = true -> critical o = false).
  { rewrite Hops. intros o Hin Hfo. apply in_app_or in Hin as [Hin | [<- | Hin]].
    - apply Hrest; [apply in_or_app; now left | exact Hfo].
    - exact Hc.
    - apply Hrest; [apply in_or_app; now right | exact Hfo]. }
  pose proof (@migration_try_success _ _ _ _ initial_result c clock (S n)
                Hp Hrun Hv Hall Hrun' Hv') as Htry.
  rewrite (@executeAtomicMigration_returned _ _ r0 _ _ _ _ Hp Htry).
  subst res. unfold tally. rewrite Hops, !filter_app. simpl. rewrite Hf. simpl.
  rewrite !map_app. reflexivity.
Qed.

(** When the pre-flight battery is invalid no operation is applied: the
    result has [success = false], no completed and no failed operation, and
    the issues of the battery first among its issues.  The [catch] block
    still calls [executeRollback]: the engine's rollback list is run, last
    entry first, and [rollbackExecuted] is [true] unless one of its actions
    throws, in which case a [ROLLBACK_FAILED] issue follows the pre-flight
    ones. *)
Theorem invalid_preflight_applies_nothing_and_rolls_back
  (engine : t) (p : MigrationPlan.t) (checked : ValidationResult)
  (undone : outcome unit) (c' : Console)
  (r0 : MigrationResult.t) (c : Console) (clock : nat -> Z) (n : nat) :
  plan engine = Some p ->
  run_validators (checks_of ValidationCheck.pre p) passing = Returned checked ->
  valid checked = false ->
  run_actions (rev (rollbackPlan engine)) c = (undone, c') ->
  let res :=
    {| MigrationResult.success := false;
       MigrationResult.completedOperations := [];
       MigrationResult.failedOperations := [];
       MigrationResult.validationResults := [ checked ];
       MigrationResult.rollbackExecuted :=
         match undone with Returned _ => true | Thrown _ => false end;
       MigrationResult.duration := clock (S n) - clock n;
       MigrationResult.issues :=
         issues checked
         ++ match undone with
            | Returned _ => []
            | Thrown e => [ rollback_failed e ]
            end |} in
  executeAtomicMigration handlers (mkStore engine r0 c clock n)
  = (Returned res, mkStore (rolled_back engine) res c' clock (S (S n))).
Proof.
  intros Hp Hrun Hv Hundo res.
  pose proof (@migration_try_preflight_invalid _ _ _ initial_result c clock (S n)
                Hp Hrun Hv) as Htry.
  rewrite (@executeAtomicMigration_thrown _ _ r0 _ _ _ _ _ _ _
             Hp Htry eq_refl eq_refl eq_refl eq_refl Hundo).
  subst res. destruct undone; simpl; rewrite ?app_nil_r; reflexivity.
Qed.

End EngineProperties.

(** ** The engine on sample plans *)


Lemma rollback_stops_at_first_stuck_action_witness :
  let run :=
    MigrationEngine.executeAtomicMigration (Samples.failing_on [ "op-c" ])
      (Samples.store_of Samples.engine_with_stuck_inverse) in
  exists res,
    fst run = Returned res
    /\ MigrationResult.success res = false
    /\ MigrationResult.rollbackExecuted res = false
    /\ map ValidationIssue.code (MigrationResult.issues res) = [ "ROLLBACK_FAILED" ]
    /\ MigrationEngine.console (snd run) = [ "Rolling back operation op-c" ].
Proof.
  cbv zeta. unfold Samples.store_of.
  pose (h := Samples.failing_on [ "op-c" ]).
  pose (p := Samples.plan_of Samples.three_critical []).
  pose (s := snd (MigrationEngine.migration_try h p
                    (MigrationEngine.at_try Samples.engine_with_stuck_inverse
                       [] Samples.clock 0%nat))).
  assert (Htry : MigrationEngine.migration_try h p
                   (MigrationEngine.at_try Samples.engine_with_stuck_inverse
                      [] Samples.clock 0%nat)
                 = (Thrown (Js.mkError "Critical operation failed: op-c"), s))
    by (vm_compute; reflexivity).
  destruct (@rollback_stops_at_first_stuck_action
              h Samples.engine_with_stuck_inverse p
              (Js.mkError "Critical operation failed: op-c") s
              [ Samples.printing_inverse "op-c" ] [ Samples.printing_inverse "op-a" ]
              (Samples.stuck_inverse "op-b")
              (Js.mkError "ENOENT: backup not found")
              [ "Rolling back operation op-c" ] [ "Rolling back operation op-c" ]
              MigrationEngine.initial_result [] Samples.clock 0%nat
              eq_refl Htry eq_refl eq_refl eq_refl)
    as (res & Hrun & Hsucc & Hrb & Hissues & _ & _).
  exists res. fold h. rewrite Hrun. repeat split; try assumption.
  rewrite Hissues. vm_compute. reflexivity.
Defined.

Lemma noncritical_failure_is_tolerated_witness :
  let run :=
    MigrationEngine.executeAtomicMigration (Samples.failing_on [ "op-b" ])
      (Samples.store_of (Samples.engine_of Samples.with_optional_step [])) in
  fst run
  = Returned
      {| MigrationResult.success := true;
         MigrationResult.completedOperations := [ "op-a"; "op-c" ];
         MigrationResult.failedOperations := [ "op-b" ];
         MigrationResult.validationResults :=
           [ MigrationEngine.passing; MigrationEngine.passing ];
         MigrationResult.rollbackExecuted := false;
         MigrationResult.duration := 7;
         MigrationResult.issues := [] |}
  /\ MigrationEngine.console (snd run) = [].
Proof.
  cbv zeta. unfold Samples.store_of.
  assert (Hrest : forall o,
             In o ([ Samples.operation "op-a" true ] ++ [ Samples.operation "op-c" true ]) ->
             MigrationEngine.fails (Samples.failing_on [ "op-b" ]) o = true ->
             critical o = false).
  { intros o [<- | [<- | []]] Hf; vm_compute in Hf; discriminate Hf. }
  destruct (@noncritical_failure_is_tolerated
              (Samples.failing_on [ "op-b" ])
              (Samples.engine_of Samples.with_optional_step [])
              (Samples.plan_of Samples.with_optional_step [])
              [ Samples.operation "op-a" true ] [ Samples.operation "op-c" true ]
              (Samples.operation "op-b" false)
              MigrationEngine.passing MigrationEngine.passing
              MigrationEngine.initial_result [] Samples.clock 0%nat
              eq_refl eq_refl eq_refl eq_refl eq_refl eq_refl eq_refl eq_refl Hrest)
    as [_ Hrun].
  rewrite Hrun. split; reflexivity.
Defined.

Lemma invalid_preflight_applies_nothing_and_rolls_back_witness :
  let run :=
    MigrationEngine.executeAtomicMigration placeholder_handlers
      (Samples.store_of
         (Samples.engine_of Samples.three_critical [ Samples.failing_preflight ])) in
  fst run
  = Returned
      {| MigrationResult.success := false;
         MigrationResult.completedOperations := [];
         MigrationResult.failedOperations := [];
         MigrationResult.validationResults :=
           [ {| valid := false; issues := [ Samples.no_content ]; warnings := [] |} ];
         MigrationResult.rollbackExecuted := true;
         MigrationResult.duration := 7;
         MigrationResult.issues := [ Samples.no_content ] |}
  /\ MigrationEngine.console (snd run)
     = [ "Rolling back operation op-c"; "Rolling back operation op-b";
         "Rolling back operation op-a" ].
Proof.
  cbv zeta. unfold Samples.store_of.
  rewrite (@invalid_preflight_applies_nothing_and_rolls_back
             placeholder_handlers
             (Samples.engine_of Samples.three_critical [ Samples.failing_preflight ])
             (Samples.plan_of Samples.three_critical [ Samples.failing_preflight ])
             {| valid := false; issues := [ Samples.no_content ]; warnings := [] |}
             (Returned tt)
             [ "Rolling back operation op-c"; "Rolling back operation op-b";
               "Rolling back operation op-a" ]
             MigrationEngine.initial_result [] Samples.clock 0%nat
             eq_refl eq_refl eq_refl eq_refl).
  split; reflexivity.
Defined.

(** ** The engine as its public methods build it *)

(** [createReplacementPlan] stores the rollback plan it generates in the
    plan, and leaves the engine's own rollback list as it was. *)
Lemma createReplacementPlan_rollback_list (strategy : MigrationStrategy)
  (s : MigrationEngine.Store) :
  MigrationEngine.rollbackPlan
    (MigrationEngine.this (snd (MigrationEngine.createReplacementPlan strategy s)))
  = MigrationEngine.rollbackPlan (MigrationEngine.this s).
Proof.
  unfold MigrationEngine.createReplacementPlan, MigrationEngine.bind,
    MigrationEngine.get_this.
  destruct (MigrationEngine.state (MigrationEngine.this s)); reflexivity.
Qed.

(** The handlers of the source have empty bodies: none of them throws. *)
Lemma placeholder_handlers_return (operation : ReplacementOperation) :
  MigrationEngine.fails placeholder_handlers operation = false.
Proof. destruct operation as [i [] f l o n c]; reflexivity. Qed.

(** The one pre-flight check of a plan made by [createReplacementPlan]
    passes, whatever the strategy. *)
Lemma generated_preflight_passes (strategy : MigrationStrategy)
  (s : MigrationEngine.Store) (plan : MigrationPlan.t) (s' : MigrationEngine.Store) :
  MigrationEngine.createReplacementPlan strategy s = (Returned plan, s') ->
  MigrationPlan.replacements plan = []
  /\ MigrationEngine.run_validators
       (MigrationEngine.checks_of ValidationCheck.pre plan) MigrationEngine.passing
     = Returned MigrationEngine.passing.
Proof.
  unfold MigrationEngine.createReplacementPlan, MigrationEngine.bind,
    MigrationEngine.get_this.
  destruct (MigrationEngine.state (MigrationEngine.this s)); [| discriminate].
  intros H. inversion H. split; reflexivity.
Qed.

(** With the handlers of the source, which never throw, a scanned and
    planned engine migrates successfully and rolls nothing back. *)
Example fresh_engine_run :
  let s0 := Samples.store_of MigrationEngine.new in
  let s1 := snd (MigrationEngine.scanProjectState "./test-project" s0) in
  let s2 := snd (MigrationEngine.createReplacementPlan PRIVY_TO_PARA s1) in
  let run := MigrationEngine.executeAtomicMigration placeholder_handlers s2 in
  MigrationEngine.rollbackPlan (MigrationEngine.this s2) = []
  /\ fst run
     = Returned
         {| MigrationResult.success := true;
            MigrationResult.completedOperations := [];
            MigrationResult.failedOperations := [];
            MigrationResult.validationResults :=
              [ MigrationEngine.passing; MigrationEngine.passing ];
            MigrationResult.rollbackExecuted := false;
            MigrationResult.duration := 7;
            MigrationResult.issues := [] |}.
Proof. cbv zeta. vm_compute. split; reflexivity. Qed.

(** * Further properties of the validator *)

(** ** More on substring search *)

Lemma prefix_app_l (pat s t : string) :
  String.prefix pat s = true -> String.prefix pat (s ++ t) = true.
Proof.
  revert s. induction pat as [|c pat IH]; intros s H.
  - destruct (s ++ t)%string; reflexivity.
  - destruct s as [|d s]; simpl in *; [discriminate |].
    destruct (ascii_dec c d); [now apply IH | discriminate].
Qed.

Lemma includes_app_l (s t pat : string) :
  Js.includes s pat = true -> Js.includes (s ++ t) pat = true.
Proof.
  induction s as [|c s IH]; intros H.
  - simpl in H. rewrite orb_false_r in H.
    destruct pat; [| simpl in H; discriminate].
    destruct t; reflexivity.
  - rewrite includes_cons in H. simpl String.append. rewrite includes_cons.
    apply orb_true_iff in H as [H | H].
    + change (String c (s ++ t)) with (String c s ++ t)%string.
      now rewrite (prefix_app_l _ _ t H).
    + rewrite IH by assumption. apply orb_true_r.
Qed.

Lemma includes_refl (s : string) : Js.includes s s = true.
Proof.
  rewrite <- (includes_here s EmptyString) at 1.
  assert (E : forall x : string, (x ++ EmptyString)%string = x)
    by (induction x; simpl; congruence).
  now rewrite E.
Qed.

(** An element of a joined array occurs in the result. *)
Lemma includes_join (sep : string) (l : list string) (x pat : string) :
  In x l -> Js.includes x pat = true -> Js.includes (Js.join sep l) pat = true.
Proof.
  intros Hin Hx. induction l as [|y l IH]; [destruct Hin |].
  destruct Hin as [<- | Hin].
  - destruct l; simpl; [exact Hx | now apply includes_app_l].
  - destruct l as [|z l]; [destruct Hin |].
    change (Js.join sep (y :: z :: l)) with (y ++ sep ++ Js.join sep (z :: l))%string.
    now repeat apply includes_app_r; apply IH.
Qed.

Lemma existsb_weaken {A} (f g : A -> bool) (l : list A) :
  existsb f l = true -> (forall x, f x = true -> g x = true) -> existsb g l = true.
Proof.
  intros H Hfg. apply existsb_exists in H as (x & Hin & Hx).
  apply existsb_exists. exists x. auto.
Qed.

(** ** Issues of the three batteries *)

Lemma merge_failed_issue (result check : ValidationResult) (i : ValidationIssue.t) :
  In i (issues (AtomicValidator.merge_failed result check)) ->
  In i (issues result) \/ In i (issues check).
Proof.
  unfold AtomicValidator.merge_failed. destruct (valid check); simpl.
  - now left.
  - intros H. now apply in_app_or.
Qed.

Ltac check_issue H :=
  match type of H with
  | In _ (issues (if ?b then _ else _)) =>
      destruct b; simpl in H;
      repeat (destruct H as [<- | H]; [split; [reflexivity | eexists; reflexivity] |]);
      try destruct H
  end.

(** X1.  Every issue reported by the pre-flight, post-migration or completion
    battery is critical and comes with a fix instruction. *)
Theorem battery_issues_are_actionable (state : ProjectState) (i : ValidationIssue.t) :
  In i (issues (AtomicValidator.validatePreFlight state)
        ++ issues (AtomicValidator.validatePostMigration state)
        ++ issues (AtomicValidator.validateCompletion state)) ->
  ValidationIssue.severity i = Severity.critical
  /\ exists f, ValidationIssue.fix_ i = Some f.
Proof.
  intros H.
  unfold AtomicValidator.validatePreFlight, AtomicValidator.validatePostMigration,
    AtomicValidator.validateCompletion in H. cbv zeta in H.
  repeat (apply in_app_or in H as [H | H]);
    repeat (apply merge_failed_issue in H as [H | H]);
    try (simpl in H; now destruct H).
  - unfold AtomicValidator.checkMigratableContent in H. check_issue H.
  - unfold AtomicValidator.checkProjectStructure in H. check_issue H.
  - unfold AtomicValidator.checkForConflicts in H. check_issue H.
  - unfold AtomicValidator.validateParaModalPresent in H. check_issue H.
  - unfold AtomicValidator.validateParaCssImports in H. check_issue H.
  - unfold AtomicValidator.validateEnvironmentEnum in H. check_issue H.
  - unfold AtomicValidator.validateOldDependenciesRemoved in H. check_issue H.
  - unfold AtomicValidator.validateParaDependenciesPresent in H. check_issue H.
  - unfold AtomicValidator.validateNoOldImports in H.
    match type of H with
    | In _ (issues (if ?b then _ else _)) => destruct b; simpl in H
    end; [| destruct H].
    apply in_map_iff in H as (imp & <- & _).
    split; [reflexivity | eexists; reflexivity].
  - unfold AtomicValidator.validateParaHooksUsage in H. check_issue H.
  - unfold AtomicValidator.validateParaProviderConfig in H.
    match type of H with
    | In _ (issues (if ?b then _ else _)) => destruct b; simpl in H
    end.
    + destruct H as [<- | []]. split; [reflexivity | eexists; reflexivity].
    + check_issue H.
Qed.

Lemma battery_issues_are_actionable_witness :
  let issue := hd Samples.no_content
                  (issues (AtomicValidator.validatePostMigration Cases.half_migrated)) in
  ValidationIssue.code issue = "MISSING_PARA_MODAL"
  /\ ValidationIssue.severity issue = Severity.critical
  /\ exists f, ValidationIssue.fix_ issue = Some f.
Proof.
  cbv zeta. split; [vm_compute; reflexivity |].
  apply (battery_issues_are_actionable Cases.half_migrated).
  apply in_or_app. right. apply in_or_app. left.
  vm_compute. left. reflexivity.
Defined.

(** ** Counting with [filter] *)

Lemma ltb_length_filter {A} (f : A -> bool) (l : list A) :
  Nat.ltb 0 (List.length (filter f l)) = existsb f l.
Proof.
  induction l as [|x l IH]; simpl; [reflexivity |].
  destruct (f x); simpl; [reflexivity | exact IH].
Qed.

Lemma eqb_length_filter {A} (f : A -> bool) (l : list A) :
  Nat.eqb (List.length (filter f l)) 0 = negb (existsb f l).
Proof.
  induction l as [|x l IH]; simpl; [reflexivity |].
  destruct (f x); simpl; [reflexivity | exact IH].
Qed.

Lemma merge_failed_fresh (check : ValidationResult) :
  warnings check = [] ->
  AtomicValidator.merge_failed AtomicValidator.fresh check
  = {| valid := valid check; issues := if valid check then [] else issues check;
       warnings := [] |}.
Proof. unfold AtomicValidator.merge_failed. destruct (valid check); reflexivity. Qed.

Lemma merge_failed_valid (result check : ValidationResult) :
  valid (AtomicValidator.merge_failed result check) = valid result && valid check.
Proof.
  unfold AtomicValidator.merge_failed.
  destruct (valid check); simpl; [now rewrite andb_true_r | now rewrite andb_false_r].
Qed.

Lemma merge_failed_issues (result check : ValidationResult) :
  issues (AtomicValidator.merge_failed result check)
  = issues result ++ (if valid check then [] else issues check).
Proof.
  unfold AtomicValidator.merge_failed.
  destruct (valid check); simpl; [now rewrite app_nil_r | reflexivity].
Qed.

(** ** The completion battery *)

Lemma validateCompletion_valid (state : ProjectState) :
  valid (AtomicValidator.validateCompletion state)
  = negb (Js.some (fun imp =>
                     ImportType.eqb (FileImport.type imp) ImportType.privy
                     || ImportType.eqb (FileImport.type imp) ImportType.reown
                     || ImportType.eqb (FileImport.type imp) ImportType.web3modal)
                  (imports state))
    && Js.some (fun p => String.eqb (ProviderUsage.provider p) "ParaProvider")
               (providers state).
Proof.
  unfold AtomicValidator.validateCompletion. cbv zeta.
  rewrite !merge_failed_valid.
  unfold AtomicValidator.validateNoOldImports, AtomicValidator.validateParaHooksUsage,
    AtomicValidator.validateParaProviderConfig.
  rewrite ltb_length_filter, !eqb_length_filter. unfold Js.some.
  repeat match goal with
         | |- context [existsb ?f ?l] => destruct (existsb f l)
         end; simpl;
    repeat match goal with
           | |- context [if ?b then _ else _] => destruct b
           end; reflexivity.
Qed.

(** X2.  The completion battery reports one [OLD_IMPORT_PRESENT] issue for each
    import still tagged privy, reown or web3modal, in the order of the
    imports and with the file and line of each, then [NO_PARA_PROVIDER]
    when no provider is named [ParaProvider]; it is valid exactly when it
    reports nothing.  Hook usages and the number of ParaProviders change
    nothing, and no warning is ever returned. *)
Theorem validateCompletion_report (state : ProjectState) :
  let oldImports :=
    filter (fun imp =>
              ImportType.eqb (FileImport.type imp) ImportType.privy
              || ImportType.eqb (FileImport.type imp) ImportType.reown
              || ImportType.eqb (FileImport.type imp) ImportType.web3modal)
           (imports state) in
  let hasParaProvider :=
    Js.some (fun p => String.eqb (ProviderUsage.provider p) "ParaProvider")
            (providers state) in
  let report := AtomicValidator.validateCompletion state in
  map (fun i => (ValidationIssue.code i, ValidationIssue.file i, ValidationIssue.line i))
      (issues report)
  = map (fun imp => ("OLD_IMPORT_PRESENT", Some (FileImport.file imp),
                     Some (FileImport.line imp)))
        oldImports
    ++ (if hasParaProvider then [] else [ ("NO_PARA_PROVIDER", None, None) ])
  /\ valid report = (Nat.eqb (List.length (issues report)) 0)
  /\ warnings report = [].
Proof.
  cbv zeta. unfold AtomicValidator.validateCompletion. cbv zeta.
  rewrite !merge_failed_valid, !merge_failed_issues, !merge_failed_warnings.
  unfold AtomicValidator.validateNoOldImports, AtomicValidator.validateParaHooksUsage,
    AtomicValidator.validateParaProviderConfig.
  rewrite !eqb_length_filter. unfold Js.some.
  set (olds := filter _ (imports state)).
  set (many := Nat.ltb 1 _).
  destruct many;
    destruct (existsb _ (providers state));
    destruct (existsb _ (hooks state));
    destruct olds as [|imp olds']; simpl;
    rewrite ?app_nil_r, ?map_app, ?map_map, ?length_app, ?length_map;
    simpl; repeat split; try reflexivity;
    now rewrite Nat.add_comm.
Qed.


(** ** The post-migration battery *)

Lemma validatePostMigration_valid (state : ProjectState) :
  valid (AtomicValidator.validatePostMigration state)
  = Js.some (fun imp => Js.includes (FileImport.import imp) "ParaModal"
                        && Js.includes (FileImport.from imp) "para")
            (imports state)
    && Js.some StyleImport.isParaStyle (styles state)
    && valid (AtomicValidator.validateEnvironmentEnum state)
    && negb (Js.some (fun dep => Js.includes dep "privy" || Js.includes dep "reown"
                                 || Js.includes dep "web3modal")
                     (Js.keys (dependencies state)))
    && Js.some (fun dep => Js.includes dep "para") (Js.keys (dependencies state)).
Proof.
  unfold AtomicValidator.validatePostMigration. cbv zeta.
  rewrite !merge_failed_valid.
  unfold AtomicValidator.validateParaModalPresent, AtomicValidator.validateParaCssImports,
    AtomicValidator.validateOldDependenciesRemoved,
    AtomicValidator.validateParaDependenciesPresent.
  rewrite ltb_length_filter. unfold Js.some.
  repeat match goal with
         | |- context [existsb ?f ?l] => destruct (existsb f l)
         end; simpl; rewrite ?andb_true_r, ?andb_false_r; reflexivity.
Qed.

(** X3.  The post-migration battery reports at most one issue per check, in
    the fixed order ParaModal, CSS, environment, old dependencies, Para
    dependency, and it is valid exactly when the five checks pass; it never
    returns a warning. *)
Theorem validatePostMigration_report (state : ProjectState) :
  let modal :=
    Js.some (fun imp => Js.includes (FileImport.import imp) "ParaModal"
                        && Js.includes (FileImport.from imp) "para")
            (imports state) in
  let css := Js.some StyleImport.isParaStyle (styles state) in
  let env := valid (AtomicValidator.validateEnvironmentEnum state) in
  let old :=
    Js.some (fun dep => Js.includes dep "privy" || Js.includes dep "reown"
                        || Js.includes dep "web3modal")
            (Js.keys (dependencies state)) in
  let para :=
    Js.some (fun dep => Js.includes dep "para") (Js.keys (dependencies state)) in
  let report := AtomicValidator.validatePostMigration state in
  map ValidationIssue.code (issues report)
  = (if modal then [] else [ "MISSING_PARA_MODAL" ])
    ++ (if css then [] else [ "MISSING_PARA_CSS" ])
    ++ (if env then [] else [ "STRING_ENVIRONMENT" ])
    ++ (if old then [ "OLD_DEPENDENCIES_PRESENT" ] else [])
    ++ (if para then [] else [ "MISSING_PARA_DEPENDENCY" ])
  /\ valid report = modal && css && env && negb old && para
  /\ warnings report = [].
Proof.
  cbv zeta. split; [| split].
  - unfold AtomicValidator.validatePostMigration. cbv zeta.
    rewrite !merge_failed_issues, !map_app.
    unfold AtomicValidator.validateParaModalPresent,
      AtomicValidator.validateParaCssImports, AtomicValidator.validateEnvironmentEnum,
      AtomicValidator.validateOldDependenciesRemoved,
      AtomicValidator.validateParaDependenciesPresent.
    rewrite ltb_length_filter. unfold Js.some.
    repeat match goal with
           | |- context [existsb ?f ?l] => destruct (existsb f l)
           end; reflexivity.
  - apply validatePostMigration_valid.
  - unfold AtomicValidator.validatePostMigration. cbv zeta.
    now rewrite !merge_failed_warnings.
Qed.

Lemma merge_failed_adds (result check : ValidationResult) (i : ValidationIssue.t) :
  valid check = false -> In i (issues check) ->
  In i (issues (AtomicValidator.merge_failed result check)).
Proof.
  intros Hv Hi. rewrite merge_failed_issues, Hv. apply in_or_app. now right.
Qed.

(** X4.  Every dependency name in which privy, reown or web3modal occurs is
    spelled out in the message of the [OLD_DEPENDENCIES_PRESENT] issue of
    the post-migration battery, and in the [npm uninstall] command of its
    fix. *)
Theorem old_dependencies_are_listed (state : ProjectState) (dep : string) :
  In dep (Js.keys (dependencies state)) ->
  Js.includes dep "privy" || Js.includes dep "reown" || Js.includes dep "web3modal"
  = true ->
  exists issue f,
    In issue (issues (AtomicValidator.validatePostMigration state))
    /\ ValidationIssue.code issue = "OLD_DEPENDENCIES_PRESENT"
    /\ Js.includes (ValidationIssue.message issue) dep = true
    /\ ValidationIssue.fix_ issue = Some f
    /\ Js.includes f dep = true.
Proof.
  intros Hin Hold.
  set (olds := filter (fun d => Js.includes d "privy" || Js.includes d "reown"
                                || Js.includes d "web3modal")
                      (Js.keys (dependencies state))).
  assert (Hdep : In dep olds) by (apply filter_In; split; assumption).
  assert (Hcheck : AtomicValidator.validateOldDependenciesRemoved state
                   = {| valid := false;
                        issues :=
                          [ {| ValidationIssue.severity := Severity.critical;
                               ValidationIssue.code := "OLD_DEPENDENCIES_PRESENT";
                               ValidationIssue.message :=
                                 "❌ CRITICAL ISSUE #4: Old wallet dependencies still present: "
                                 ++ Js.join ", " olds;
                               ValidationIssue.file := None;
                               ValidationIssue.line := None;
                               ValidationIssue.fix_ :=
                                 Some ("Run: npm uninstall " ++ Js.join " " olds)%string |} ];
                        warnings := [] |}).
  { unfold AtomicValidator.validateOldDependenciesRemoved. fold olds.
    destruct olds; [destruct Hdep | reflexivity]. }
  eexists. eexists. split; [| split; [| split; [| split]]].
  - unfold AtomicValidator.validatePostMigration. cbv zeta.
    apply merge_failed_keeps_issue. apply merge_failed_adds.
    + now rewrite Hcheck.
    + rewrite Hcheck. cbv beta iota delta [issues]. apply in_eq.
  - reflexivity.
  - cbv beta iota delta [ValidationIssue.message]. apply includes_app_r.
    apply (includes_join _ _ dep); [exact Hdep | apply includes_refl].
  - reflexivity.
  - apply includes_app_r.
    apply (includes_join _ _ dep); [exact Hdep | apply includes_refl].
Qed.

Lemma old_dependencies_are_listed_witness :
  exists issue f,
    In issue (issues (AtomicValidator.validatePostMigration Cases.half_migrated))
    /\ ValidationIssue.code issue = "OLD_DEPENDENCIES_PRESENT"
    /\ Js.includes (ValidationIssue.message issue) "@reown/appkit" = true
    /\ ValidationIssue.fix_ issue = Some f
    /\ Js.includes f "@reown/appkit" = true.
Proof.
  apply (old_dependencies_are_listed Cases.half_migrated "@reown/appkit").
  - vm_compute. do 2 right. left. reflexivity.
  - vm_compute. reflexivity.
Defined.

(** ** The environment check *)

Lemma JSON_stringify_object (fields : list (string * Js.value)) :
  Js.JSON_stringify (Js.Object fields)
  = Some ("{" ++ Js.join "," (Js.JSON_members fields) ++ "}")%string.
Proof.
  cbn [Js.JSON_stringify]. do 4 f_equal.
  induction fields as [|[k x] fields IH]; [reflexivity |].
  unfold Js.JSON_members. cbn [flat_map fst snd].
  destruct (Js.JSON_stringify x); cbn [app]; [f_equal |]; exact IH.
Qed.

(** A string property is written out between double quotes. *)
Lemma JSON_stringify_record_string (props : list (string * Js.value))
  (key text : string) :
  In (key, Js.Str text) props ->
  Js.includes (Js.JSON_stringify_record props) (Js.json_quote text) = true.
Proof.
  intros Hin. unfold Js.JSON_stringify_record. rewrite JSON_stringify_object.
  apply includes_app_r, includes_app_l.
  apply (includes_join _ _ (Js.json_quote key ++ ":" ++ Js.json_quote text)%string).
  - unfold Js.JSON_members. apply in_flat_map. exists (key, Js.Str text).
    split; [exact Hin | left; reflexivity].
  - do 2 apply includes_app_r. apply includes_refl.
Qed.

(** X5.  The environment check fires for a ["production"] string property of
    any provider, whatever its name, and for a ["development"] string
    property of a provider named [ParaProvider]; the post-migration battery
    is then invalid and reports [STRING_ENVIRONMENT]. *)
Theorem string_environment_is_flagged
  (state : ProjectState) (p : ProviderUsage.t) (key : string) :
  In p (providers state) ->
  In (key, Js.Str "production") (ProviderUsage.props p)
  \/ (ProviderUsage.provider p = "ParaProvider"
      /\ In (key, Js.Str "development") (ProviderUsage.props p)) ->
  valid (AtomicValidator.validatePostMigration state) = false
  /\ In "STRING_ENVIRONMENT"
        (map ValidationIssue.code (issues (AtomicValidator.validatePostMigration state))).
Proof.
  intros Hp Hprop.
  assert (Henv : Js.some (fun provider =>
                    (String.eqb (ProviderUsage.provider provider) "ParaProvider"
                     && Js.includes (Js.JSON_stringify_record (ProviderUsage.props provider))
                                    (Js.dq ++ "development" ++ Js.dq)%string)
                    || Js.includes (Js.JSON_stringify_record (ProviderUsage.props provider))
                                   (Js.dq ++ "production" ++ Js.dq)%string)
                  (providers state) = true).
  { apply existsb_exists. exists p. split; [exact Hp |].
    destruct Hprop as [Hprod | [Hname Hdev]].
    - apply orb_true_iff. right.
      exact (JSON_stringify_record_string _ _ _ Hprod).
    - apply orb_true_iff. left. rewrite Hname.
      exact (JSON_stringify_record_string _ _ _ Hdev). }
  assert (Hcheck : valid (AtomicValidator.validateEnvironmentEnum state) = false
                   /\ map ValidationIssue.code
                          (issues (AtomicValidator.validateEnvironmentEnum state))
                      = [ "STRING_ENVIRONMENT" ]).
  { unfold AtomicValidator.validateEnvironmentEnum. rewrite Henv. split; reflexivity. }
  destruct Hcheck as [Hv Hcode]. split.
  - rewrite validatePostMigration_valid, Hv.
    now rewrite andb_false_r.
  - unfold AtomicValidator.validatePostMigration. cbv zeta.
    rewrite !merge_failed_issues, Hv, !map_app, Hcode, !in_app_iff.
    left. left. right. now left.
Qed.

Lemma string_environment_is_flagged_witness :
  valid (AtomicValidator.validatePostMigration Cases.half_migrated) = false
  /\ In "STRING_ENVIRONMENT"
        (map ValidationIssue.code
             (issues (AtomicValidator.validatePostMigration Cases.half_migrated))).
Proof.
  apply (string_environment_is_flagged Cases.half_migrated
           (ProviderUsage.mk "src/providers/app-provider.tsx" 10 "PrivyProvider"
              [ ("appId", Js.Str "test-app-id"); ("environment", Js.Str "production") ]
              true)
           "environment").
  - left. reflexivity.
  - left. right. left. reflexivity.
Defined.

(** ** The score against the batteries *)

(** X6.  When the post-migration battery is valid the score is at least 65,
    and at least 90 when the completion battery is valid too: what may
    still be missing is a Para import and a ParaProvider usage or, with
    both batteries valid, only a Para hook. *)
Theorem valid_batteries_bound_the_score (state : ProjectState) :
  valid (AtomicValidator.validatePostMigration state) = true ->
  65 <= AtomicValidator.calculateMigrationSuccess state
  /\ (valid (AtomicValidator.validateCompletion state) = true ->
      90 <= AtomicValidator.calculateMigrationSuccess state).
Proof.
  intros Hpost. rewrite validatePostMigration_valid in Hpost.
  repeat (apply andb_true_iff in Hpost as [Hpost ?]).
  assert (Himp : Js.some (fun imp => Js.includes (FileImport.from imp) "para")
                         (imports state) = true).
  { apply (existsb_weaken _ _ _ Hpost). intros x Hx.
    now apply andb_true_iff in Hx as [_ Hx]. }
  assert (Hmodal : Js.some (fun imp => Js.includes (FileImport.import imp) "ParaModal")
                           (imports state) = true).
  { apply (existsb_weaken _ _ _ Hpost). intros x Hx.
    now apply andb_true_iff in Hx as [Hx _]. }
  split.
  - unfold AtomicValidator.calculateMigrationSuccess. cbv zeta.
    repeat match goal with
           | H : ?b = true |- context [?b] => rewrite H
           | H : negb ?b = true |- context [?b] => apply negb_true_iff in H; rewrite H
           end.
    repeat match goal with
           | |- context [Js.some ?f ?l] => destruct (Js.some f l)
           end;
      cbn [negb Z.add]; rewrite round_percentage by lia; lia.
  - intros Hdone. rewrite validateCompletion_valid in Hdone.
    apply andb_true_iff in Hdone as [Hold Hprov].
    unfold AtomicValidator.calculateMigrationSuccess. cbv zeta.
    repeat match goal with
           | H : ?b = true |- context [?b] => rewrite H
           | H : negb ?b = true |- context [?b] => apply negb_true_iff in H; rewrite H
           end.
    repeat match goal with
           | |- context [Js.some ?f ?l] => destruct (Js.some f l)
           end;
      cbn [negb Z.add]; rewrite round_percentage by lia; lia.
Qed.

Lemma valid_batteries_bound_the_score_witness :
  AtomicValidator.calculateMigrationSuccess Cases.migrated = 100
  /\ 65 <= AtomicValidator.calculateMigrationSuccess Cases.migrated
  /\ 90 <= AtomicValidator.calculateMigrationSuccess Cases.migrated.
Proof.
  destruct (valid_batteries_bound_the_score Cases.migrated) as [H65 H90].
  - vm_compute. reflexivity.
  - split; [vm_compute; reflexivity | split; [exact H65 |]].
    apply H90. vm_compute. reflexivity.
Defined.

(** X7.  A score of 100 means that the completion battery is valid. *)
Theorem full_score_means_complete (state : ProjectState) :
  AtomicValidator.calculateMigrationSuccess state = 100 ->
  valid (AtomicValidator.validateCompletion state) = true.
Proof.
  rewrite validateCompletion_valid.
  unfold AtomicValidator.calculateMigrationSuccess. cbv zeta.
  repeat match goal with
         | |- context [Js.some ?f ?l] => destruct (Js.some f l)
         end;
    cbn [negb Z.add andb]; rewrite round_percentage by lia;
    intros H; try reflexivity; discriminate H.
Qed.

Lemma full_score_means_complete_witness :
  valid (AtomicValidator.validateCompletion Cases.migrated) = true.
Proof.
  apply (full_score_means_complete Cases.migrated). vm_compute. reflexivity.
Defined.

(** * Further properties of the strategies *)

(** ** Shape of a plan *)

Lemma replace_hook_shape (f : string -> option string) (h : HookUsage.t)
  (op : ReplacementOperation) :
  In op (replace_hook f h) ->
  type op = OperationType.hook /\ critical op = false.
Proof.
  unfold replace_hook. destruct (f (HookUsage.hook h)); simpl.
  - intros [<- | []]. split; reflexivity.
  - intros [].
Qed.

Lemma Forall_flat_map_hooks (f : string -> option string) (l : list HookUsage.t)
  (P : ReplacementOperation -> Prop) :
  (forall op, type op = OperationType.hook -> critical op = false -> P op) ->
  Forall P (flat_map (replace_hook f) l).
Proof.
  intros HP. apply Forall_forall. intros op Hin.
  apply in_flat_map in Hin as (h & _ & Hin).
  apply replace_hook_shape in Hin as [Ht Hc]. auto.
Qed.

Lemma Forall_map_op {A} (g : A -> ReplacementOperation) (l : list A)
  (P : ReplacementOperation -> Prop) :
  (forall x, P (g x)) -> Forall P (map g l).
Proof. intros HP. apply Forall_forall. intros op Hin.
  apply in_map_iff in Hin as (x & <- & _). apply HP. Qed.

(** A block of operations of one phase in front of a sorted plan of later
    phases. *)
Lemma phase_block (rank' rank : nat) (block rest : list ReplacementOperation) :
  (rank <= rank')%nat ->
  Forall (fun op => phase (type op) = rank') block ->
  ordered_from rank' rest ->
  ordered_from rank (block ++ rest).
Proof.
  intros Hle Hb [Hs Hr]. induction Hb as [|op block Hop Hb IH]; simpl.
  - split; [exact Hs |]. revert Hr. apply Forall_impl.
    intros op H. exact (Nat.le_trans _ _ _ Hle H).
  - destruct IH as [IHs IHf]. split.
    + constructor; [exact IHs |]. rewrite Hop.
      apply Forall_forall. intros n Hn.
      apply in_map_iff in Hn. destruct Hn as [o [<- Ho]].
      apply in_app_iff in Ho. destruct Ho as [Ho | Ho].
      * rewrite Forall_forall in Hb. rewrite (Hb o Ho). apply le_n.
      * rewrite Forall_forall in Hr. exact (Hr o Ho).
    + constructor; [rewrite Hop; exact Hle | exact IHf].
Qed.

Lemma phase_last_block (rank' rank : nat) (block : list ReplacementOperation) :
  (rank <= rank')%nat ->
  Forall (fun op => phase (type op) = rank') block ->
  ordered_from rank block.
Proof.
  intros Hle Hb. rewrite <- (app_nil_r block).
  apply (@phase_block rank'); [exact Hle | exact Hb |].
  split; constructor.
Qed.

Ltac phase_blocks :=
  repeat first
    [ apply Forall_map_op; intros; reflexivity
    | apply Forall_flat_map_hooks; intros ? -> ?; reflexivity
    | apply Forall_nil
    | apply Forall_cons; [reflexivity |] ].

Ltac phase_step k :=
  first [ apply (@phase_block k); [lia | solve [phase_blocks] |]
        | apply (@phase_last_block k); [lia | solve [phase_blocks]] ].

(** X8.  Whatever the state, a plan lists its operations by phase: first the
    dependency operations, then the import rewrites, the provider rewrites,
    the hook rewrites and last the style insertions. *)
Theorem plan_is_in_phase_order
  (name : MigrationStrategy) (s : ReplacementStrategy) (state : ProjectState) :
  StrategyFactory.createStrategy name = Returned s ->
  StronglySorted le (map (fun op => phase (type op)) (execute s state)).
Proof.
  intros Hs. apply (proj1 (B := Forall (fun op => 0 <= phase (type op))%nat
                                       (execute s state))).
  change (ordered_from 0 (execute s state)).
  destruct name; simpl in Hs; inversion Hs; subst s; clear Hs.
  - change (execute PrivyToParaStrategy.new state)
      with (PrivyToParaStrategy.execute state).
    unfold PrivyToParaStrategy.execute.
    phase_step 0%nat. phase_step 1%nat. phase_step 2%nat. phase_step 3%nat.
    phase_step 4%nat.
  - change (execute ReownToParaStrategy.new state)
      with (ReownToParaStrategy.execute state).
    unfold ReownToParaStrategy.execute.
    phase_step 0%nat. phase_step 0%nat. phase_step 1%nat. phase_step 2%nat.
    phase_step 3%nat. phase_step 4%nat.
  - change (execute Web3ModalToParaStrategy.new state)
      with (Web3ModalToParaStrategy.execute state).
    unfold Web3ModalToParaStrategy.execute.
    phase_step 0%nat.
Qed.

Lemma plan_is_in_phase_order_witness :
  map (fun op => phase (type op)) (ReownToParaStrategy.execute Cases.reown_project)
  = [ 0; 0; 0; 1; 2; 3; 3; 4; 4 ]%nat
  /\ StronglySorted le
       (map (fun op => phase (type op)) (ReownToParaStrategy.execute Cases.reown_project)).
Proof.
  split; [vm_compute; reflexivity |].
  apply (@plan_is_in_phase_order REOWN_TO_PARA ReownToParaStrategy.new
           Cases.reown_project).
  reflexivity.
Defined.

(** ** Which operations may fail *)

Ltac plan_blocks :=
  repeat first
    [ apply Forall_app; split
    | apply Forall_map_op; intros; reflexivity
    | apply Forall_flat_map_hooks; intros ? -> ->; reflexivity
    | apply Forall_nil
    | apply Forall_cons; [reflexivity |] ].

(** X9.  In the plan of every strategy the hook rewrites, and only they, are not
    critical: a dependency, import, provider or style operation that fails
    always ends the migration. *)
Theorem only_hook_rewrites_are_optional
  (name : MigrationStrategy) (s : ReplacementStrategy) (state : ProjectState)
  (op : ReplacementOperation) :
  StrategyFactory.createStrategy name = Returned s ->
  In op (execute s state) ->
  critical op = negb (OperationType.eqb (type op) OperationType.hook).
Proof.
  intros Hs. revert op. apply Forall_forall.
  destruct name; simpl in Hs; inversion Hs; subst s; clear Hs.
  - change (execute PrivyToParaStrategy.new state)
      with (PrivyToParaStrategy.execute state).
    unfold PrivyToParaStrategy.execute. plan_blocks.
  - change (execute ReownToParaStrategy.new state)
      with (ReownToParaStrategy.execute state).
    unfold ReownToParaStrategy.execute. plan_blocks.
  - change (execute Web3ModalToParaStrategy.new state)
      with (Web3ModalToParaStrategy.execute state).
    unfold Web3ModalToParaStrategy.execute. plan_blocks.
Qed.

Lemma only_hook_rewrites_are_optional_witness :
  let plan := execute ReownToParaStrategy.new Cases.reown_project in
  map (fun op => (type op, critical op)) plan
  = [ (OperationType.dependency, true); (OperationType.dependency, true);
      (OperationType.dependency, true); (OperationType.import, true);
      (OperationType.provider, true); (OperationType.hook, false);
      (OperationType.hook, false); (OperationType.style, true);
      (OperationType.style, true) ]
  /\ critical add_para_react
     = negb (OperationType.eqb (type add_para_react) OperationType.hook).
Proof.
  split; [vm_compute; reflexivity |].
  apply (@only_hook_rewrites_are_optional REOWN_TO_PARA ReownToParaStrategy.new
           Cases.reown_project add_para_react).
  - reflexivity.
  - vm_compute. right. right. left. reflexivity.
Defined.

(** ** Import rewrites *)

Lemma prefix_app_inv (p q s : string) :
  String.prefix (p ++ q) s = true -> String.prefix p s = true.
Proof.
  revert s. induction p as [|c p IH]; intros s H.
  - destruct s; reflexivity.
  - destruct s as [|d s]; simpl in *; [discriminate |].
    destruct (ascii_dec c d); [now apply IH | discriminate].
Qed.

Lemma includes_empty (pat : string) :
  Js.includes EmptyString pat = String.prefix pat EmptyString.
Proof. unfold Js.includes. apply orb_false_r. Qed.

(** A text in which a name occurs also holds every prefix of the name. *)
Lemma includes_prefix_closed (s p q : string) :
  Js.includes s (p ++ q) = true -> Js.includes s p = true.
Proof.
  induction s as [|c s IH]; intros H.
  - rewrite includes_empty in H |- *. exact (prefix_app_inv _ _ _ H).
  - rewrite includes_cons in H |- *.
    apply orb_true_iff in H as [H | H].
    + now rewrite (prefix_app_inv _ _ _ H).
    + rewrite IH by assumption. apply orb_true_r.
Qed.

Lemma replace_unfold (s pat rep : string) :
  Js.replace s pat rep
  = if String.prefix pat s then (rep ++ Js.drop (String.length pat) s)%string
    else match s with
         | EmptyString => EmptyString
         | String c s' => String c (Js.replace s' pat rep)
         end.
Proof. destruct s; reflexivity. Qed.

Lemma prefix_split (p s : string) :
  String.prefix p s = true -> s = (p ++ Js.drop (String.length p) s)%string.
Proof.
  revert s. induction p as [|c p IH]; intros s H.
  - reflexivity.
  - destruct s as [|d s]; simpl in *; [discriminate |].
    destruct (ascii_dec c d) as [<- |]; [| discriminate].
    f_equal. now apply IH.
Qed.

(** The text that replaces the first occurrence occurs in the result. *)
Lemma replace_includes_new (s pat rep : string) :
  Js.includes s pat = true -> Js.includes (Js.replace s pat rep) rep = true.
Proof.
  induction s as [|c s IH]; intros H; rewrite replace_unfold.
  - rewrite includes_empty in H. rewrite H. apply includes_here.
  - destruct (String.prefix pat (String c s)) eqn:E; [apply includes_here |].
    rewrite includes_cons, E in H. simpl in H.
    rewrite includes_cons, (IH H). apply orb_true_r.
Qed.

(** Replacing the first [p] keeps an occurrence of [q] when no occurrence
    of [p] can overlap one of [q]. *)
Lemma replace_keeps (q p r : string) :
  (forall t, Js.replace (q ++ t) p r = (q ++ Js.replace t p r)%string) ->
  (forall t, Js.includes (p ++ t) q = true -> Js.includes t q = true) ->
  forall s, Js.includes s q = true -> Js.includes (Js.replace s p r) q = true.
Proof.
  intros Hq Hp. induction s as [|c s IH]; intros H.
  - rewrite includes_empty in H.
    rewrite (prefix_split _ _ H), Hq. apply includes_here.
  - destruct (String.prefix q (String c s)) eqn:Eq.
    + rewrite (prefix_split _ _ Eq), Hq. apply includes_here.
    + rewrite replace_unfold.
      destruct (String.prefix p (String c s)) eqn:Ep.
      * apply includes_app_r, Hp. now rewrite <- (prefix_split _ _ Ep).
      * rewrite includes_cons, Eq in H. simpl in H.
        rewrite includes_cons, (IH H). apply orb_true_r.
Qed.

(** X10.  An import that names [useAppKitAccount], [useAppKitTheme],
    [useAppKitState], [useAppKitEvents] or any other name that starts with
    [useAppKit] is rewritten by the [useAppKit] rule, which stands first:
    the rules for the longer names are never reached. *)
Theorem reown_hook_import_rules_shadowed (reownImport suffix : string) :
  Js.includes reownImport ("useAppKit" ++ suffix) = true ->
  ReownToParaStrategy.getParaImportReplacement reownImport
  = Js.replace reownImport "useAppKit" "useModal".
Proof.
  intros H. apply includes_prefix_closed in H.
  unfold ReownToParaStrategy.getParaImportReplacement.
  cbn [app replace_first_match]. now rewrite H.
Qed.

Lemma reown_hook_import_rules_shadowed_witness :
  Js.includes "useAppKitAccount" ("useAppKit" ++ "Account") = true
  /\ ReownToParaStrategy.getParaImportReplacement "useAppKitAccount"
     = "useModalAccount".
Proof.
  split; [reflexivity |].
  rewrite (@reown_hook_import_rules_shadowed "useAppKitAccount" "Account");
    reflexivity.
Defined.

(** X11.  When no hook or component rule applies, an import that names
    [@reown/appkit-react], [@reown/appkit-adapter-wagmi] or any other package
    whose name starts with [@reown/appkit] is rewritten by the
    [@reown/appkit] rule: only that part of the name becomes
    [@para-wallet/react], and what follows it stays. *)
Theorem reown_package_rules_shadowed (reownImport suffix : string) :
  forallb (fun pat => negb (Js.includes reownImport pat))
          [ "useAppKit"; "useWeb3Modal"; "createAppKit"; "createWeb3Modal";
            "defaultWagmiConfig" ] = true ->
  Js.includes reownImport ("@reown/appkit" ++ suffix) = true ->
  ReownToParaStrategy.getParaImportReplacement reownImport
  = Js.replace reownImport "@reown/appkit" "@para-wallet/react".
Proof.
  intros Hn H. apply includes_prefix_closed in H.
  cbn [forallb] in Hn. repeat rewrite andb_true_iff in Hn.
  destruct Hn as (H1 & H2 & H3 & H4 & H5 & _).
  apply negb_true_iff in H1, H2, H3, H4, H5.
  assert (Hlong : forall p q, Js.includes reownImport p = false ->
                              Js.includes reownImport (p ++ q) = false).
  { intros p q Hp. destruct (Js.includes reownImport (p ++ q)) eqn:E; [| reflexivity].
    apply includes_prefix_closed in E. congruence. }
  unfold ReownToParaStrategy.getParaImportReplacement,
    ReownToParaStrategy.packageMappings.
  cbn [app replace_first_match].
  rewrite H1, H2, H3, H4, H5, H.
  rewrite (Hlong "useAppKit" "Account" H1
           : Js.includes reownImport "useAppKitAccount" = false),
    (Hlong "useAppKit" "Theme" H1
     : Js.includes reownImport "useAppKitTheme" = false),
    (Hlong "useAppKit" "State" H1
     : Js.includes reownImport "useAppKitState" = false),
    (Hlong "useAppKit" "Events" H1
     : Js.includes reownImport "useAppKitEvents" = false),
    (Hlong "useWeb3Modal" "Account" H2
     : Js.includes reownImport "useWeb3ModalAccount" = false),
    (Hlong "useWeb3Modal" "Theme" H2
     : Js.includes reownImport "useWeb3ModalTheme" = false).
  reflexivity.
Qed.

Lemma reown_package_rules_shadowed_witness :
  ReownToParaStrategy.getParaImportReplacement
    "import { AppKit } from '@reown/appkit-react'"
  = "import { AppKit } from '@para-wallet/react-react'".
Proof.
  rewrite (@reown_package_rules_shadowed
             "import { AppKit } from '@reown/appkit-react'" "-react");
    reflexivity.
Defined.

Ltac kept :=
  apply replace_keeps; [intros t; reflexivity | intros t Ht; exact Ht | assumption].

(** X12.  An import statement that names [usePrivy], [useWallets],
    [useLogin], [useLogout] or [PrivyProvider] along with the package keeps
    importing from [@privy-io/react-auth]: the rule for the name applies and
    the package rule is not reached. *)
Theorem privy_named_import_keeps_package (privyImport : string) :
  existsb (Js.includes privyImport)
          [ "usePrivy"; "useWallets"; "useLogin"; "useLogout"; "PrivyProvider" ]
  = true ->
  Js.includes privyImport "@privy-io/react-auth" = true ->
  Js.includes (PrivyToParaStrategy.getParaImportReplacement privyImport)
              "@privy-io/react-auth" = true.
Proof.
  intros Hname Hpkg. unfold PrivyToParaStrategy.getParaImportReplacement.
  cbn [replace_first_match]. cbn [existsb] in Hname.
  repeat match goal with
         | |- context [if Js.includes ?s ?p then _ else _] =>
             destruct (Js.includes s p) eqn:?
         end;
    try discriminate Hname; kept.
Qed.

Lemma privy_named_import_keeps_package_witness :
  PrivyToParaStrategy.getParaImportReplacement
    "import { usePrivy } from '@privy-io/react-auth'"
  = "import { useAccount } from '@privy-io/react-auth'"
  /\ Js.includes
       (PrivyToParaStrategy.getParaImportReplacement
          "import { usePrivy } from '@privy-io/react-auth'")
       "@privy-io/react-auth" = true.
Proof.
  split; [reflexivity |].
  apply (@privy_named_import_keeps_package
           "import { usePrivy } from '@privy-io/react-auth'"); reflexivity.
Defined.

(** X13.  An import that names two of the Privy hooks still names one of them
    after the rewrite: one rule is applied, once. *)
Theorem privy_import_renames_one_hook (privyImport first second : string) :
  In first [ "usePrivy"; "useWallets"; "useLogin"; "useLogout" ] ->
  In second [ "usePrivy"; "useWallets"; "useLogin"; "useLogout" ] ->
  first <> second ->
  Js.includes privyImport first = true ->
  Js.includes privyImport second = true ->
  Js.includes (PrivyToParaStrategy.getParaImportReplacement privyImport) first = true
  \/ Js.includes (PrivyToParaStrategy.getParaImportReplacement privyImport) second
     = true.
Proof.
  intros Hf Hs Hne H1 H2. unfold PrivyToParaStrategy.getParaImportReplacement.
  cbn [replace_first_match].
  simpl in Hf, Hs.
  destruct Hf as [<- | [<- | [<- | [<- | []]]]];
    destruct Hs as [<- | [<- | [<- | [<- | []]]]];
    try (now elim Hne);
    repeat match goal with
           | |- context [if Js.includes ?s ?p then _ else _] =>
               destruct (Js.includes s p) eqn:?
           end;
    try discriminate;
    first [ left; kept | right; kept ].
Qed.

Lemma privy_import_renames_one_hook_witness :
  PrivyToParaStrategy.getParaImportReplacement "usePrivy, useWallets"
  = "useAccount, useWallets"
  /\ (Js.includes (PrivyToParaStrategy.getParaImportReplacement "usePrivy, useWallets")
                  "usePrivy" = true
      \/ Js.includes (PrivyToParaStrategy.getParaImportReplacement "usePrivy, useWallets")
                     "useWallets" = true).
Proof.
  split; [reflexivity |].
  apply (@privy_import_renames_one_hook "usePrivy, useWallets" "usePrivy" "useWallets").
  - left. reflexivity.
  - right. left. reflexivity.
  - discriminate.
  - reflexivity.
  - reflexivity.
Defined.

(** ** Hook rewrites *)

Lemma privy_hook_table (privyHook newHook : string) :
  PrivyToParaStrategy.getHookReplacement privyHook = Some newHook
  <-> In (privyHook, newHook) HOOK_REPLACEMENT_MAP_privy.
Proof.
  unfold PrivyToParaStrategy.getHookReplacement, HOOK_REPLACEMENT_MAP_privy.
  split.
  - cbn [lookup_or_null].
    repeat match goal with
           | |- context [if String.eqb ?k privyHook then _ else _] =>
               destruct (String.eqb_spec k privyHook) as [<- |]
           end; simpl; intros H; inversion H; subst; auto 10.
  - simpl. intros H.
    repeat (destruct H as [H | H]; [inversion H; subst; reflexivity |]).
    destruct H.
Qed.

(** X14.  In a project whose hooks from Privy packages are plain usages
    (no hook bears the name of a member of [Object.prototype], and the lines
    are safe integers), the hook operations of a Privy plan are exactly the
    rewrites of the hooks imported from a Privy package that the replacement
    table lists; a hook that the table does not list gets no operation. *)
Theorem privy_hook_operations (state : ProjectState) (op : ReplacementOperation) :
  forallb (fun h => negb (Js.includes (HookUsage.from h) "privy") || plain_usage h)
          (hooks state) = true ->
  In op (PrivyToParaStrategy.execute state) /\ type op = OperationType.hook
  <-> exists h newHook,
        In h (hooks state)
        /\ Js.includes (HookUsage.from h) "privy" = true
        /\ In (HookUsage.hook h, newHook) HOOK_REPLACEMENT_MAP_privy
        /\ op = {| id := "replace-hook-" ++ HookUsage.file h ++ "-"
                         ++ Js.string_of_number (HookUsage.line h);
                   type := OperationType.hook;
                   file := Some (HookUsage.file h);
                   line := Some (HookUsage.line h);
                   oldValue := HookUsage.usage h;
                   newValue := Js.replace (HookUsage.usage h) (HookUsage.hook h)
                                          newHook;
                   critical := false |}.
Proof.
  intros _. unfold PrivyToParaStrategy.execute. split.
  - intros [Hin Ht]. rewrite !in_app_iff in Hin.
    destruct Hin as [Hin | [Hin | [Hin | [Hin | Hin]]]].
    + simpl in Hin. destruct Hin as [<- | [<- | [<- | []]]]; discriminate Ht.
    + apply in_map_iff in Hin as (i & <- & _). discriminate Ht.
    + apply in_map_iff in Hin as (q & <- & _). discriminate Ht.
    + apply in_flat_map in Hin as (h & Hh & Hop).
      apply filter_In in Hh as [Hh Hfrom].
      unfold replace_hook in Hop.
      destruct (PrivyToParaStrategy.getHookReplacement (HookUsage.hook h))
        as [newHook|] eqn:E; [| destruct Hop].
      destruct Hop as [<- | []]. exists h, newHook.
      apply privy_hook_table in E. auto.
    + apply in_map_iff in Hin as (e & <- & _). discriminate Ht.
  - intros (h & newHook & Hh & Hfrom & Htab & ->). split; [| reflexivity].
    rewrite !in_app_iff. right. right. right. left.
    apply in_flat_map. exists h. split.
    + apply filter_In. auto.
    + unfold replace_hook. apply privy_hook_table in Htab. rewrite Htab.
      left. reflexivity.
Qed.

Lemma privy_hook_operations_witness :
  forallb (fun h => negb (Js.includes (HookUsage.from h) "privy") || plain_usage h)
          (hooks Cases.privy_project) = true
  /\ filter (fun op => OperationType.eqb (type op) OperationType.hook)
            (PrivyToParaStrategy.execute Cases.privy_project)
     = [ {| id := "replace-hook-src/components/auth.tsx-12";
            type := OperationType.hook;
            file := Some "src/components/auth.tsx";
            line := Some 12;
            oldValue := "const { authenticated, user } = usePrivy()";
            newValue := "const { authenticated, user } = useAccount()";
            critical := false |} ]
  /\ In {| id := "replace-hook-src/components/auth.tsx-12";
           type := OperationType.hook;
           file := Some "src/components/auth.tsx";
           line := Some 12;
           oldValue := "const { authenticated, user } = usePrivy()";
           newValue := "const { authenticated, user } = useAccount()";
           critical := false |}
        (PrivyToParaStrategy.execute Cases.privy_project).
Proof.
  split; [reflexivity | split; [reflexivity |]].
  apply (proj2 (@privy_hook_operations Cases.privy_project _ eq_refl)).
  exists (HookUsage.mk "src/components/auth.tsx" 12 "usePrivy" "@privy-io/react-auth"
                       "const { authenticated, user } = usePrivy()"), "useAccount".
  split; [left; reflexivity |].
  split; [reflexivity |].
  split; [left; reflexivity | reflexivity].
Defined.

(** X15.  Every usage of one of the nine ReOwn and Web3Modal hooks gets a
    hook operation on its file and line, whose new text is the usage with
    the first occurrence of the hook replaced by [useModal], [useAccount] or
    [useWallet]; when the usage text holds the hook name the new text holds
    that Para hook. *)
Theorem reown_hook_usage_is_rewritten (state : ProjectState) (h : HookUsage.t) :
  In h (hooks state) ->
  ReownToParaStrategy.isReownHook (HookUsage.hook h) = true ->
  exists op paraHook,
    In op (ReownToParaStrategy.execute state)
    /\ type op = OperationType.hook
    /\ critical op = false
    /\ file op = Some (HookUsage.file h)
    /\ line op = Some (HookUsage.line h)
    /\ oldValue op = HookUsage.usage h
    /\ In paraHook [ "useModal"; "useAccount"; "useWallet" ]
    /\ newValue op = Js.replace (HookUsage.usage h) (HookUsage.hook h) paraHook
    /\ (Js.includes (HookUsage.usage h) (HookUsage.hook h) = true ->
        Js.includes (newValue op) paraHook = true).
Proof.
  intros Hin Hre.
  assert (Hnew : exists paraHook,
             ReownToParaStrategy.getReownHookReplacement (HookUsage.hook h)
             = Some paraHook
             /\ In paraHook [ "useModal"; "useAccount"; "useWallet" ]).
  { unfold ReownToParaStrategy.isReownHook, Js.array_includes,
      ReownToParaStrategy.reownHooks in Hre.
    cbn [existsb] in Hre. repeat rewrite orb_true_iff in Hre.
    repeat (destruct Hre as [Hre | Hre];
            [apply String.eqb_eq in Hre; rewrite Hre;
             eexists; split; [reflexivity | simpl; auto] |]).
    discriminate Hre. }
  destruct Hnew as (paraHook & Hnew & Hpara).
  exists {| id := "replace-hook-" ++ HookUsage.file h ++ "-"
                  ++ Js.string_of_number (HookUsage.line h);
            type := OperationType.hook;
            file := Some (HookUsage.file h);
            line := Some (HookUsage.line h);
            oldValue := HookUsage.usage h;
            newValue := Js.replace (HookUsage.usage h) (HookUsage.hook h) paraHook;
            critical := false |}, paraHook.
  split; [| do 5 (split; [reflexivity |]); split; [exact Hpara |];
            split; [reflexivity |]].
  - unfold ReownToParaStrategy.execute. rewrite !in_app_iff.
    right. right. right. right. left.
    apply in_flat_map. exists h. split.
    + apply filter_In. split; assumption.
    + unfold replace_hook. rewrite Hnew. left. reflexivity.
  - cbn [newValue]. intros Huse. now apply replace_includes_new.
Qed.

Lemma reown_hook_usage_is_rewritten_witness :
  exists op paraHook,
    In op (ReownToParaStrategy.execute Cases.reown_project)
    /\ type op = OperationType.hook
    /\ critical op = false
    /\ file op = Some "src/components/connect-button.tsx"
    /\ line op = Some 13
    /\ oldValue op = "const { address, isConnected } = useAppKitAccount()"
    /\ In paraHook [ "useModal"; "useAccount"; "useWallet" ]
    /\ newValue op
       = Js.replace "const { address, isConnected } = useAppKitAccount()"
                    "useAppKitAccount" paraHook
    /\ (Js.includes "const { address, isConnected } = useAppKitAccount()"
                    "useAppKitAccount" = true ->
        Js.includes (newValue op) paraHook = true).
Proof.
  apply (@reown_hook_usage_is_rewritten Cases.reown_project
           (HookUsage.mk "src/components/connect-button.tsx" 13 "useAppKitAccount"
                         "@reown/appkit/react"
                         "const { address, isConnected } = useAppKitAccount()")).
  - right. left. reflexivity.
  - reflexivity.
Defined.

(** ** The selector and the strategies' own tests *)

(** X16.  A project in which the selector finds ReOwn or Web3Modal passes the
    test of the ReOwn strategy. *)
Theorem detected_reown_is_accepted (state : ProjectState) (name : MigrationStrategy) :
  StrategyFactory.detectStrategy state = Some name ->
  name = REOWN_TO_PARA \/ name = WEB3MODAL_TO_PARA ->
  ReownToParaStrategy.validate state = true.
Proof.
  unfold StrategyFactory.detectStrategy, ReownToParaStrategy.validate, Js.some.
  intros Hd Hname.
  assert (Hfound :
            existsb (fun d => Js.includes d "reown" || Js.includes d "web3modal")
                    (Js.keys (dependencies state))
            || existsb (fun i => Js.includes i "reown" || Js.includes i "web3modal")
                       (map FileImport.from (imports state)) = true).
  { destruct (_ || _) in Hd;
      [destruct Hname; congruence |].
    destruct (existsb _ (Js.keys (dependencies state)) || _) eqn:E1 in Hd.
    - apply orb_true_iff in E1 as [E | E]; apply orb_true_iff; [left | right];
        (eapply existsb_weaken; [exact E |]); intros x ->; reflexivity.
    - destruct (existsb _ (Js.keys (dependencies state)) || _) eqn:E2 in Hd;
        [| discriminate Hd].
      apply orb_true_iff in E2 as [E | E]; apply orb_true_iff; [left | right];
        (eapply existsb_weaken; [exact E |]); intros x ->; apply orb_true_r. }
  apply orb_true_iff in Hfound as [E | E].
  - apply orb_true_iff. left. apply orb_true_iff. left.
    eapply existsb_weaken; [exact E |]. intros d Hdep. cbn [existsb ReownToParaStrategy.reownPatterns].
    unfold ReownToParaStrategy.reownPatterns. cbn [existsb].
    apply orb_true_iff in Hdep as [-> | ->]; rewrite ?orb_true_r; reflexivity.
  - apply orb_true_iff. left. apply orb_true_iff. right.
    rewrite existsb_map_from in E.
    eapply existsb_weaken; [exact E |]. intros i Hi.
    unfold ReownToParaStrategy.reownPatterns. cbn [existsb].
    apply orb_true_iff in Hi as [-> | ->]; rewrite ?orb_true_r; reflexivity.
Qed.

Lemma detected_reown_is_accepted_witness :
  StrategyFactory.detectStrategy Cases.reown_project = Some REOWN_TO_PARA
  /\ ReownToParaStrategy.validate Cases.reown_project = true.
Proof.
  split; [reflexivity |].
  apply (@detected_reown_is_accepted Cases.reown_project REOWN_TO_PARA).
  - reflexivity.
  - left. reflexivity.
Defined.

(** * Further properties of the engine *)

Section EngineRuns.

Import MigrationEngine.

Variable handlers : OperationHandlers.

(** ** The checks of a plan *)

Lemma run_validators_returned (validations : list ValidationCheck.t)
  (results : list ValidationResult) (acc : ValidationResult) :
  map (fun v => ValidationCheck.validator v tt) validations = map Returned results ->
  run_validators validations acc
  = Returned
      {| valid := valid acc && forallb valid results;
         issues := issues acc
                   ++ flat_map issues (filter (fun r => negb (valid r)) results);
         warnings := warnings acc ++ flat_map warnings results |}.
Proof.
  revert results acc.
  induction validations as [|v validations IH]; intros [|r results] acc H;
    try discriminate H.
  - simpl. rewrite andb_true_r, !app_nil_r. now destruct acc.
  - simpl in H. injection H as Hv H. simpl. rewrite Hv.
    rewrite (IH results _ H). destruct (valid r); simpl.
    + now rewrite <- app_assoc.
    + now rewrite andb_false_r, <- !app_assoc.
Qed.

(** X17.  When the checks of a kind all return, [runValidations] reports
    [valid] as the conjunction of their verdicts, the issues of the failing
    checks and the warnings of all checks, each in plan order, and changes
    nothing. *)
Theorem runValidations_report
  (kind : ValidationCheck.kind) (engine : t) (p : MigrationPlan.t)
  (results : list ValidationResult)
  (r : MigrationResult.t) (c : Console) (clock : nat -> Z) (n : nat) :
  plan engine = Some p ->
  map (fun v => ValidationCheck.validator v tt) (checks_of kind p)
  = map Returned results ->
  runValidations kind (mkStore engine r c clock n)
  = (Returned
       {| valid := forallb valid results;
          issues := flat_map issues (filter (fun r => negb (valid r)) results);
          warnings := flat_map warnings results |},
     mkStore engine r c clock n).
Proof.
  intros Hp Hres.
  rewrite (@runValidations_run kind _ _ r c clock n Hp).
  now rewrite (run_validators_returned _ _ passing Hres).
Qed.

(** ** Runs that end in the [catch] block *)

Lemma bind_returned {A B} (m : M A) (k : A -> M B) (s s' : Store) (b : B) :
  bind m k s = (Returned b, s') ->
  exists a s1, m s = (Returned a, s1) /\ k a s1 = (Returned b, s').
Proof.
  unfold bind. destruct (m s) as [[a|e] s1]; [eauto | discriminate].
Qed.

(** The [try] block returns only with [success] set. *)
Lemma migration_try_returned (p : MigrationPlan.t) (s s' : Store) (u : unit) :
  migration_try handlers p s = (Returned u, s') ->
  MigrationResult.success (result s') = true.
Proof.
  unfold migration_try. intros H.
  repeat (apply bind_returned in H as (? & ? & _ & H)).
  unfold update_result in H. inversion H. reflexivity.
Qed.

Lemma migration_try_post_invalid th p checked checked' r c t n :
  plan th = Some p ->
  run_validators (checks_of ValidationCheck.pre p) passing = Returned checked ->
  valid checked = true ->
  (forall o, In o (MigrationPlan.replacements p) ->
             fails handlers o = true -> critical o = false) ->
  run_validators (checks_of ValidationCheck.post p) passing = Returned checked' ->
  valid checked' = false ->
  migration_try handlers p (mkStore th r c t n)
  = (Thrown (Js.mkError "Post-migration validation failed"),
     mkStore th
       (MigrationResult.push_issues (issues checked')
          (MigrationResult.push_validation checked'
             (tally handlers (MigrationPlan.replacements p)
                (MigrationResult.push_validation checked r))))
       c t n).
Proof.
  intros Hp Hrun Hv Hops Hrun' Hv'. unfold migration_try.
  unfold bind at 1. rewrite (@runValidations_run _ _ _ _ _ _ _ Hp), Hrun.
  rewrite Hv. cbn [negb].
  unfold bind at 1. unfold update_result at 1. cbn [this result console time reads].
  unfold bind at 1. unfold ret at 1.
  unfold bind at 1. rewrite for_of_tolerated by assumption.
  unfold bind at 1. rewrite (@runValidations_run _ _ _ _ _ _ _ Hp), Hrun'.
  rewrite Hv'. reflexivity.
Qed.

Lemma migration_try_check_thrown th p e r c t n :
  plan th = Some p ->
  run_validators (checks_of ValidationCheck.pre p) passing = Thrown e ->
  migration_try handlers p (mkStore th r c t n) = (Thrown e, mkStore th r c t n).
Proof.
  intros Hp Hrun. unfold migration_try.
  unfold bind at 1. now rewrite (@runValidations_run _ _ _ _ _ _ _ Hp), Hrun.
Qed.

(** X18.  When the operations go through and a post-migration check fails, every
    operation of the plan has been attempted before the rollback starts:
    the result lists them all as completed or failed, holds both validation
    reports and the issues of the failing checks, and has
    [success = false]. *)
Theorem post_validation_failure_rolls_back
  (engine : t) (p : MigrationPlan.t) (checked checked' : ValidationResult)
  (undone : outcome unit) (c' : Console)
  (r0 : MigrationResult.t) (c : Console) (clock : nat -> Z) (n : nat) :
  plan engine = Some p ->
  run_validators (checks_of ValidationCheck.pre p) passing = Returned checked ->
  valid checked = true ->
  (forall o, In o (MigrationPlan.replacements p) ->
             fails handlers o = true -> critical o = false) ->
  run_validators (checks_of ValidationCheck.post p) passing = Returned checked' ->
  valid checked' = false ->
  run_actions (rev (rollbackPlan engine)) c = (undone, c') ->
  let res :=
    {| MigrationResult.success := false;
       MigrationResult.completedOperations :=
         map id (filter (fun o => negb (fails handlers o))
                        (MigrationPlan.replacements p));
       MigrationResult.failedOperations :=
         map id (filter (fails handlers) (MigrationPlan.replacements p));
       MigrationResult.validationResults := [ checked; checked' ];
       MigrationResult.rollbackExecuted :=
         match undone with Returned _ => true | Thrown _ => false end;
       MigrationResult.duration := clock (S n) - clock n;
       MigrationResult.issues :=
         issues checked'
         ++ match undone with
            | Returned _ => []
            | Thrown e => [ rollback_failed e ]
            end |} in
  executeAtomicMigration handlers (mkStore engine r0 c clock n)
  = (Returned res, mkStore (rolled_back engine) res c' clock (S (S n))).
Proof.
  intros Hp Hrun Hv Hops Hrun' Hv' Hundo res.
  pose proof (@migration_try_post_invalid _ _ _ _ initial_result c clock (S n)
                Hp Hrun Hv Hops Hrun' Hv') as Htry.
  rewrite (@executeAtomicMigration_thrown handlers _ _ r0 _ _ _ _ _ _ _
             Hp Htry eq_refl eq_refl eq_refl eq_refl Hundo).
  subst res. destruct undone; simpl; rewrite ?app_nil_r; reflexivity.
Qed.

(** X19.  A pre-flight check that throws ends the run like a failed one, and its
    error is dropped: no operation is attempted, the rollback is run, and
    the result holds no validation report and no issue besides a failed
    rollback. *)
Theorem throwing_check_is_not_reported
  (engine : t) (p : MigrationPlan.t) (e : Js.Error)
  (undone : outcome unit) (c' : Console)
  (r0 : MigrationResult.t) (c : Console) (clock : nat -> Z) (n : nat) :
  plan engine = Some p ->
  run_validators (checks_of ValidationCheck.pre p) passing = Thrown e ->
  run_actions (rev (rollbackPlan engine)) c = (undone, c') ->
  let res :=
    {| MigrationResult.success := false;
       MigrationResult.completedOperations := [];
       MigrationResult.failedOperations := [];
       MigrationResult.validationResults := [];
       MigrationResult.rollbackExecuted :=
         match undone with Returned _ => true | Thrown _ => false end;
       MigrationResult.duration := clock (S n) - clock n;
       MigrationResult.issues :=
         match undone with
         | Returned _ => []
         | Thrown e' => [ rollback_failed e' ]
         end |} in
  executeAtomicMigration handlers (mkStore engine r0 c clock n)
  = (Returned res, mkStore (rolled_back engine) res c' clock (S (S n))).
Proof.
  intros Hp Hrun Hundo res.
  pose proof (@migration_try_check_thrown _ _ _ initial_result c clock (S n)
                Hp Hrun) as Htry.
  rewrite (@executeAtomicMigration_thrown handlers _ _ r0 _ _ _ _ _ _ _
             Hp Htry eq_refl eq_refl eq_refl eq_refl Hundo).
  subst res. destruct undone; reflexivity.
Qed.

(** ** Every run *)

(** X20.  An engine that has a plan always returns a result, whatever the
    handlers, the checks and the inverse actions do.  Either the result has
    [success = true], and then nothing was rolled back: the engine and the
    console are as before; or it has [success = false], and then the rollback
    was started: the engine's rollback list is reversed, and either
    [rollbackExecuted = true] or a [ROLLBACK_FAILED] issue ends the issues. *)
Theorem run_succeeds_or_rolls_back
  (engine : t) (p : MigrationPlan.t)
  (r0 : MigrationResult.t) (c : Console) (clock : nat -> Z) (n : nat) :
  plan engine = Some p ->
  exists res s',
    executeAtomicMigration handlers (mkStore engine r0 c clock n) = (Returned res, s')
    /\ result s' = res
    /\ MigrationResult.duration res = clock (S n) - clock n
    /\ (MigrationResult.success res = true
        /\ MigrationResult.rollbackExecuted res = false
        /\ this s' = engine /\ console s' = c
        \/ MigrationResult.success res = false
           /\ this s' = rolled_back engine
           /\ (MigrationResult.rollbackExecuted res = true
               \/ MigrationResult.rollbackExecuted res = false
                  /\ exists e before,
                       MigrationResult.issues res = before ++ [ rollback_failed e ])).
Proof.
  intros Hp.
  destruct (migration_try handlers p (at_try engine c clock n)) as [[u|cause] s] eqn:Htry.
  - destruct (migration_try_careful handlers p _ Htry)
      as [(Hth & Hc & Ht & Hn & Hrb) _].
    pose proof (migration_try_returned _ _ Htry) as Hok.
    destruct s as [th r cs ts ns]. simpl in Hth, Hc, Ht, Hn, Hrb, Hok. subst.
    destruct u.
    rewrite (@executeAtomicMigration_returned handlers _ _ r0 _ _ _ _ Hp Htry).
    do 2 eexists. split; [reflexivity |]. simpl. auto 10.
  - destruct (migration_try_careful handlers p _ Htry)
      as [(Hth & Hc & Ht & Hn & Hrb) Hsucc].
    specialize (Hsucc cause eq_refl). simpl in Hth, Hc, Ht, Hn, Hrb, Hsucc.
    destruct (run_actions (rev (rollbackPlan engine)) c) as [undone c'] eqn:Hundo.
    rewrite (@executeAtomicMigration_thrown handlers _ _ r0 _ _ _ _ _ _ _
               Hp Htry Hth Hc Ht Hn Hundo).
    do 2 eexists. split; [reflexivity |]. simpl.
    split; [reflexivity |]. split; [reflexivity |]. right.
    destruct undone as [[]|e]; simpl.
    + auto.
    + split; [assumption |]. split; [reflexivity |]. right. eauto.
Qed.

(** ** Rolling back twice *)

(** X21.  [executeRollback] reverses the engine's rollback list in place, so
    that a second failed run calls the inverse actions first entry first:
    the order of the first rollback is the reverse of the plan, that of the
    second is the order of the plan, and after two failed runs the engine is
    as it was. *)
Theorem second_rollback_runs_forward
  (engine : t) (p : MigrationPlan.t) (undo : list ReplacementOperation)
  (cause cause' : Js.Error) (s s' : Store)
  (r0 : MigrationResult.t) (c : Console) (clock : nat -> Z) (n : nat) :
  plan engine = Some p ->
  rollbackPlan engine = generateRollbackPlan undo ->
  let first := c ++ map rollback_line (rev (map id undo)) in
  let second := first ++ map rollback_line (map id undo) in
  migration_try handlers p (at_try engine c clock n) = (Thrown cause, s) ->
  migration_try handlers p (at_try (rolled_back engine) first clock (S (S n)))
  = (Thrown cause', s') ->
  exists res res',
    executeAtomicMigration handlers (mkStore engine r0 c clock n)
    = (Returned res, mkStore (rolled_back engine) res first clock (S (S n)))
    /\ executeAtomicMigration handlers
         (mkStore (rolled_back engine) res first clock (S (S n)))
       = (Returned res', mkStore engine res' second clock (S (S (S (S n))))).
Proof.
  intros Hp Hundo first second Htry Htry'.
  destruct (migration_try_careful handlers p _ Htry)
    as [(Hth & Hc & Ht & Hn & _) _].
  destruct (migration_try_careful handlers p _ Htry')
    as [(Hth' & Hc' & Ht' & Hn' & _) _].
  simpl in Hth, Hc, Ht, Hn, Hth', Hc', Ht', Hn'.
  assert (Hroll : run_actions (rev (rollbackPlan engine)) c = (Returned tt, first))
    by now rewrite Hundo, rev_generateRollbackPlan, run_actions_generated, map_rev.
  assert (Hroll' : run_actions (rev (rollbackPlan (rolled_back engine))) first
                   = (Returned tt, second)).
  { cbn [rolled_back rollbackPlan]. rewrite rev_involutive, Hundo.
    now rewrite run_actions_generated. }
  assert (Hback : rolled_back (rolled_back engine) = engine).
  { destruct engine as [st pl rb]. unfold rolled_back. simpl.
    now rewrite rev_involutive. }
  do 2 eexists. split.
  - exact (@executeAtomicMigration_thrown handlers _ _ r0 _ _ _ _ _ _ _
             Hp Htry Hth Hc Ht Hn Hroll).
  - rewrite <- Hback at 2.
    exact (@executeAtomicMigration_thrown handlers (rolled_back engine) p _ _ _ _ _ _ _ _
             Hp Htry' Hth' Hc' Ht' Hn' Hroll').
Qed.

End EngineRuns.

(** ** The engine on more sample plans *)

Lemma runValidations_report_witness :
  fst (MigrationEngine.runValidations ValidationCheck.pre
         (Samples.store_of
            (Samples.engine_of Samples.three_critical
               [ Samples.failing_preflight; Samples.warning_check ])))
  = Returned
      {| valid := false;
         issues := [ Samples.no_content ];
         warnings :=
           [ "Para SDK already present - migration may overwrite existing configuration" ] |}.
Proof.
  unfold Samples.store_of.
  rewrite (@runValidations_report ValidationCheck.pre
             (Samples.engine_of Samples.three_critical
                [ Samples.failing_preflight; Samples.warning_check ])
             (Samples.plan_of Samples.three_critical
                [ Samples.failing_preflight; Samples.warning_check ])
             [ {| valid := false; issues := [ Samples.no_content ]; warnings := [] |};
               AtomicValidator.checkForConflicts Samples.mock_state ]
             MigrationEngine.initial_result [] Samples.clock 0%nat
             eq_refl eq_refl).
  reflexivity.
Defined.

Lemma post_validation_failure_rolls_back_witness :
  let run :=
    MigrationEngine.executeAtomicMigration (Samples.failing_on [ "op-b" ])
      (Samples.store_of
         (Samples.engine_of Samples.with_optional_step [ Cases.failing_postcheck ])) in
  (exists res,
      fst run = Returned res
      /\ MigrationResult.success res = false
      /\ MigrationResult.completedOperations res = [ "op-a"; "op-c" ]
      /\ MigrationResult.failedOperations res = [ "op-b" ]
      /\ map ValidationIssue.code (MigrationResult.issues res) = [ "MISSING_PARA_MODAL" ]
      /\ MigrationResult.rollbackExecuted res = true)
  /\ MigrationEngine.console (snd run)
     = [ "Rolling back operation op-c"; "Rolling back operation op-b";
         "Rolling back operation op-a" ].
Proof.
  cbv zeta. unfold Samples.store_of.
  assert (Hops : forall o,
             In o (MigrationPlan.replacements
                     (Samples.plan_of Samples.with_optional_step
                        [ Cases.failing_postcheck ])) ->
             MigrationEngine.fails (Samples.failing_on [ "op-b" ]) o = true ->
             critical o = false).
  { intros o [<- | [<- | [<- | []]]] Hf; vm_compute in Hf;
      try discriminate Hf; reflexivity. }
  rewrite (@post_validation_failure_rolls_back
             (Samples.failing_on [ "op-b" ])
             (Samples.engine_of Samples.with_optional_step [ Cases.failing_postcheck ])
             (Samples.plan_of Samples.with_optional_step [ Cases.failing_postcheck ])
             MigrationEngine.passing
             (AtomicValidator.validateParaModalPresent Cases.half_migrated)
             (Returned tt)
             [ "Rolling back operation op-c"; "Rolling back operation op-b";
               "Rolling back operation op-a" ]
             MigrationEngine.initial_result [] Samples.clock 0%nat
             eq_refl eq_refl eq_refl Hops eq_refl eq_refl eq_refl).
  split; [eexists; split; [reflexivity |] |]; repeat split.
Defined.

Lemma throwing_check_is_not_reported_witness :
  fst (MigrationEngine.executeAtomicMigration placeholder_handlers
         (Samples.store_of
            (Samples.engine_of Samples.three_critical [ Cases.throwing_check ])))
  = Returned
      {| MigrationResult.success := false;
         MigrationResult.completedOperations := [];
         MigrationResult.failedOperations := [];
         MigrationResult.validationResults := [];
         MigrationResult.rollbackExecuted := true;
         MigrationResult.duration := 7;
         MigrationResult.issues := [] |}.
Proof.
  unfold Samples.store_of.
  rewrite (@throwing_check_is_not_reported placeholder_handlers
             (Samples.engine_of Samples.three_critical [ Cases.throwing_check ])
             (Samples.plan_of Samples.three_critical [ Cases.throwing_check ])
             (Js.mkError "ENOENT: no such file or directory, open 'package.json'")
             (Returned tt)
             [ "Rolling back operation op-c"; "Rolling back operation op-b";
               "Rolling back operation op-a" ]
             MigrationEngine.initial_result [] Samples.clock 0%nat
             eq_refl eq_refl eq_refl).
  reflexivity.
Defined.

Lemma run_succeeds_or_rolls_back_witness :
  exists res s',
    MigrationEngine.executeAtomicMigration (Samples.failing_on [ "op-b" ])
      (MigrationEngine.mkStore (Samples.engine_of Samples.three_critical [])
         MigrationEngine.initial_result [] Samples.clock 0)
    = (Returned res, s')
    /\ MigrationEngine.result s' = res
    /\ MigrationResult.duration res = Samples.clock 1 - Samples.clock 0
    /\ (MigrationResult.success res = true
        /\ MigrationResult.rollbackExecuted res = false
        /\ MigrationEngine.this s' = Samples.engine_of Samples.three_critical []
        /\ MigrationEngine.console s' = []
        \/ MigrationResult.success res = false
           /\ MigrationEngine.this s'
              = MigrationEngine.rolled_back (Samples.engine_of Samples.three_critical [])
           /\ (MigrationResult.rollbackExecuted res = true
               \/ MigrationResult.rollbackExecuted res = false
                  /\ exists e before,
                       MigrationResult.issues res
                       = before ++ [ MigrationEngine.rollback_failed e ])).
Proof.
  exact (@run_succeeds_or_rolls_back (Samples.failing_on [ "op-b" ])
           (Samples.engine_of Samples.three_critical [])
           (Samples.plan_of Samples.three_critical [])
           MigrationEngine.initial_result [] Samples.clock 0%nat eq_refl).
Defined.

Lemma second_rollback_runs_forward_witness :
  let engine := Samples.engine_of Samples.three_critical [ Samples.failing_preflight ] in
  let first :=
    [ "Rolling back operation op-c"; "Rolling back operation op-b";
      "Rolling back operation op-a" ] in
  let second :=
    first ++ [ "Rolling back operation op-a"; "Rolling back operation op-b";
               "Rolling back operation op-c" ] in
  exists res res',
    MigrationEngine.executeAtomicMigration placeholder_handlers
      (MigrationEngine.mkStore engine MigrationEngine.initial_result [] Samples.clock 0)
    = (Returned res,
       MigrationEngine.mkStore (MigrationEngine.rolled_back engine) res first
                               Samples.clock 2)
    /\ MigrationEngine.executeAtomicMigration placeholder_handlers
         (MigrationEngine.mkStore (MigrationEngine.rolled_back engine) res first
                                  Samples.clock 2)
       = (Returned res', MigrationEngine.mkStore engine res' second Samples.clock 4).
Proof.
  cbv zeta.
  exact (@second_rollback_runs_forward placeholder_handlers
           (Samples.engine_of Samples.three_critical [ Samples.failing_preflight ])
           (Samples.plan_of Samples.three_critical [ Samples.failing_preflight ])
           Samples.three_critical _ _ _ _
           MigrationEngine.initial_result [] Samples.clock 0%nat
           eq_refl eq_refl eq_refl eq_refl).
Defined.

(** ** The engine as its public methods drive it *)

(** X22.  Scanning, planning and running in a row, whatever the project path, the
    strategy, the handlers and the engine before: the plan holds no
    operation, so none is run, both batteries pass and the result has
    [success = true]; the engine's own rollback list is left as it was. *)
Theorem public_pipeline_applies_nothing
  (handlers : OperationHandlers) (projectPath : string) (strategy : MigrationStrategy)
  (s : MigrationEngine.Store) :
  let pipeline :=
    MigrationEngine.bind (MigrationEngine.scanProjectState projectPath) (fun _ =>
    MigrationEngine.bind (MigrationEngine.createReplacementPlan strategy) (fun _ =>
    MigrationEngine.executeAtomicMigration handlers)) in
  let res :=
    {| MigrationResult.success := true;
       MigrationResult.completedOperations := [];
       MigrationResult.failedOperations := [];
       MigrationResult.validationResults :=
         [ MigrationEngine.passing; MigrationEngine.passing ];
       MigrationResult.rollbackExecuted := false;
       MigrationResult.duration :=
         MigrationEngine.time s (S (MigrationEngine.reads s))
         - MigrationEngine.time s (MigrationEngine.reads s);
       MigrationResult.issues := [] |} in
  fst (pipeline s) = Returned res
  /\ MigrationEngine.result (snd (pipeline s)) = res
  /\ MigrationEngine.console (snd (pipeline s)) = MigrationEngine.console s
  /\ MigrationEngine.rollbackPlan (MigrationEngine.this (snd (pipeline s)))
     = MigrationEngine.rollbackPlan (MigrationEngine.this s)
  /\ option_map MigrationPlan.replacements
       (MigrationEngine.plan (MigrationEngine.this (snd (pipeline s))))
     = Some [].
Proof.
  destruct s as [[st pl rb] r c t n]. cbv zeta. repeat split.
Qed.

(** * Properties of the tool dispatcher *)

Lemma as_strategy_truthy (v : Js.value) (strategy : MigrationStrategy) :
  Server.as_strategy v = Some strategy -> Js.truthy v = true.
Proof.
  destruct v as [| |b|n|s|fields]; try discriminate.
  unfold Server.as_strategy. intros H.
  apply find_some in H as [_ H]. apply String.eqb_eq in H. subst s.
  now destruct strategy.
Qed.

Lemma CallTool_migrate (args : list (string * Js.value)) (strategy : MigrationStrategy) :
  Server.as_strategy (Js.get args "strategy") = Some strategy ->
  Server.CallTool "execute_atomic_migration" (Some args)
  = Some (Server.reported "execute_atomic_migration" (Server.migrate args strategy)).
Proof.
  intros H. unfold Server.CallTool. cbn [String.eqb Ascii.eqb Bool.eqb].
  unfold Server.execute_atomic_migration.
  now rewrite (as_strategy_truthy _ H), H.
Qed.

(** X23.  [analyze_project] never finds a provider: whatever the arguments and
    whatever the project, it answers with an empty project state and no
    detected strategy, and leaves the engine with that empty state. *)
Theorem analyze_project_detects_nothing
  (args : list (string * Js.value)) (s : MigrationEngine.Store) :
  let empty := mkProjectState [] [] [] [] [] [] in
  Server.answers "analyze_project" (Some args) s
    {| Server.text :=
         Json.stringify EmptyString
           (Json.Object
              [ ("projectState", Json.of_state empty);
                ("detectedStrategy", Json.Null);
                ("recommendations",
                 Json.Str "No supported wallet provider detected for migration.") ]);
       Server.isError := None |}
    (MigrationEngine.mkStore
       (MigrationEngine.mk (Some empty)
          (MigrationEngine.plan (MigrationEngine.this s))
          (MigrationEngine.rollbackPlan (MigrationEngine.this s)))
       (MigrationEngine.result s) (MigrationEngine.console s)
       (MigrationEngine.time s) (MigrationEngine.reads s)).
Proof.
  cbv zeta. eexists. split; reflexivity.
Qed.

(** X24.  A migration asked for without a strategy is always refused: the scan
    finds nothing, so no strategy is detected, and neither a plan nor a
    run is made. *)
Theorem migration_without_strategy_is_refused
  (args : list (string * Js.value)) (s : MigrationEngine.Store) :
  Js.truthy (Js.get args "strategy") = false ->
  Server.answers "execute_atomic_migration" (Some args) s
    {| Server.text := "Error: No migration strategy detected or specified";
       Server.isError := Some true |}
    (MigrationEngine.mkStore
       (MigrationEngine.mk (Some (mkProjectState [] [] [] [] [] []))
          (MigrationEngine.plan (MigrationEngine.this s))
          (MigrationEngine.rollbackPlan (MigrationEngine.this s)))
       (MigrationEngine.result s) (MigrationEngine.console s)
       (MigrationEngine.time s) (MigrationEngine.reads s)).
Proof.
  intros H. eexists. split.
  - unfold Server.CallTool. cbn [String.eqb Ascii.eqb Bool.eqb].
    unfold Server.execute_atomic_migration. rewrite H. reflexivity.
  - reflexivity.
Qed.

Lemma migration_without_strategy_is_refused_witness :
  Server.answers "execute_atomic_migration"
    (Some [ ("projectPath", Js.Str "./test-project"); ("dryRun", Js.Bool true) ])
    (Samples.store_of MigrationEngine.new)
    {| Server.text := "Error: No migration strategy detected or specified";
       Server.isError := Some true |}
    (Samples.store_of
       (MigrationEngine.mk (Some (mkProjectState [] [] [] [] [] [])) None [])).
Proof.
  exact (@migration_without_strategy_is_refused
           [ ("projectPath", Js.Str "./test-project"); ("dryRun", Js.Bool true) ]
           (Samples.store_of MigrationEngine.new) eq_refl).
Defined.

(** X25.  An actual run does not make its plan: with a strategy given and no
    plan left by an earlier dry run, the call is answered with the error of
    [executeAtomicMigration] and nothing changes. *)
Theorem run_needs_a_dry_run_first
  (args : list (string * Js.value)) (strategy : MigrationStrategy)
  (s : MigrationEngine.Store) :
  Server.as_strategy (Js.get args "strategy") = Some strategy ->
  Js.truthy (Js.get args "dryRun") = false ->
  MigrationEngine.plan (MigrationEngine.this s) = None ->
  Server.answers "execute_atomic_migration" (Some args) s
    {| Server.text :=
         "Error executing execute_atomic_migration: Must create replacement plan first";
       Server.isError := Some true |}
    s.
Proof.
  intros Hs Hdry Hplan. eexists. split; [exact (CallTool_migrate _ Hs) |].
  unfold Server.reported, Server.migrate, MigrationEngine.try_catch. rewrite Hdry.
  unfold MigrationEngine.executeAtomicMigration, MigrationEngine.bind,
    MigrationEngine.get_this.
  now rewrite Hplan.
Qed.

Lemma run_needs_a_dry_run_first_witness :
  Server.answers "execute_atomic_migration"
    (Some [ ("projectPath", Js.Str "./test-project");
            ("strategy", Js.Str "privy-to-para") ])
    (Samples.store_of MigrationEngine.new)
    {| Server.text :=
         "Error executing execute_atomic_migration: Must create replacement plan first";
       Server.isError := Some true |}
    (Samples.store_of MigrationEngine.new).
Proof.
  exact (@run_needs_a_dry_run_first
           [ ("projectPath", Js.Str "./test-project");
             ("strategy", Js.Str "privy-to-para") ]
           PRIVY_TO_PARA (Samples.store_of MigrationEngine.new)
           eq_refl eq_refl eq_refl).
Defined.

(** X26.  A dry run with a strategy given does not scan: on an engine that has
    no project state yet it is answered with the error of
    [createReplacementPlan] and nothing changes. *)
Theorem dry_run_needs_a_scan_first
  (args : list (string * Js.value)) (strategy : MigrationStrategy)
  (s : MigrationEngine.Store) :
  Server.as_strategy (Js.get args "strategy") = Some strategy ->
  Js.truthy (Js.get args "dryRun") = true ->
  MigrationEngine.state (MigrationEngine.this s) = None ->
  Server.answers "execute_atomic_migration" (Some args) s
    {| Server.text :=
         "Error executing execute_atomic_migration: Must scan project state first";
       Server.isError := Some true |}
    s.
Proof.
  intros Hs Hdry Hstate. eexists. split; [exact (CallTool_migrate _ Hs) |].
  unfold Server.reported, Server.migrate, MigrationEngine.try_catch. rewrite Hdry.
  unfold MigrationEngine.createReplacementPlan, MigrationEngine.bind,
    MigrationEngine.get_this.
  now rewrite Hstate.
Qed.

Lemma dry_run_needs_a_scan_first_witness :
  Server.answers "execute_atomic_migration"
    (Some [ ("projectPath", Js.Str "./test-project");
            ("strategy", Js.Str "reown-to-para"); ("dryRun", Js.Bool true) ])
    (Samples.store_of MigrationEngine.new)
    {| Server.text :=
         "Error executing execute_atomic_migration: Must scan project state first";
       Server.isError := Some true |}
    (Samples.store_of MigrationEngine.new).
Proof.
  exact (@dry_run_needs_a_scan_first
           [ ("projectPath", Js.Str "./test-project");
             ("strategy", Js.Str "reown-to-para"); ("dryRun", Js.Bool true) ]
           REOWN_TO_PARA (Samples.store_of MigrationEngine.new)
           eq_refl eq_refl eq_refl).
Defined.

(** X27.  The calls that migrate: an analysis, a dry run with a strategy, then a
    run with any strategy.  The run executes the plan of the dry run,
    whatever strategy it is given itself; that plan holds no operation, and
    the run is answered with a successful result and [isError = false]. *)
Theorem analysis_dry_run_and_run_succeed
  (args1 args2 args3 : list (string * Js.value))
  (strategy strategy' : MigrationStrategy) (s : MigrationEngine.Store) :
  Server.as_strategy (Js.get args2 "strategy") = Some strategy ->
  Js.truthy (Js.get args2 "dryRun") = true ->
  Server.as_strategy (Js.get args3 "strategy") = Some strategy' ->
  Js.truthy (Js.get args3 "dryRun") = false ->
  exists r1 s1 r2 s2 r3 s3,
    Server.answers "analyze_project" (Some args1) s r1 s1
    /\ Server.answers "execute_atomic_migration" (Some args2) s1 r2 s2
    /\ Server.answers "execute_atomic_migration" (Some args3) s2 r3 s3
    /\ Server.isError r1 = None
    /\ Server.isError r2 = None
    /\ option_map MigrationPlan.strategy
         (MigrationEngine.plan (MigrationEngine.this s3)) = Some strategy
    /\ r3 = {| Server.text :=
                 Json.stringify EmptyString
                   (Json.of_result
                      {| MigrationResult.success := true;
                         MigrationResult.completedOperations := [];
                         MigrationResult.failedOperations := [];
                         MigrationResult.validationResults :=
                           [ MigrationEngine.passing; MigrationEngine.passing ];
                         MigrationResult.rollbackExecuted := false;
                         MigrationResult.duration :=
                           MigrationEngine.time s (S (MigrationEngine.reads s))
                           - MigrationEngine.time s (MigrationEngine.reads s);
                         MigrationResult.issues := [] |});
               Server.isError := Some false |}.
Proof.
  intros Hs2 Hdry2 Hs3 Hdry3. destruct s as [[st pl rb] r c t n].
  set (scanned := Some (mkProjectState [] [] [] [] [] [])).
  set (planned :=
         Some (MigrationPlan.mk strategy [] (MigrationEngine.generateValidations strategy)
                 [] 30)).
  set (res := {| MigrationResult.success := true;
                 MigrationResult.completedOperations := [];
                 MigrationResult.failedOperations := [];
                 MigrationResult.validationResults :=
                   [ MigrationEngine.passing; MigrationEngine.passing ];
                 MigrationResult.rollbackExecuted := false;
                 MigrationResult.duration := t (S n) - t n;
                 MigrationResult.issues := [] |}).
  eexists.
  exists (MigrationEngine.mkStore (MigrationEngine.mk scanned pl rb) r c t n).
  eexists.
  exists (MigrationEngine.mkStore (MigrationEngine.mk scanned planned rb) r c t n).
  exists {| Server.text := Json.stringify EmptyString (Json.of_result res);
            Server.isError := Some false |}.
  exists (MigrationEngine.mkStore (MigrationEngine.mk scanned planned rb) res c t
                                  (S (S n))).
  split; [| split; [| split]].
  - eexists. split; reflexivity.
  - eexists. split; [exact (CallTool_migrate _ Hs2) |].
    unfold Server.reported, Server.migrate. rewrite Hdry2. reflexivity.
  - eexists. split; [exact (CallTool_migrate _ Hs3) |].
    unfold Server.reported, Server.migrate. rewrite Hdry3. reflexivity.
  - repeat split.
Qed.

Lemma analysis_dry_run_and_run_succeed_witness :
  exists r1 s1 r2 s2 r3 s3,
    Server.answers "analyze_project"
      (Some [ ("projectPath", Js.Str "./test-project") ])
      (Samples.store_of MigrationEngine.new) r1 s1
    /\ Server.answers "execute_atomic_migration"
         (Some [ ("projectPath", Js.Str "./test-project");
                 ("strategy", Js.Str "privy-to-para"); ("dryRun", Js.Bool true) ])
         s1 r2 s2
    /\ Server.answers "execute_atomic_migration"
         (Some [ ("projectPath", Js.Str "./test-project");
                 ("strategy", Js.Str "reown-to-para") ])
         s2 r3 s3
    /\ Server.isError r1 = None
    /\ Server.isError r2 = None
    /\ option_map MigrationPlan.strategy
         (MigrationEngine.plan (MigrationEngine.this s3)) = Some PRIVY_TO_PARA
    /\ r3 = {| Server.text :=
                 Json.stringify EmptyString
                   (Json.of_result
                      {| MigrationResult.success := true;
                         MigrationResult.completedOperations := [];
                         MigrationResult.failedOperations := [];
                         MigrationResult.validationResults :=
                           [ MigrationEngine.passing; MigrationEngine.passing ];
                         MigrationResult.rollbackExecuted := false;
                         MigrationResult.duration :=
                           MigrationEngine.time (Samples.store_of MigrationEngine.new) 1
                           - MigrationEngine.time (Samples.store_of MigrationEngine.new) 0;
                         MigrationResult.issues := [] |});
               Server.isError := Some false |}.
Proof.
  exact (@analysis_dry_run_and_run_succeed
           [ ("projectPath", Js.Str "./test-project") ]
           [ ("projectPath", Js.Str "./test-project");
             ("strategy", Js.Str "privy-to-para"); ("dryRun", Js.Bool true) ]
           [ ("projectPath", Js.Str "./test-project");
             ("strategy", Js.Str "reown-to-para") ]
           PRIVY_TO_PARA REOWN_TO_PARA (Samples.store_of MigrationEngine.new)
           eq_refl eq_refl eq_refl eq_refl).
Defined.

(** X28.  [validate_migration_state] reads nothing of the project: whatever the
    arguments and whatever the engine has done, it answers that the
    migration is valid, without issue or warning, and changes nothing. *)
Theorem validate_migration_state_always_valid
  (args : list (string * Js.value)) (s : MigrationEngine.Store) :
  Server.answers "validate_migration_state" (Some args) s
    {| Server.text :=
         Json.stringify EmptyString
           (Json.Object [ ("valid", Json.Bool true);
                          ("issues", Json.Array []);
                          ("warnings", Json.Array []) ]);
       Server.isError := Some false |}
    s.
Proof.
  eexists. split; reflexivity.
Qed.

Lemma reported_answers (name : string) (m : MigrationEngine.M Server.Response)
  (s : MigrationEngine.Store) :
  exists response s', Server.reported name m s = (Returned response, s').
Proof.
  unfold Server.reported, MigrationEngine.try_catch.
  destruct (m s) as [[response|e] s']; do 2 eexists; reflexivity.
Qed.

(** X29.  A call that the model covers is always answered, never rejected:
    whatever is thrown on the way is caught and turned into an answer. *)
Theorem CallTool_always_answers
  (name : string) (args : option (list (string * Js.value)))
  (handler : MigrationEngine.M Server.Response) (s : MigrationEngine.Store) :
  Server.CallTool name args = Some handler ->
  exists response s', handler s = (Returned response, s').
Proof.
  unfold Server.CallTool. intros H.
  assert (Hreported : forall m, Some (Server.reported name m) = Some handler ->
                                exists response s', handler s = (Returned response, s')).
  { intros m Hm. inversion Hm. apply reported_answers. }
  destruct args as [args|].
  - destruct (String.eqb name "analyze_project"); [exact (Hreported _ H) |].
    destruct (String.eqb name "execute_atomic_migration").
    { destruct (Server.execute_atomic_migration args) as [m|]; simpl in H;
        [exact (Hreported _ H) | discriminate H]. }
    destruct (String.eqb name "validate_migration_state"); [exact (Hreported _ H) |].
    destruct (Js.array_includes Server.legacy_tools name); [discriminate H |].
    exact (Hreported _ H).
  - inversion H. do 2 eexists. reflexivity.
Qed.

Lemma CallTool_always_answers_witness :
  let call :=
    Server.reported "migrate_everything"
      (MigrationEngine.throw (Js.mkError "Unknown tool: migrate_everything"))
      (Samples.store_of MigrationEngine.new) in
  Server.CallTool "migrate_everything" (Some [])
  = Some (Server.reported "migrate_everything"
            (MigrationEngine.throw (Js.mkError "Unknown tool: migrate_everything")))
  /\ fst call
     = Returned
         {| Server.text :=
              "Error executing migrate_everything: Unknown tool: migrate_everything";
            Server.isError := Some true |}
  /\ exists response s', call = (Returned response, s').
Proof.
  cbv zeta. split; [reflexivity | split; [reflexivity |]].
  exact (@CallTool_always_answers "migrate_everything" (Some [])
           _ (Samples.store_of MigrationEngine.new) eq_refl).
Defined.
